(** * reg-sci-tracker: the cropdb importers, embedded and verified

    The repository is a set of command-line tools that fill a SQLite
    database of crops and exposure scenarios: [eppo_verify.py],
    [import_focus_sw_characteristics.py], [import_interception.py],
    [import_primo.py], [import_swash_json.py] and [import_swash_mdb.py].

    This development embeds them as Rocq functions and proves (or refutes)
    the properties that the specification states about them.

    Conventions of the embedding.
    - A Python [str] is a [string]; every character is a code point below
      256, for which [\d], [str.strip] and [str.lower] are modelled exactly.
    - Code that can raise returns a [result]; [SystemExit] is the exception
      raised by [sys.exit].
    - A SQLite connection is a pair of database states: what is committed on
      disk and what the open transaction sees.  Statements act on the
      second, [commit] copies it to the first, and a connection that is
      closed or dropped loses what was not committed.
    - A [print] is recorded as an event that holds the text of the format
      string and the values interpolated into it. *)

From Stdlib Require Import ZArith List String Ascii Bool Lia DecimalString.
Import ListNotations.
Open Scope string_scope.
Open Scope list_scope.
Open Scope Z_scope.

Set Implicit Arguments.
Set Warnings "-register-all".

(* ================================================================== *)
(** * Python strings *)
(* ================================================================== *)

Module Str.

Definition LF : ascii := "010"%char.

(** [\d] on code points below 256: the ten ASCII digits. *)
Definition is_digit (c : ascii) : bool :=
  let n := nat_of_ascii c in (48 <=? n)%nat && (n <=? 57)%nat.

(** [str.isspace] on code points below 256. *)
Definition is_space (c : ascii) : bool :=
  let n := nat_of_ascii c in
  ((9 <=? n)%nat && (n <=? 13)%nat) || ((28 <=? n)%nat && (n <=? 32)%nat)
  || (n =? 133)%nat || (n =? 160)%nat.

Fixpoint all_digits (s : string) : bool :=
  match s with
  | EmptyString => true
  | String c s' => is_digit c && all_digits s'
  end.

(** The longest run of digits at the front of [s], and what follows it. *)
Fixpoint span_digits (s : string) : nat * string :=
  match s with
  | EmptyString => (O, EmptyString)
  | String c s' =>
      if is_digit c
      then let (n, rest) := span_digits s' in (S n, rest)
      else (O, s)
  end.

(** Where [$] matches without [re.MULTILINE]: at the very end of the
    string, and just before a line feed that is its last character. *)
Definition at_dollar (rest : string) : bool :=
  match rest with
  | EmptyString => true
  | String c EmptyString => Ascii.eqb c LF
  | _ => false
  end.

(** [re.match(r'^\d{lo,hi}$', s)] as a truth value. *)
Definition re_match_digits (lo hi : nat) (s : string) : bool :=
  let (n, rest) := span_digits s in
  (lo <=? n)%nat && (n <=? hi)%nat && at_dollar rest.

(** [s.endswith(suffix)] *)
Definition endswith (s suffix : string) : bool :=
  (String.length suffix <=? String.length s)%nat
  && String.eqb
       (substring (String.length s - String.length suffix)
                  (String.length suffix) s)
       suffix.

(** [s[:n]] *)
Definition slice_to (n : nat) (s : string) : string := substring 0 n s.

(** [s[-n:]] for [n > 0] *)
Definition slice_last (n : nat) (s : string) : string :=
  substring (String.length s - n) n s.

Fixpoint lstrip (s : string) : string :=
  match s with
  | EmptyString => EmptyString
  | String c s' => if is_space c then lstrip s' else s
  end.

Fixpoint rstrip (s : string) : string :=
  match s with
  | EmptyString => EmptyString
  | String c s' =>
      match rstrip s' with
      | EmptyString => if is_space c then EmptyString else String c EmptyString
      | r => String c r
      end
  end.

(** [s.strip()] *)
Definition strip (s : string) : string := rstrip (lstrip s).

(** [str.lower] on code points below 256: A-Z and the accented capitals
    0xC0-0xDE (0xD7, the multiplication sign, apart) move up by 32. *)
Definition lower_char (c : ascii) : ascii :=
  let n := nat_of_ascii c in
  if ((65 <=? n)%nat && (n <=? 90)%nat)
     || ((192 <=? n)%nat && (n <=? 222)%nat && negb (n =? 215)%nat)
  then ascii_of_nat (n + 32)
  else c.

Fixpoint lower (s : string) : string :=
  match s with
  | EmptyString => EmptyString
  | String c s' => String (lower_char c) (lower s')
  end.

Fixpoint repeat_char (c : ascii) (n : nat) : string :=
  match n with
  | O => EmptyString
  | S n' => String c (repeat_char c n')
  end.

(** [s.zfill(width)]: a leading sign stays in front of the padding. *)
Definition zfill (width : nat) (s : string) : string :=
  let pad := repeat_char "0"%char (width - String.length s) in
  match s with
  | String c s' =>
      if Ascii.eqb c "+"%char || Ascii.eqb c "-"%char
      then String c (pad ++ s')%string
      else (pad ++ s)%string
  | EmptyString => pad
  end.

(** [str(n)] for an [int]. *)
Definition of_Z (z : Z) : string := NilZero.string_of_int (Z.to_int z).

Definition is_empty (s : string) : bool :=
  match s with EmptyString => true | _ => false end.

(** [s.split(sep)] for a one-character separator. *)
Fixpoint split (sep : ascii) (s : string) : list string :=
  match s with
  | EmptyString => [EmptyString]
  | String c s' =>
      if Ascii.eqb c sep then EmptyString :: split sep s'
      else match split sep s' with
           | [] => [String c EmptyString]
           | w :: ws => String c w :: ws
           end
  end.

End Str.

(* ================================================================== *)
(** * Exceptions *)
(* ================================================================== *)

Inductive exn : Type :=
| SystemExit (msg : string)
| ValueError
| TypeError
| AttributeError
| IndexError
| OverflowError
| FileNotFoundError
| RequestError (msg : string)
| DatabaseError (msg : string).

Inductive result (A : Type) : Type :=
| Ok (a : A)
| Raise (e : exn).

Arguments Ok {A} a.
Arguments Raise {A} e.

Definition bind {A B : Type} (r : result A) (k : A -> result B) : result B :=
  match r with
  | Ok a => k a
  | Raise e => Raise e
  end.

Notation "x <- r ;; k" := (bind r (fun x => k))
  (at level 61, r at next level, right associativity).

Notation "' pat <- r ;; k" := (bind r (fun x => match x with pat => k end))
  (at level 61, pat pattern, r at next level, right associativity).

(** A [for] loop whose body may raise: the state is threaded through the
    items, and the first exception ends the loop. *)
Fixpoint for_each {S I : Type} (body : S -> I -> result S)
         (items : list I) (st : S) : result S :=
  match items with
  | [] => Ok st
  | i :: rest =>
      match body st i with
      | Ok st' => for_each body rest st'
      | Raise e => Raise e
      end
  end.

(* ================================================================== *)
(** * import_primo.py: the hierarchy heuristics *)
(* ================================================================== *)

(** The Python values that the two heuristics are applied to. *)
Inductive pyobj : Type :=
| PyNone
| PyBool (b : bool)
| PyInt (z : Z)
| PyStr (s : string).

Definition py_truthy (o : pyobj) : bool :=
  match o with
  | PyNone => false
  | PyBool b => b
  | PyInt z => negb (z =? 0)
  | PyStr s => negb (Str.is_empty s)
  end.

(** [str(o)] *)
Definition py_str (o : pyobj) : string :=
  match o with
  | PyNone => "None"
  | PyBool true => "True"
  | PyBool false => "False"
  | PyInt z => Str.of_Z z
  | PyStr s => s
  end.

Definition parse_hierarchy_level (code : pyobj) : option Z :=
  if negb (py_truthy code) || negb (Str.re_match_digits 7 7 (py_str code))
  then None
  else
    let c := py_str code in
    if Str.endswith c "000" then Some 1
    else if Str.endswith c "00" then Some 2
    else Some 3.

Definition parent_code (code : pyobj) : option string :=
  let c := py_str code in
  if negb (Str.re_match_digits 7 7 c) || Str.endswith c "000"
  then None
  else if Str.endswith c "00" then Some (Str.slice_to 4 c ++ "000")%string
  else if negb (String.eqb (Str.slice_last 2 c) "00")
       then Some (Str.slice_to 5 c ++ "000")%string
       else None.


(** A code of seven digits, and the string that is one line feed. *)
Definition seven_digits (s : string) : Prop :=
  String.length s = 7%nat /\ Str.all_digits s = true.

Definition LFs : string := String Str.LF EmptyString.

(** The character [c] occurs in [s]. *)
Fixpoint has_char (c : ascii) (s : string) : bool :=
  match s with
  | EmptyString => false
  | String a s' => Ascii.eqb a c || has_char c s'
  end.

(** A scenario code as it can stand in a list that commas separate: not
    empty, without white space around it and without a comma. *)
Definition clean_code (w : string) : Prop :=
  w <> EmptyString /\ Str.strip w = w /\ has_char "," w = false.

(* ================================================================== *)
(** * Numbers *)
(* ================================================================== *)

(** [int(s)] for a string: surrounding white space, an optional sign, and
    decimal digits that single underscores may separate. *)
Definition digit_value (c : ascii) : Z := Z.of_nat (nat_of_ascii c) - 48.

Fixpoint int_digits (acc : Z) (after_digit : bool) (s : string) : option Z :=
  match s with
  | EmptyString => if after_digit then Some acc else None
  | String c s' =>
      if Str.is_digit c then int_digits (10 * acc + digit_value c) true s'
      else if Ascii.eqb c "_"%char && after_digit then int_digits acc false s'
      else None
  end.

Definition int_of_str (s : string) : result Z :=
  match Str.strip s with
  | String c s' =>
      if Ascii.eqb c "-"%char
      then match int_digits 0 false s' with
           | Some n => Ok (- n)
           | None => Raise ValueError
           end
      else if Ascii.eqb c "+"%char
      then match int_digits 0 false s' with
           | Some n => Ok n
           | None => Raise ValueError
           end
      else match int_digits 0 false (String c s') with
           | Some n => Ok n
           | None => Raise ValueError
           end
  | EmptyString => Raise ValueError
  end.

(** Python's [float].  Binary floating point is not modelled: the
    development is parametric in the type of floats and in the few
    operations the tools apply to them.  [Floats] is the type alone, which
    is all that the types of the model depend on. *)
Class Floats : Type := float : Type.

Class PyFloat {FT : Floats} : Type := {
  (** [float(n)] for an [int]; [None] stands for [OverflowError] *)
  float_of_Z : Z -> option float;
  (** [float(s)] for a [str]; [None] stands for [ValueError] *)
  float_of_str : string -> option float;
  (** [x == 0], the falsy floats *)
  float_is_zero : float -> bool;
  (** [x == n] for an [int] [n] *)
  float_eq_Z : float -> Z -> bool;
  (** [x == y] *)
  float_eqb : float -> float -> bool;
  (** [x <= y] *)
  float_leb : float -> float -> bool;
  (** [x <= n] and [n <= x] for an [int] [n] *)
  float_leb_Z : float -> Z -> bool;
  Z_leb_float : Z -> float -> bool;
  (** [str(x)] *)
  float_str : float -> string
}.

(* ================================================================== *)
(** * The SQLite database *)
(* ================================================================== *)

Section Embedding.

Context {FT : Floats} {F : PyFloat}.

(** A stored value (blobs are never written by the tools). *)
Inductive value : Type :=
| VNull
| VInt (z : Z)
| VReal (x : float)
| VText (s : string).

(** The comparison [a = b] of a [WHERE] clause, as a truth value: [NULL]
    equals nothing, numbers compare by value, text by its characters. *)
Definition sql_eq (a b : value) : bool :=
  match a, b with
  | VInt x, VInt y => x =? y
  | VReal x, VReal y => float_eqb x y
  | VInt x, VReal y => float_eq_Z y x
  | VReal x, VInt y => float_eq_Z x y
  | VText s, VText t => String.eqb s t
  | _, _ => false
  end.

(** A row gives a value to each of its columns, in the order of the
    column list of the statement that wrote it. *)
Definition row : Type := list (string * value).
Definition table : Type := list row.

Fixpoint col (r : row) (c : string) : value :=
  match r with
  | [] => VNull
  | (k, v) :: r' => if String.eqb k c then v else col r' c
  end.

Fixpoint has_col (r : row) (c : string) : bool :=
  match r with
  | [] => false
  | (k, _) :: r' => String.eqb k c || has_col r' c
  end.

(** [SET c = v] on one row. *)
Definition set_col (c : string) (v : value) (r : row) : row :=
  if has_col r c
  then map (fun kv => if String.eqb (fst kv) c then (fst kv, v) else kv) r
  else r ++ [(c, v)].

Definition set_cols (assignments : list (string * value)) (r : row) : row :=
  fold_left (fun r' kv => set_col (fst kv) (snd kv) r') assignments r.

(** The tables that the tools read or write. *)
Inductive table_name : Type :=
| crops
| eppo_codes
| focus_scenarios
| focus_crops
| focus_crop_scenario_links
| focus_crop_interception
| focus_sw_scenario_characteristics
| focus_crop_scenario_irrigation
| primo_commodities
| reg396_commodities.

Record Database : Type := mkDatabase {
  t_crops : table;
  t_eppo_codes : table;
  t_focus_scenarios : table;
  t_focus_crops : table;
  t_focus_crop_scenario_links : table;
  t_focus_crop_interception : table;
  t_focus_sw_scenario_characteristics : table;
  t_focus_crop_scenario_irrigation : table;
  t_primo_commodities : table;
  t_reg396_commodities : table
}.

Definition tbl (t : table_name) (db : Database) : table :=
  match t with
  | crops => t_crops db
  | eppo_codes => t_eppo_codes db
  | focus_scenarios => t_focus_scenarios db
  | focus_crops => t_focus_crops db
  | focus_crop_scenario_links => t_focus_crop_scenario_links db
  | focus_crop_interception => t_focus_crop_interception db
  | focus_sw_scenario_characteristics => t_focus_sw_scenario_characteristics db
  | focus_crop_scenario_irrigation => t_focus_crop_scenario_irrigation db
  | primo_commodities => t_primo_commodities db
  | reg396_commodities => t_reg396_commodities db
  end.

Definition set_tbl (t : table_name) (x : table) (db : Database) : Database :=
  match db with
  | mkDatabase a b c d e f g h i j =>
      match t with
      | crops => mkDatabase x b c d e f g h i j
      | eppo_codes => mkDatabase a x c d e f g h i j
      | focus_scenarios => mkDatabase a b x d e f g h i j
      | focus_crops => mkDatabase a b c x e f g h i j
      | focus_crop_scenario_links => mkDatabase a b c d x f g h i j
      | focus_crop_interception => mkDatabase a b c d e x g h i j
      | focus_sw_scenario_characteristics => mkDatabase a b c d e f x h i j
      | focus_crop_scenario_irrigation => mkDatabase a b c d e f g x i j
      | primo_commodities => mkDatabase a b c d e f g h x j
      | reg396_commodities => mkDatabase a b c d e f g h i x
      end
  end.

Definition table_name_eqb (a b : table_name) : bool :=
  match a, b with
  | crops, crops | eppo_codes, eppo_codes
  | focus_scenarios, focus_scenarios | focus_crops, focus_crops
  | focus_crop_scenario_links, focus_crop_scenario_links
  | focus_crop_interception, focus_crop_interception
  | focus_sw_scenario_characteristics, focus_sw_scenario_characteristics
  | focus_crop_scenario_irrigation, focus_crop_scenario_irrigation
  | primo_commodities, primo_commodities
  | reg396_commodities, reg396_commodities => true
  | _, _ => false
  end.

(** The schema is created outside the tools.  What the statements of the
    tools depend on is taken as a parameter:
    - [conflict t r old]: the new row [r] collides with the stored row
      [old] on a [UNIQUE] or [PRIMARY KEY] constraint of table [t];
    - [rejects t r]: the message of the error that the engine raises when
      [r] is inserted into [t] (a violated constraint that [OR IGNORE] and
      [OR REPLACE] do not resolve), if it raises. *)
Class Schema : Type := {
  conflict : table_name -> row -> row -> bool;
  rejects : table_name -> row -> option string
}.

Context {Sch : Schema}.

(** [INSERT OR IGNORE]: the row is dropped when it collides. *)
Definition ignore_into (t : table_name) (rows : table) (r : row) : table :=
  if existsb (conflict t r) rows then rows else rows ++ [r].

Definition insert_or_ignore (t : table_name) (r : row) (db : Database)
  : Database :=
  set_tbl t (ignore_into t (tbl t db) r) db.

(** [INSERT OR REPLACE]: the rows it collides with are deleted first. *)
Definition replace_into (t : table_name) (rows : table) (r : row) : table :=
  filter (fun old => negb (conflict t r old)) rows ++ [r].

Definition insert_or_replace (t : table_name) (r : row) (db : Database)
  : Database :=
  set_tbl t (replace_into t (tbl t db) r) db.

(** [UPDATE t SET assignments WHERE cond] *)
Definition update (t : table_name) (assignments : list (string * value))
           (cond : row -> bool) (db : Database) : Database :=
  set_tbl t (map (fun r => if cond r then set_cols assignments r else r)
                 (tbl t db)) db.

(** A plain [INSERT]. *)
Definition insert (t : table_name) (r : row) (db : Database) : Database :=
  set_tbl t (tbl t db ++ [r]) db.

(** The order of [ORDER BY]: [NULL] first, then numbers, then text. *)
Definition value_leb (a b : value) : bool :=
  match a, b with
  | VNull, _ => true
  | _, VNull => false
  | VInt x, VInt y => x <=? y
  | VInt x, VReal y => Z_leb_float x y
  | VReal x, VInt y => float_leb_Z x y
  | VReal x, VReal y => float_leb x y
  | VText s, VText t => String.leb s t
  | VText _, _ => false
  | _, VText _ => true
  end.

Fixpoint insert_sorted (key : row -> value) (x : row) (l : list row)
  : list row :=
  match l with
  | [] => [x]
  | y :: l' =>
      if value_leb (key y) (key x) then y :: insert_sorted key x l'
      else x :: l
  end.

(** [ORDER BY key]: rows with equal keys keep their order. *)
Definition order_by (key : row -> value) (l : list row) : list row :=
  fold_left (fun acc x => insert_sorted key x acc) l [].

(** [SELECT ... FROM t WHERE cond] followed by [fetchone()] *)
Definition select_one (t : table_name) (cond : row -> bool) (db : Database)
  : option row :=
  find cond (tbl t db).

(** ** Connections *)

Record connection : Type := mkConnection {
  committed : Database;
  working : Database
}.

(** [sqlite3.connect(db_path)] on an existing database *)
Definition connect (db : Database) : connection :=
  {| committed := db; working := db |}.

(** [conn.commit()] *)
Definition commit (c : connection) : connection :=
  {| committed := working c; working := working c |}.

(** The database that is left on disk when the connection is closed, or
    dropped at the end of the process: the open transaction is lost. *)
Definition close (c : connection) : Database := committed c.

(** A statement that writes, run inside the open transaction. *)
Definition execute (stmt : Database -> Database) (c : connection)
  : connection :=
  {| committed := committed c; working := stmt (working c) |}.

(** [except Exception] does not handle [SystemExit]. *)
Definition is_exception (e : exn) : bool :=
  match e with
  | SystemExit _ => false
  | _ => true
  end.

(** [try: body except Exception as e: handler(e)] *)
Definition try_except {A : Type} (body : result A) (handler : exn -> result A)
  : result A :=
  match body with
  | Ok a => Ok a
  | Raise e => if is_exception e then handler e else Raise e
  end.

(** An [INSERT], which the engine may refuse. *)
Definition execute_insert
           (ins : table_name -> row -> Database -> Database)
           (t : table_name) (r : row) (c : connection) : result connection :=
  match rejects t r with
  | Some msg => Raise (DatabaseError msg)
  | None => Ok (execute (ins t r) c)
  end.

(** A Python [int] bound to a statement must fit 64 bits. *)
Definition bind_int (z : Z) : result value :=
  if (- 2 ^ 63 <=? z) && (z <? 2 ^ 63) then Ok (VInt z)
  else Raise OverflowError.

(** ** Standard output *)

Inductive arg : Type :=
| AStr (s : string)
| AInt (z : Z)
| ABool (b : bool)
| ANone
| AVal (v : value)
| AExn (e : exn)
| ATuple (l : list arg)
| AList (l : list arg).

Record event : Type := print { fmt : string; args : list arg }.


(** ** What a run leaves behind *)

Inductive outcome : Type :=
| Returned (db : Database) (out : list event)
| Exited (db : Database) (out : list event) (msg : string)
| Crashed (db : Database) (e : exn).

(** The database on disk after the run. *)
Definition db_after (o : outcome) : Database :=
  match o with
  | Returned db _ => db
  | Exited db _ _ => db
  | Crashed db _ => db
  end.

(* ================================================================== *)
(** * Decoded JSON *)
(* ================================================================== *)

Inductive json : Type :=
| JNull
| JBool (b : bool)
| JInt (z : Z)
| JFloat (x : float)
| JStr (s : string)
| JArr (l : list json)
| JObj (d : list (string * json)).

(** Truth value of a decoded JSON value. *)
Definition truthy (j : json) : bool :=
  match j with
  | JNull => false
  | JBool b => b
  | JInt z => negb (z =? 0)
  | JFloat x => negb (float_is_zero x)
  | JStr s => negb (Str.is_empty s)
  | JArr l => match l with [] => false | _ => true end
  | JObj d => match d with [] => false | _ => true end
  end.

(** [a or b] *)
Definition py_or (a b : json) : json := if truthy a then a else b.

(** A key that occurs twice in a JSON object keeps its last value. *)
Fixpoint dict_get (d : list (string * json)) (k : string) : option json :=
  match d with
  | [] => None
  | (k', v) :: d' =>
      match dict_get d' k with
      | Some v' => Some v'
      | None => if String.eqb k' k then Some v else None
      end
  end.

(** [o.get(k)]: only a [dict] has the method. *)
Definition get (o : json) (k : string) : result json :=
  match o with
  | JObj d => Ok (match dict_get d k with Some v => v | None => JNull end)
  | _ => Raise AttributeError
  end.

(** [o.get(k, default)] *)
Definition get_default (o : json) (k : string) (default : json) : result json :=
  match o with
  | JObj d => Ok (match dict_get d k with Some v => v | None => default end)
  | _ => Raise AttributeError
  end.

(** [o.strip()]: only a [str] has the method. *)
Definition strip_of (o : json) : result string :=
  match o with
  | JStr s => Ok (Str.strip s)
  | _ => Raise AttributeError
  end.

(** [(o.get(k) or "").strip()] *)
Definition get_stripped (o : json) (k : string) : result string :=
  v <- get o k ;; strip_of (py_or v (JStr EmptyString)).

Fixpoint chars_of (s : string) : list json :=
  match s with
  | EmptyString => []
  | String c s' => JStr (String c EmptyString) :: chars_of s'
  end.

Fixpoint dict_keys (seen : list string) (d : list (string * json))
  : list json :=
  match d with
  | [] => []
  | (k, _) :: d' =>
      if existsb (String.eqb k) seen then dict_keys seen d'
      else JStr k :: dict_keys (k :: seen) d'
  end.

(** The items that [for x in o] runs through. *)
Definition py_iter (o : json) : result (list json) :=
  match o with
  | JArr l => Ok l
  | JStr s => Ok (chars_of s)
  | JObj d => Ok (dict_keys [] d)
  | _ => Raise TypeError
  end.

(** [float(o)] *)
Definition py_float (o : json) : result float :=
  match o with
  | JInt z =>
      match float_of_Z z with Some x => Ok x | None => Raise OverflowError end
  | JBool b =>
      match float_of_Z (if b then 1 else 0) with
      | Some x => Ok x
      | None => Raise OverflowError
      end
  | JFloat x => Ok x
  | JStr s =>
      match float_of_str s with Some x => Ok x | None => Raise ValueError end
  | _ => Raise TypeError
  end.

(** [float(o) if o is not None else None], as a bound parameter *)
Definition float_or_null (o : json) : result value :=
  match o with
  | JNull => Ok VNull
  | _ => x <- py_float o ;; Ok (VReal x)
  end.

(** [s or None] for a string, as a bound parameter *)
Definition text_or_null (s : string) : value :=
  if Str.is_empty s then VNull else VText s.

(* ================================================================== *)
(** * import_focus_sw_characteristics.py *)
(* ================================================================== *)

Definition SOURCE_REF : string := "Generic FOCUS SWS v1.4 May 2015".

Record char_state : Type := mkCharState {
  char_conn : connection;
  char_updated : Z;
  char_out : list event
}.

(** [WHERE scenario_code = ? AND scenario_type_id = 1] *)
Definition surface_water_scenario (code : string) (r : row) : bool :=
  sql_eq (col r "scenario_code") (VText code)
  && sql_eq (col r "scenario_type_id") (VInt 1).

(** [WHERE swash_crop_name = ?] *)
Definition crop_named (name : string) (r : row) : bool :=
  sql_eq (col r "swash_crop_name") (VText name).

(** The parameters of the [INSERT OR REPLACE] of [import_characteristics],
    evaluated from left to right. *)
Definition characteristics_row (scenario_id : value) (code : string)
           (s lat lon : json) : result row :=
  weather <- get_stripped s "weather_dataset_name" ;;
  lat' <- float_or_null lat ;;
  lon' <- float_or_null lon ;;
  temp <- get s "mean_annual_temp_c" ;;
  temp' <- float_or_null temp ;;
  rain <- get s "annual_rainfall_mm" ;;
  rain' <- float_or_null rain ;;
  texture <- get_stripped s "topsoil_texture" ;;
  carbon <- get s "topsoil_organic_carbon_pct" ;;
  carbon' <- float_or_null carbon ;;
  slope <- get_stripped s "slope_pct" ;;
  water <- get_stripped s "water_bodies" ;;
  Ok [("scenario_id", scenario_id);
      ("scenario_code", VText code);
      ("weather_dataset_name", VText weather);
      ("latitude_deg", lat');
      ("longitude_deg", lon');
      ("mean_annual_temp_c", temp');
      ("annual_rainfall_mm", rain');
      ("topsoil_texture", text_or_null texture);
      ("topsoil_organic_carbon_pct", carbon');
      ("slope_pct", text_or_null slope);
      ("water_bodies", text_or_null water);
      ("source_reference", VText SOURCE_REF)].

(** The body of [for s in scenarios]. *)
Definition char_body (dry_run : bool) (st : char_state) (s : json)
  : result char_state :=
  code <- get_stripped s "scenario_code" ;;
  if Str.is_empty code then Ok st
  else
    match select_one focus_scenarios (surface_water_scenario code)
                     (working (char_conn st)) with
    | None =>
        Ok {| char_conn := char_conn st;
              char_updated := char_updated st;
              char_out := char_out st ++
                [print "  Skip scenario {code}: not found in focus_scenarios (surface water)"
                       [AStr code]] |}
    | Some found =>
        let scenario_id := col found "scenario_id" in
        lat <- get s "latitude_deg" ;;
        lon <- get s "longitude_deg" ;;
        let updated := char_updated st + 1 in
        if negb dry_run
        then
          r <- characteristics_row scenario_id code s lat lon ;;
          conn <- execute_insert insert_or_replace
                    focus_sw_scenario_characteristics r (char_conn st) ;;
          Ok {| char_conn := conn; char_updated := updated;
                char_out := char_out st |}
        else
          Ok {| char_conn := char_conn st; char_updated := updated;
                char_out := char_out st |}
    end.

(** [data.get(a) or data.get(b) or []] *)
Definition first_array (data : json) (a b : string) : result json :=
  x <- get data a ;;
  if truthy x then Ok x
  else y <- get data b ;; Ok (py_or y (JArr [])).

(** [import_characteristics(json_path, db_path, dry_run)].  The file at
    [json_path] is given decoded; [None] stands for a path with no file. *)
Definition import_characteristics (file : option json) (db : Database)
           (dry_run : bool) : outcome :=
  match file with
  | None => Crashed db FileNotFoundError
  | Some data =>
      match first_array data "scenarios" "items" with
      | Raise e => Crashed db e
      | Ok scenarios =>
          if negb (truthy scenarios)
          then Exited db [] "No 'scenarios' or 'items' array in {json_path}"
          else
            let conn := connect db in
            match
              (items <- py_iter scenarios ;;
               for_each (char_body dry_run) items
                        {| char_conn := conn; char_updated := 0;
                           char_out := [] |})
            with
            | Raise e => Crashed (close conn) e
            | Ok st =>
                let out := char_out st ++
                  [print "focus_sw_scenario_characteristics: {updated} rows {'would be ' if dry_run else ''}upserted"
                         [AInt (char_updated st); ABool dry_run]] in
                let conn' := if negb dry_run then commit (char_conn st)
                             else char_conn st in
                Returned (close conn') out
            end
      end
  end.

Record irr_state : Type := mkIrrState {
  irr_conn : connection;
  irr_inserted : Z;
  irr_skipped : list (string * string);
  irr_out : list event
}.

Definition is_none (j : json) : bool :=
  match j with JNull => true | _ => false end.

(** The body of [for r in rows]. *)
Definition irr_body (dry_run : bool) (st : irr_state) (r : json)
  : result irr_state :=
  code <- get_stripped r "scenario_code" ;;
  crop <- get_stripped r "crop" ;;
  mm <- get r "irrigation_mm_annual" ;;
  if Str.is_empty code || Str.is_empty crop || is_none mm then Ok st
  else
    let sc := select_one focus_scenarios (surface_water_scenario code)
                         (working (irr_conn st)) in
    let fc := select_one focus_crops (crop_named crop)
                         (working (irr_conn st)) in
    match sc, fc with
    | Some sc_row, Some fc_row =>
        let inserted := irr_inserted st + 1 in
        if negb dry_run
        then
          x <- py_float mm ;;
          conn <- execute_insert insert_or_replace
                    focus_crop_scenario_irrigation
                    [("focus_crop_id", col fc_row "focus_crop_id");
                     ("scenario_id", col sc_row "scenario_id");
                     ("irrigation_mm_annual", VReal x);
                     ("source_reference", VText SOURCE_REF)]
                    (irr_conn st) ;;
          Ok {| irr_conn := conn; irr_inserted := inserted;
                irr_skipped := irr_skipped st; irr_out := irr_out st |}
        else
          Ok {| irr_conn := irr_conn st; irr_inserted := inserted;
                irr_skipped := irr_skipped st; irr_out := irr_out st |}
    | _, _ =>
        Ok {| irr_conn := irr_conn st; irr_inserted := irr_inserted st;
              irr_skipped := irr_skipped st ++ [(code, crop)];
              irr_out := irr_out st |}
    end.

Definition pair_arg (p : string * string) : arg :=
  ATuple [AStr (fst p); AStr (snd p)].

(** [import_irrigation(json_path, db_path, dry_run)] *)
Definition import_irrigation (file : option json) (db : Database)
           (dry_run : bool) : outcome :=
  match file with
  | None => Crashed db FileNotFoundError
  | Some data =>
      match first_array data "irrigation" "items" with
      | Raise e => Crashed db e
      | Ok rows =>
          if negb (truthy rows)
          then Exited db [] "No 'irrigation' or 'items' array in {json_path}"
          else
            let conn := connect db in
            match
              (items <- py_iter rows ;;
               for_each (irr_body dry_run) items
                        {| irr_conn := conn; irr_inserted := 0;
                           irr_skipped := []; irr_out := [] |})
            with
            | Raise e => Crashed (close conn) e
            | Ok st =>
                let out1 := irr_out st ++
                  [print "focus_crop_scenario_irrigation: {inserted} rows {'would be ' if dry_run else ''}upserted"
                         [AInt (irr_inserted st); ABool dry_run]] in
                let out2 :=
                  match irr_skipped st with
                  | [] => out1
                  | _ => out1 ++
                      [print "  Skipped {len(skipped)} (scenario or crop not found): e.g. {skipped[:5]}"
                             [AInt (Z.of_nat (List.length (irr_skipped st)));
                              AList (map pair_arg (firstn 5 (irr_skipped st)))]]
                  end in
                let conn' := if negb dry_run then commit (irr_conn st)
                             else irr_conn st in
                Returned (close conn') out2
            end
      end
  end.

(** What follows a step of [main]: the process goes on only when the step
    returned. *)
Definition and_then (o : outcome) (k : Database -> list event -> outcome)
  : outcome :=
  match o with
  | Returned db out => k db out
  | Exited db out msg => Exited db out msg
  | Crashed db e => Crashed db e
  end.

Definition prepend (out0 : list event) (o : outcome) : outcome :=
  match o with
  | Returned db out => Returned db (out0 ++ out)
  | Exited db out msg => Exited db (out0 ++ out) msg
  | Crashed db e => Crashed db e
  end.

(** How [main] ends: [sys.exit] because there is no database file, or
    the outcome of the run on the database. *)
Inductive main_outcome : Type :=
| NoDatabase (msg : string)
| Ran (o : outcome).

(** [main()] of import_focus_sw_characteristics.py.  [db_file] is the
    database at [args.db], [char_json] and [irr_json] the two source
    files; [None] stands for a path with no file. *)
Definition focus_main (db_file : option Database)
           (char_json irr_json : option json) (apply : bool)
  : main_outcome :=
  match db_file with
  | None => NoDatabase "Database not found: {args.db}"
  | Some db =>
      let dry_run := negb apply in
      let out0 :=
        if dry_run
        then [print "(Dry run - pass --apply to write to DB)" []]
        else [] in
      let step1 :=
        match char_json with
        | Some _ => prepend out0 (import_characteristics char_json db dry_run)
        | None =>
            Returned db (out0 ++
              [print "Skip characteristics: {args.char_json} not found" []])
        end in
      Ran (and_then step1 (fun db1 out1 =>
        let step2 :=
          match irr_json with
          | Some _ => prepend out1 (import_irrigation irr_json db1 dry_run)
          | None =>
              Returned db1 (out1 ++
                [print "Skip irrigation: {args.irr_json} not found" []])
          end in
        and_then step2 (fun db2 out2 =>
          Returned db2
            (if dry_run
             then out2 ++ [print "(Dry run - pass --apply to write to DB)" []]
             else out2))))
  end.

(* ================================================================== *)
(** * import_swash_json.py *)
(* ================================================================== *)

Record links_state : Type := mkLinksState {
  links_conn : connection;
  links_inserted : Z;
  links_skipped : list (string * option string)
}.

(** [WHERE scenario_code = ?] *)
Definition scenario_coded (code : string) (r : row) : bool :=
  sql_eq (col r "scenario_code") (VText code).

(** [[s.strip() for s in scenarios.split(",") if s.strip()]] *)
Definition split_scenarios (s : string) : list json :=
  map JStr
      (filter (fun w => negb (Str.is_empty w))
              (map Str.strip (Str.split ","%char s))).

(** The body of [for scen_code in scenarios]. *)
Definition link_body (dry_run : bool) (crop_name : string)
           (focus_crop_id : value) (st : links_state) (scen_code : json)
  : result links_state :=
  code <- strip_of scen_code ;;
  match select_one focus_scenarios (scenario_coded code)
                   (working (links_conn st)) with
  | None =>
      Ok {| links_conn := links_conn st;
            links_inserted := links_inserted st;
            links_skipped := links_skipped st ++
              [(crop_name,
                match scen_code with JStr raw => Some raw | _ => None end)] |}
  | Some sc =>
      let inserted := links_inserted st + 1 in
      if negb dry_run
      then
        conn <- execute_insert insert_or_ignore focus_crop_scenario_links
                  [("focus_crop_id", focus_crop_id);
                   ("scenario_id", col sc "scenario_id");
                   ("waterbody_type", VNull);
                   ("is_default_run", VInt 1)]
                  (links_conn st) ;;
        Ok {| links_conn := conn; links_inserted := inserted;
              links_skipped := links_skipped st |}
      else
        Ok {| links_conn := links_conn st; links_inserted := inserted;
              links_skipped := links_skipped st |}
  end.

(** The body of [for row in items]. *)
Definition links_row_body (dry_run : bool) (st : links_state) (item : json)
  : result links_state :=
  crop_name <- get_stripped item "crop" ;;
  scenarios <- get item "scenarios" ;;
  if Str.is_empty crop_name || negb (truthy scenarios) then Ok st
  else
    let scenarios :=
      match scenarios with
      | JStr s => JArr (split_scenarios s)
      | _ => scenarios
      end in
    match select_one focus_crops (crop_named crop_name)
                     (working (links_conn st)) with
    | None =>
        Ok {| links_conn := links_conn st;
              links_inserted := links_inserted st;
              links_skipped := links_skipped st ++ [(crop_name, None)] |}
    | Some fc =>
        codes <- py_iter scenarios ;;
        for_each (link_body dry_run crop_name (col fc "focus_crop_id"))
                 codes st
    end.

Definition skipped_arg (p : string * option string) : arg :=
  ATuple [AStr (fst p);
          match snd p with Some s => AStr s | None => ANone end].

Definition links_report (dry_run : bool) (st : links_state) : list event :=
  let n := List.length (links_skipped st) in
  [print "focus_crop_scenario_links: {inserted} rows inserted (dry_run={dry_run})"
         [AInt (links_inserted st); ABool dry_run]]
  ++ match links_skipped st with
     | [] => []
     | _ =>
         [print "Skipped {len(skipped)} crop/scenario lookups:"
                [AInt (Z.of_nat n)]]
         ++ map (fun p => print "  - {c!r} / {s!r}" [skipped_arg p])
                (firstn 20 (links_skipped st))
         ++ (if (20 <? n)%nat
             then [print "  ... and {len(skipped) - 20} more"
                         [AInt (Z.of_nat n - 20)]]
             else [])
     end
  ++ [if negb dry_run then print "Changes committed." []
      else print "(Dry run - pass --apply to write to DB)" []].

(** [import_links(json_path, db_path, dry_run)] *)
Definition import_links (file : option json) (db : Database)
           (dry_run : bool) : outcome :=
  match file with
  | None => Crashed db FileNotFoundError
  | Some data =>
      match (x <- get data "crop_scenarios" ;;
             if truthy x then Ok x else get data "items") with
      | Raise e => Crashed db e
      | Ok items =>
          if negb (truthy items)
          then Exited db []
                 "JSON must contain 'crop_scenarios' or 'items' array with {crop, scenarios}."
          else
            let conn := connect db in
            match
              (rows <- py_iter items ;;
               for_each (links_row_body dry_run) rows
                        {| links_conn := conn; links_inserted := 0;
                           links_skipped := [] |})
            with
            | Raise e => Crashed (close conn) e
            | Ok st =>
                let conn' := if negb dry_run then commit (links_conn st)
                             else links_conn st in
                Returned (close conn') (links_report dry_run st)
            end
      end
  end.

(* ================================================================== *)
(** * import_interception.py *)
(* ================================================================== *)

(** A Python number of the interception table. *)
Inductive number : Type :=
| NInt (z : Z)
| NFloat (x : float).

Definition bind_number (n : number) : result value :=
  match n with
  | NInt z => bind_int z
  | NFloat x => Ok (VReal x)
  end.

(** [(bbch_stage, interception_pct, source_label)] *)
Definition stage : Type := Z * option number * string.

(** The source labels of the table (their dash is written as a hyphen). *)
Definition STUB : string := "EFSA 2020 Repair Action Table 7 - STUB".
Definition STUB0 : string :=
  "EFSA 2020 Repair Action Table 7 - STUB: fill from paper".

Definition stubs (bbch : list Z) : list stage :=
  map (fun b => (b, None, STUB)) bbch.

Definition annual_stages : list stage :=
  stubs [0; 10; 20; 30; 40; 50; 60; 70; 80; 90].

Definition permanent_stages : list stage :=
  stubs [0; 51; 60; 71; 81; 91].

(** The table as the repository ships it: every percentage is [None]. *)
Definition INTERCEPTION_DATA : list (string * list stage) :=
  [("Winter cereals", (0, None, STUB0) :: stubs [10; 20; 30; 40; 50; 60; 70; 80; 90]);
   ("Spring cereals", annual_stages);
   ("Maize", annual_stages);
   ("Winter oilseed rape", annual_stages);
   ("Potatoes", annual_stages);
   ("Sugar beet", annual_stages);
   ("Apples and pears", permanent_stages);
   ("Vines", permanent_stages);
   ("Grass", stubs [0])].

Record icpt_state : Type := mkIcptState {
  icpt_conn : connection;
  icpt_inserted : Z;
  icpt_stubbed : Z;
  icpt_skipped : Z;
  icpt_out : list event
}.

(** The body of [for (bbch, pct, source) in stages]. *)
Definition stage_body (dry_run : bool) (fid : value) (st : icpt_state)
           (s : stage) : result icpt_state :=
  let '(bbch, pct, source) := s in
  match pct with
  | None =>
      Ok {| icpt_conn := icpt_conn st; icpt_inserted := icpt_inserted st;
            icpt_stubbed := icpt_stubbed st + 1;
            icpt_skipped := icpt_skipped st; icpt_out := icpt_out st |}
  | Some p =>
      if negb dry_run
      then
        b <- bind_int bbch ;;
        v <- bind_number p ;;
        conn <- execute_insert insert_or_replace focus_crop_interception
                  [("focus_crop_id", fid);
                   ("bbch_stage", b);
                   ("interception_pct", v);
                   ("interception_source", VText source)]
                  (icpt_conn st) ;;
        Ok {| icpt_conn := conn; icpt_inserted := icpt_inserted st + 1;
              icpt_stubbed := icpt_stubbed st;
              icpt_skipped := icpt_skipped st; icpt_out := icpt_out st |}
      else Ok st
  end.

(** The body of [for crop_name, stages in INTERCEPTION_DATA.items()]. *)
Definition crop_body (dry_run : bool) (st : icpt_state)
           (entry : string * list stage) : result icpt_state :=
  let (crop_name, stages) := entry in
  match select_one focus_crops (crop_named crop_name)
                   (working (icpt_conn st)) with
  | None =>
      Ok {| icpt_conn := icpt_conn st; icpt_inserted := icpt_inserted st;
            icpt_stubbed := icpt_stubbed st;
            icpt_skipped := icpt_skipped st + 1;
            icpt_out := icpt_out st ++
              [print "  WARNING: '{crop_name}' not found in focus_crops - skipping"
                     [AStr crop_name]] |}
  | Some fc =>
      for_each (stage_body dry_run (col fc "focus_crop_id")) stages st
  end.

(** The loop of [import_interception] over a given content of the
    module-level table. *)
Definition interception_loop (data : list (string * list stage))
           (conn : connection) (dry_run : bool) : result icpt_state :=
  for_each (crop_body dry_run) data
           {| icpt_conn := conn; icpt_inserted := 0; icpt_stubbed := 0;
              icpt_skipped := 0; icpt_out := [] |}.

(** [import_interception(db_path, dry_run)], for a given content of the
    table. *)
Definition import_interception_with (data : list (string * list stage))
           (db : Database) (dry_run : bool) : outcome :=
  let conn := connect db in
  match interception_loop data conn dry_run with
  | Raise e => Crashed (close conn) e
  | Ok st =>
      let conn' := if negb dry_run then commit (icpt_conn st)
                   else icpt_conn st in
      Returned (close conn')
        (icpt_out st
         ++ [print "Interception values: {inserted} inserted, {stubbed} stubs skipped, {skipped} crops not found"
                   [AInt (icpt_inserted st); AInt (icpt_stubbed st);
                    AInt (icpt_skipped st)]]
         ++ (if dry_run then [print "(Dry run - pass --apply to write)" []]
             else [])
         ++ (if 0 <? icpt_stubbed st
             then [print "*** {stubbed} values still marked STUB ***"
                         [AInt (icpt_stubbed st)];
                   print "Open this script and fill in INTERCEPTION_DATA from EFSA 2020:6119 Table 7."
                         []]
             else []))
  end.


(* ================================================================== *)
(** * import_swash_mdb.py *)
(* ================================================================== *)

(** A row of [csv.DictReader]: the fields under the names of the header
    line; a field that the line is too short for is [None]. *)
Definition csv_row : Type := list (string * option string).

Fixpoint csv_get (r : csv_row) (k : string) : option (option string) :=
  match r with
  | [] => None
  | (k', v) :: r' =>
      match csv_get r' k with
      | Some v' => Some v'
      | None => if String.eqb k' k then Some v else None
      end
  end.

(** [row.get(k, "").strip()] *)
Definition csv_field (r : csv_row) (k : string) : result string :=
  match csv_get r k with
  | None => Ok (Str.strip EmptyString)
  | Some (Some s) => Ok (Str.strip s)
  | Some None => Raise AttributeError
  end.

Definition SWASH_CROP_COLS : list (string * string) :=
  [("name", "CropName");
   ("code", "CropCode");
   ("bbch_em_min", "BBCHemergenceMin");
   ("bbch_em_max", "BBCHemergenceMax");
   ("bbch_har_min", "BBCHharvestMin");
   ("bbch_har_max", "BBCHharvestMax");
   ("canopy", "CanopyType");
   ("root_depth", "RootDepth");
   ("lai", "LAImax")].

Definition SWASH_CS_COLS : list (string * string) :=
  [("crop_name", "CropName");
   ("scenario", "ScenarioCode");
   ("waterbody", "WaterbodyType");
   ("is_default", "IsDefault")].

(** [mapping.get(key, "")] on the two dictionaries above *)
Fixpoint mapped (mapping : list (string * string)) (key : string) : string :=
  match mapping with
  | [] => EmptyString
  | (k, v) :: m => if String.eqb k key then v else mapped m key
  end.

(** The local function [col(key)] of the crop loop. *)
Definition crop_col (r : csv_row) (key : string) : result string :=
  csv_field r (mapped SWASH_CROP_COLS key).

(** [float(s)] for a string, as a stored value *)
Definition float_of (s : string) : result value :=
  match float_of_str s with
  | Some x => Ok (VReal x)
  | None => Raise ValueError
  end.

(** [if col(key): updates[column] = conv(col(key))] *)
Definition add_update (r : csv_row) (key column : string)
           (conv : string -> result value)
           (updates : list (string * value))
  : result (list (string * value)) :=
  s <- crop_col r key ;;
  if Str.is_empty s then Ok updates
  else v <- conv s ;; Ok (updates ++ [(column, v)]).

Definition int_of (s : string) : result value :=
  z <- int_of_str s ;; Ok (VInt z).

(** The dictionary [updates] of one crop row. *)
Definition crop_updates (r : csv_row) : result (list (string * value)) :=
  u1 <- add_update r "bbch_em_min" "bbch_sowing_min" int_of [] ;;
  u2 <- add_update r "bbch_em_max" "bbch_sowing_max" int_of u1 ;;
  u3 <- add_update r "bbch_har_min" "bbch_harvest_min" int_of u2 ;;
  u4 <- add_update r "bbch_har_max" "bbch_harvest_max" int_of u3 ;;
  u5 <- add_update r "canopy" "canopy_type" (fun s => Ok (VText s)) u4 ;;
  u6 <- add_update r "root_depth" "root_depth_m" float_of u5 ;;
  add_update r "lai" "lai_max" float_of u6.

(** The integers among the parameters of a statement must fit 64 bits. *)
Fixpoint bind_all (params : list (string * value))
  : result (list (string * value)) :=
  match params with
  | [] => Ok []
  | (k, VInt z) :: ps =>
      v <- bind_int z ;; ps' <- bind_all ps ;; Ok ((k, v) :: ps')
  | kv :: ps => ps' <- bind_all ps ;; Ok (kv :: ps')
  end.

(** [WHERE focus_crop_id = ?] *)
Definition focus_crop_is (fid : value) (r : row) : bool :=
  sql_eq (col r "focus_crop_id") fid.

Record swash_crops_state : Type := mkSwashCropsState {
  sc_conn : connection;
  sc_updated_crops : Z;
  sc_skipped_crops : list string
}.

(** The body of [for row in crops]. *)
Definition swash_crop_body (dry_run : bool) (st : swash_crops_state)
           (r : csv_row) : result swash_crops_state :=
  name <- csv_field r (mapped SWASH_CROP_COLS "name") ;;
  if Str.is_empty name then Ok st
  else
    match select_one focus_crops (crop_named name)
                     (working (sc_conn st)) with
    | None =>
        Ok {| sc_conn := sc_conn st;
              sc_updated_crops := sc_updated_crops st;
              sc_skipped_crops := sc_skipped_crops st ++ [name] |}
    | Some fc =>
        let fid := col fc "focus_crop_id" in
        updates <- crop_updates r ;;
        match updates with
        | [] => Ok st
        | _ =>
            if negb dry_run
            then
              params <- bind_all updates ;;
              Ok {| sc_conn := execute (update focus_crops params
                                               (focus_crop_is fid))
                                       (sc_conn st);
                    sc_updated_crops := sc_updated_crops st + 1;
                    sc_skipped_crops := sc_skipped_crops st |}
            else Ok st
        end
    end.

Record swash_links_state : Type := mkSwashLinksState {
  sl_conn : connection;
  sl_inserted : Z;
  sl_skipped : list (string * string)
}.

(** [int(row.get("IsDefault", "1") or 1)] *)
Definition is_default_of (r : csv_row) : result Z :=
  match csv_get r (mapped SWASH_CS_COLS "is_default") with
  | None => int_of_str "1"
  | Some None => Ok 1
  | Some (Some s) => if Str.is_empty s then Ok 1 else int_of_str s
  end.

(** The body of [for row in cs_rows]. *)
Definition swash_link_body (dry_run : bool) (st : swash_links_state)
           (r : csv_row) : result swash_links_state :=
  crop_name <- csv_field r (mapped SWASH_CS_COLS "crop_name") ;;
  scen_code <- csv_field r (mapped SWASH_CS_COLS "scenario") ;;
  waterbody <- csv_field r (mapped SWASH_CS_COLS "waterbody") ;;
  is_default <- is_default_of r ;;
  let fc := select_one focus_crops (crop_named crop_name)
                       (working (sl_conn st)) in
  let sc := select_one focus_scenarios (scenario_coded scen_code)
                       (working (sl_conn st)) in
  match fc, sc with
  | Some fc_row, Some sc_row =>
      if negb dry_run
      then
        d <- bind_int is_default ;;
        conn <- execute_insert insert_or_ignore focus_crop_scenario_links
                  [("focus_crop_id", col fc_row "focus_crop_id");
                   ("scenario_id", col sc_row "scenario_id");
                   ("waterbody_type", VText waterbody);
                   ("is_default_run", d)]
                  (sl_conn st) ;;
        Ok {| sl_conn := conn; sl_inserted := sl_inserted st + 1;
              sl_skipped := sl_skipped st |}
      else Ok st
  | _, _ =>
      Ok {| sl_conn := sl_conn st; sl_inserted := sl_inserted st;
            sl_skipped := sl_skipped st ++ [(crop_name, scen_code)] |}
  end.

Definition swash_report (crop_rows cs_rows : list csv_row)
           (s1 : swash_crops_state) (s2 : swash_links_state)
           (dry_run : bool) : list event :=
  [print "Loaded {len(crops)} SWASH crop rows, {len(cs_rows)} crop-scenario rows"
         [AInt (Z.of_nat (List.length crop_rows));
          AInt (Z.of_nat (List.length cs_rows))];
   print "  focus_crops: {updated_crops} rows updated, {len(skipped_crops)} SWASH crops not matched:"
         [AInt (sc_updated_crops s1);
          AInt (Z.of_nat (List.length (sc_skipped_crops s1)))]]
  ++ map (fun n =>
            print "    - '{n}'  (add to focus_crops or update SWASH_CROP_COLS mapping)"
                  [AStr n])
         (sc_skipped_crops s1)
  ++ [print "  focus_crop_scenario_links: {inserted} rows inserted, {len(skipped)} skipped"
            [AInt (sl_inserted s2);
             AInt (Z.of_nat (List.length (sl_skipped s2)))];
      if negb dry_run then print "Changes committed." []
      else print "(Dry run - pass --apply to write to DB)" []].

(** [import_from_csv(csv_dir, db_path, dry_run)].  [crop_csv] and [cs_csv]
    are the rows of [crop.csv] and [cropscenario.csv] in [csv_dir];
    [None] stands for a file that does not exist. *)
Definition import_from_csv (crop_csv cs_csv : option (list csv_row))
           (db : Database) (dry_run : bool) : outcome :=
  match crop_csv, cs_csv with
  | None, _ =>
      Exited db [] "Not found: {crop_csv}\nExport with: mdb-export swash.mdb Crop > crop.csv"
  | Some _, None =>
      Exited db [] "Not found: {cs_csv}\nExport with: mdb-export swash.mdb CropScenario > cropscenario.csv"
  | Some crop_rows, Some cs_rows =>
      let conn := connect db in
      match
        (s1 <- for_each (swash_crop_body dry_run) crop_rows
                        {| sc_conn := conn; sc_updated_crops := 0;
                           sc_skipped_crops := [] |} ;;
         s2 <- for_each (swash_link_body dry_run) cs_rows
                        {| sl_conn := sc_conn s1; sl_inserted := 0;
                           sl_skipped := [] |} ;;
         Ok (s1, s2))
      with
      | Raise e => Crashed (close conn) e
      | Ok (s1, s2) =>
          let conn' := if negb dry_run then commit (sl_conn s2)
                       else sl_conn s2 in
          Returned (close conn') (swash_report crop_rows cs_rows s1 s2 dry_run)
      end
  end.

(** [import_from_mdb(mdb_path, db_path, dry_run)].  [has_pyodbc] tells
    whether [import pyodbc] succeeds; [mdb] is what the Access driver
    gives: the error of [pyodbc.connect], or the rows of the tables [Crop]
    and [CropScenario] as [csv.writer] writes them to the temporary
    directory. *)
Definition import_from_mdb (has_pyodbc : bool)
           (mdb : string + list csv_row * list csv_row)
           (db : Database) (dry_run : bool) : outcome :=
  if negb has_pyodbc
  then Exited db [] "pyodbc not installed. Run: pip install pyodbc"
  else
    match mdb with
    | inl _ =>
        Exited db []
          "Could not open SWASH MDB: {e}\nCheck the Access driver is installed."
    | inr (crop_rows, cs_rows) =>
        prepend
          [print "Exported {len(rows)} rows from {table} -> {out_path}"
                 [AInt (Z.of_nat (List.length crop_rows)); AStr "Crop"];
           print "Exported {len(rows)} rows from {table} -> {out_path}"
                 [AInt (Z.of_nat (List.length cs_rows)); AStr "CropScenario"]]
          (import_from_csv (Some crop_rows) (Some cs_rows) db dry_run)
    end.

(* ================================================================== *)
(** * import_primo.py *)
(* ================================================================== *)

(** The value of a worksheet cell as openpyxl gives it (cells that hold a
    date are left out). *)
Inductive cell : Type :=
| CNone
| CBool (b : bool)
| CInt (z : Z)
| CFloat (x : float)
| CStr (s : string).

Definition cell_truthy (c : cell) : bool :=
  match c with
  | CNone => false
  | CBool b => b
  | CInt z => negb (z =? 0)
  | CFloat x => negb (float_is_zero x)
  | CStr s => negb (Str.is_empty s)
  end.

(** [str(c)] *)
Definition cell_str (c : cell) : string :=
  match c with
  | CNone => "None"
  | CBool true => "True"
  | CBool false => "False"
  | CInt z => Str.of_Z z
  | CFloat x => float_str x
  | CStr s => s
  end.

(** [str(c or "").strip()] *)
Definition cell_text (c : cell) : string :=
  Str.strip (if cell_truthy c then cell_str c else EmptyString).

(** [float(c)] for a truthy cell, as a stored value *)
Definition cell_float (c : cell) : result value :=
  match c with
  | CNone => Raise TypeError
  | CBool b =>
      match float_of_Z (if b then 1 else 0) with
      | Some x => Ok (VReal x)
      | None => Raise OverflowError
      end
  | CInt z =>
      match float_of_Z z with
      | Some x => Ok (VReal x)
      | None => Raise OverflowError
      end
  | CFloat x => Ok (VReal x)
  | CStr s => float_of s
  end.

(** [row[i]] *)
Definition nth_cell (r : list cell) (i : nat) : result cell :=
  match nth_error r i with
  | Some c => Ok c
  | None => Raise IndexError
  end.

Definition SHEET_COMMODITY : string := "Commodity list".
Definition COL_ANNEX1_CODE : nat := 1.
Definition COL_ANNEX1_NAME : nat := 2.
Definition COL_PRIMO_NAME : nat := 3.
Definition COL_UNIT_WEIGHT : nat := 4.
Definition HEADER_ROWS : nat := 3.

(** A workbook: its sheets, by name, as rows of cell values. *)
Definition workbook : Type := list (string * list (list cell)).

Fixpoint sheet (wb : workbook) (name : string) : option (list (list cell)) :=
  match wb with
  | [] => None
  | (n, rows) :: wb' => if String.eqb n name then Some rows else sheet wb' name
  end.

Fixpoint enumerate {A : Type} (i : Z) (l : list A) : list (Z * A) :=
  match l with
  | [] => []
  | x :: l' => (i, x) :: enumerate (i + 1) l'
  end.

Record primo_parse : Type := mkPrimoParse {
  reg396_rows : list row;
  primo_rows : list row;
  preview_count : Z;
  parse_out : list event
}.

Definition REGULATION_VERSION : string :=
  "Reg (EC) No 396/2005 (as in PRIMo Rev 3.1)".

(** The body of [for i, row in enumerate(ws.iter_rows(...))]. *)
Definition parse_body (unknown_crop_id : value) (primo_version : string)
           (st : primo_parse) (ir : Z * list cell) : result primo_parse :=
  let (i, r) := ir in
  if negb (existsb cell_truthy r) then Ok st
  else
    c_code <- nth_cell r (COL_ANNEX1_CODE - 1) ;;
    c_name <- nth_cell r (COL_ANNEX1_NAME - 1) ;;
    c_primo <- nth_cell r (COL_PRIMO_NAME - 1) ;;
    unit_weight <- nth_cell r (COL_UNIT_WEIGHT - 1) ;;
    let annex1_code := cell_text c_code in
    let annex1_name := cell_text c_name in
    let primo_name := cell_text c_primo in
    if Str.is_empty annex1_code || Str.is_empty annex1_name then Ok st
    else
      let annex1_code :=
        if Str.re_match_digits 1 7 annex1_code then Str.zfill 7 annex1_code
        else annex1_code in
      let hlevel := parse_hierarchy_level (PyStr annex1_code) in
      let pcode := parent_code (PyStr annex1_code) in
      let previewed := preview_count st <? 10 in
      let out :=
        if previewed
        then parse_out st ++
             [print "  Preview row {i}: code={annex1_code} name={annex1_name[:40]} primo={primo_name[:30]} L{hlevel}"
                    [AInt i; AStr annex1_code;
                     AStr (Str.slice_to 40 annex1_name);
                     AStr (Str.slice_to 30 primo_name);
                     match hlevel with Some l => AInt l | None => ANone end]]
        else parse_out st in
      let count :=
        if previewed then preview_count st + 1 else preview_count st in
      let reg :=
        [("crop_id", unknown_crop_id);
         ("annex1_code", VText annex1_code);
         ("annex1_name", VText annex1_name);
         ("hierarchy_level",
          VInt (match hlevel with Some l => l | None => 3 end));
         ("parent_annex1_code",
          match pcode with Some c => VText c | None => VNull end);
         ("regulation_version", VText REGULATION_VERSION)] in
      if Str.is_empty primo_name
      then Ok {| reg396_rows := reg396_rows st ++ [reg];
                 primo_rows := primo_rows st;
                 preview_count := count; parse_out := out |}
      else
        w <- (if cell_truthy unit_weight then cell_float unit_weight
              else Ok VNull) ;;
        Ok {| reg396_rows := reg396_rows st ++ [reg];
              primo_rows := primo_rows st ++
                [[("crop_id", unknown_crop_id);
                  ("primo_version", VText primo_version);
                  ("primo_code", VText annex1_code);
                  ("primo_name", VText primo_name);
                  ("unit_weight_g", w)]];
              preview_count := count; parse_out := out |}.

(** [WHERE common_name_en = 'Unknown (unmapped)'] *)
Definition is_placeholder (r : row) : bool :=
  sql_eq (col r "common_name_en") (VText "Unknown (unmapped)").

(** The statement that is to create the placeholder crop.  Its text is one
    Python string in which the [VALUES] list ends with two SQL string
    literals side by side,
    ['Placeholder for PRIMo commodities not yet matched to a crop_id. ']
    and ['Update crop_id after reviewing the commodity name.'], with only
    white space between them.  SQLite does not join adjacent literals: it
    refuses the statement when it is prepared, whatever the database holds,
    and [cur.execute] raises [sqlite3.OperationalError], a
    [sqlite3.DatabaseError]; [cur.lastrowid] on the next line is never
    read. *)
Definition insert_placeholder (conn : connection)
  : result (connection * value) :=
  Raise (DatabaseError "near 'Update crop_id after reviewing the commodity name.': syntax error").

(** Get or create the placeholder crop: the connection afterwards and
    [unknown_crop_id].  The [SELECT] finds the first crop named
    ['Unknown (unmapped)']; without such a crop the [INSERT] is
    executed. *)
Definition get_or_create_placeholder (conn : connection)
  : result (connection * value) :=
  match select_one crops is_placeholder (working conn) with
  | Some found => Ok (conn, col found "crop_id")
  | None => insert_placeholder conn
  end.

Record primo_ins : Type := mkPrimoIns {
  pi_conn : connection;
  pi_inserted : Z;
  pi_skipped : Z;
  pi_out : list event
}.

(** The body of the two insert loops: [try: INSERT OR IGNORE ...;
    inserted += 1 except Exception as e: print(...); skipped += 1]. *)
Definition insert_body (t : table_name) (skip_fmt : string)
           (label : row -> arg) (st : primo_ins) (r : row)
  : result primo_ins :=
  try_except
    (conn <- execute_insert insert_or_ignore t r (pi_conn st) ;;
     Ok {| pi_conn := conn; pi_inserted := pi_inserted st + 1;
           pi_skipped := pi_skipped st; pi_out := pi_out st |})
    (fun e =>
       Ok {| pi_conn := pi_conn st; pi_inserted := pi_inserted st;
             pi_skipped := pi_skipped st + 1;
             pi_out := pi_out st ++ [print skip_fmt [label r; AExn e]] |}).

Definition reg396_label (r : row) : arg := AVal (col r "annex1_code").

Definition primo_label (r : row) : arg :=
  match col r "primo_name" with
  | VText s => AStr (Str.slice_to 30 s)
  | v => AVal v
  end.

(** [import_primo(xlsx_path, db_path, dry_run, primo_version)].
    [HAS_OPENPYXL] tells whether [import openpyxl] succeeded; [xlsx] is
    the workbook at [xlsx_path], [None] when there is no such file. *)
Definition import_primo (HAS_OPENPYXL : bool) (xlsx : option workbook)
           (db : Database) (dry_run : bool) (primo_version : string)
  : outcome :=
  if negb HAS_OPENPYXL
  then Exited db [] "openpyxl not installed. Run: pip install openpyxl"
  else
    let out0 := [print "Opening {xlsx_path}..." []] in
    match xlsx with
    | None => Crashed db FileNotFoundError
    | Some wb =>
        match sheet wb SHEET_COMMODITY with
        | None =>
            Exited db
              (out0 ++
               [print "Sheet '{SHEET_COMMODITY}' not found. Available sheets:" []]
               ++ map (fun s => print "  - {s}" [AStr (fst s)]) wb)
              "Adjust SHEET_COMMODITY constant."
        | Some ws =>
            let conn := connect db in
            match
              ('(conn1, unknown_crop_id) <- get_or_create_placeholder conn ;;
               parsed <- for_each (parse_body unknown_crop_id primo_version)
                                  (enumerate 0 (skipn HEADER_ROWS ws))
                                  {| reg396_rows := []; primo_rows := [];
                                     preview_count := 0;
                                     parse_out := out0 |} ;;
               let out1 := parse_out parsed ++
                 [print "Parsed {len(reg396_rows)} reg396 commodities, {len(primo_rows)} primo entries"
                        [AInt (Z.of_nat (List.length (reg396_rows parsed)));
                         AInt (Z.of_nat (List.length (primo_rows parsed)))]] in
               if dry_run
               then Ok (conn1,
                        out1 ++
                        [print "(Dry run - pass --apply to write to DB)" []])
               else
                 r <- for_each (insert_body reg396_commodities
                                  "  reg396 skip {r['annex1_code']}: {e}"
                                  reg396_label)
                               (reg396_rows parsed)
                               {| pi_conn := conn1; pi_inserted := 0;
                                  pi_skipped := 0; pi_out := out1 |} ;;
                 p <- for_each (insert_body primo_commodities
                                  "  primo skip {p['primo_name'][:30]}: {e}"
                                  primo_label)
                               (primo_rows parsed)
                               {| pi_conn := pi_conn r; pi_inserted := 0;
                                  pi_skipped := 0; pi_out := pi_out r |} ;;
                 Ok (commit (pi_conn p),
                     pi_out p ++
                     [print "Inserted: {inserted_r} reg396 rows, {inserted_p} primo rows"
                            [AInt (pi_inserted r); AInt (pi_inserted p)];
                      print "Skipped:  {skipped_r} reg396 rows, {skipped_p} primo rows"
                            [AInt (pi_skipped r); AInt (pi_skipped p)];
                      print "NEXT STEP: Update crop_id on reg396_commodities and primo_commodities"
                            [];
                      print "  rows where crop_id = {unknown_crop_id} (the placeholder)."
                            [];
                      print "  Use EPPO names or scientific names to match to your crops table,"
                            [];
                      print "  or run the eppo_verify.py script to cross-reference."
                            []]))
            with
            | Raise e => Crashed (close conn) e
            | Ok (conn', out) => Returned (close conn') out
            end
        end
    end.

(* ================================================================== *)
(** * eppo_verify.py *)
(* ================================================================== *)

(** The EPPO REST service, as the verifier sees it: what the two [GET]
    requests made for the [i]-th row answer for a code.  [inl msg] is a
    request that raises (no connection, an HTTP error status, a body that
    is not JSON); [inr j] is the decoded body. *)
Record eppo_api : Type := mkApi {
  taxon_response : nat -> value -> string + json;
  names_response : nat -> value -> string + json
}.

Definition get_taxon (api : eppo_api) (i : nat) (code : value) : result json :=
  match taxon_response api i code with
  | inl msg => Raise (RequestError msg)
  | inr j => Ok j
  end.

Definition get_names (api : eppo_api) (i : nat) (code : value) : result json :=
  match names_response api i code with
  | inl msg => Raise (RequestError msg)
  | inr j => Ok j
  end.

(** [j == "en"] *)
Definition is_en (j : json) : bool :=
  match j with
  | JStr s => String.eqb s "en"
  | _ => false
  end.

(** [j == 1] *)
Definition is_one (j : json) : bool :=
  match j with
  | JInt z => z =? 1
  | JBool b => b
  | JFloat x => float_eq_Z x 1
  | _ => false
  end.

(** The loop that looks for the preferred English name: the [fullname] of
    the first entry with [langiso == "en"] and [preferred == 1], [None]
    when there is no such entry. *)
Fixpoint find_pref_name (names : list json) : result json :=
  match names with
  | [] => Ok JNull
  | n :: rest =>
      lang <- get n "langiso" ;;
      if is_en lang
      then
        pref <- get n "preferred" ;;
        if is_one pref then get n "fullname" else find_pref_name rest
      else find_pref_name rest
  end.

(** [j.lower()] *)
Definition lower_of (j : json) : result string :=
  match j with
  | JStr s => Ok (Str.lower s)
  | _ => Raise AttributeError
  end.

(** [v.lower()] for a value read from the database *)
Definition lower_of_value (v : value) : result string :=
  match v with
  | VText s => Ok (Str.lower s)
  | _ => Raise AttributeError
  end.

(** The rows of
    [SELECT ... FROM eppo_codes e JOIN crops c ON e.crop_id = c.crop_id
     ORDER BY e.eppo_code]. *)
Definition joined_rows (db : Database) : list row :=
  order_by (fun r => col r "eppo_code")
    (flat_map
       (fun e =>
          map (fun c =>
                 [("eppo_code_id", col e "eppo_code_id");
                  ("eppo_code", col e "eppo_code");
                  ("eppo_name", col e "eppo_name");
                  ("taxon_level", col e "taxon_level");
                  ("common_name_en", col c "common_name_en");
                  ("scientific_name", col c "scientific_name")])
              (filter (fun c => sql_eq (col e "crop_id") (col c "crop_id"))
                      (tbl crops db)))
       (tbl eppo_codes db)).

(** A queued correction: [(new_name, new_sci, eppo_code_id)]. *)
Definition correction : Type := string * json * value.

Record verify_state : Type := mkVerifyState {
  v_index : nat;
  v_issues : list (value * event);
  v_updates : list correction;
  v_out : list event
}.

(** What the [try] block of one row computes: the correction to queue,
    if the names differ. *)
Definition compare_names (api : eppo_api) (i : nat) (r : row)
  : result (option correction) :=
  let code := col r "eppo_code" in
  taxon <- get_taxon api i code ;;
  names <- get_names api i code ;;
  entries <- py_iter names ;;
  api_pref_name <- find_pref_name entries ;;
  api_sci_name <- get_default taxon "fullname" (JStr EmptyString) ;;
  let db_name := col r "eppo_name" in
  if truthy api_pref_name
  then
    a <- lower_of api_pref_name ;;
    b <- lower_of_value db_name ;;
    if negb (String.eqb a b)
    then Ok (Some (match api_pref_name with
                   | JStr s => s
                   | _ => EmptyString
                   end, api_sci_name, col r "eppo_code_id"))
    else Ok None
  else Ok None.

(** The body of [for row in rows]. *)
Definition check_body (api : eppo_api) (st : verify_state) (r : row)
  : result verify_state :=
  let code := col r "eppo_code" in
  let out := v_out st ++
    [print "Checking {code} ({row['common_name_en']})..."
           [AVal code; AVal (col r "common_name_en")]] in
  try_except
    (c <- compare_names api (v_index st) r ;;
     match c with
     | Some (new_name, new_sci, eppo_id) =>
         let status :=
           print "NAME MISMATCH: DB='{db_name}' API='{api_pref_name}'"
                 [AVal (col r "eppo_name"); AStr new_name] in
         Ok {| v_index := S (v_index st);
               v_issues := v_issues st ++ [(code, status)];
               v_updates := v_updates st ++ [(new_name, new_sci, eppo_id)];
               v_out := out ++ [status] |}
     | None =>
         Ok {| v_index := S (v_index st);
               v_issues := v_issues st;
               v_updates := v_updates st;
               v_out := out ++ [print "OK" []] |}
     end)
    (fun e =>
       Ok {| v_index := S (v_index st);
             v_issues := v_issues st ++ [(code, print "{e}" [AExn e])];
             v_updates := v_updates st;
             v_out := out ++ [print "ERROR: {e}" [AExn e]] |}).

(** A decoded JSON value bound to a statement. *)
Definition bind_json (j : json) : result value :=
  match j with
  | JNull => Ok VNull
  | JBool b => Ok (VInt (if b then 1 else 0))
  | JInt z => bind_int z
  | JFloat x => Ok (VReal x)
  | JStr s => Ok (VText s)
  | _ => Raise (DatabaseError "Error binding parameter: type is not supported")
  end.

(** [WHERE eppo_code_id = ?] *)
Definition eppo_code_id_is (eppo_id : value) (r : row) : bool :=
  sql_eq (col r "eppo_code_id") eppo_id.

Definition is_null (v : value) : bool :=
  match v with VNull => true | _ => false end.

(** [WHERE crop_id = (SELECT crop_id FROM eppo_codes WHERE eppo_code_id = ?)
     AND (scientific_name IS NULL OR scientific_name = '')] *)
Definition linked_crop_without_name (db : Database) (eppo_id : value)
           (r : row) : bool :=
  let linked :=
    match select_one eppo_codes (eppo_code_id_is eppo_id) db with
    | Some e => col e "crop_id"
    | None => VNull
    end in
  sql_eq (col r "crop_id") linked
  && (is_null (col r "scientific_name")
      || sql_eq (col r "scientific_name") (VText EmptyString)).

(** The body of [for (new_name, new_sci, eppo_id) in updates]. *)
Definition apply_body (conn : connection) (u : correction)
  : result connection :=
  let '(new_name, new_sci, eppo_id) := u in
  let conn1 :=
    execute (update eppo_codes [("eppo_name", VText new_name)]
                    (eppo_code_id_is eppo_id)) conn in
  if truthy new_sci
  then
    v <- bind_json new_sci ;;
    Ok (execute (fun db =>
                   update crops [("scientific_name", v)]
                          (linked_crop_without_name db eppo_id) db)
                conn1)
  else Ok conn1.

Definition verify_summary (st : verify_state) : list event :=
  v_out st
  ++ [print "--- Summary: {len(issues)} issues found ---"
            [AInt (Z.of_nat (List.length (v_issues st)))]]
  ++ map (fun i => print "  {code}: {msg}"
                         [AVal (fst i); AList (args (snd i)); AStr (fmt (snd i))])
         (v_issues st).

(** [verify_codes(db_path, token, dry_run)].  [HAS_REQUESTS] tells whether
    [import requests] succeeded. *)
Definition verify_codes (HAS_REQUESTS : bool) (api : eppo_api)
           (db : Database) (dry_run : bool) : outcome :=
  let conn := connect db in
  let rows := joined_rows (working conn) in
  if negb HAS_REQUESTS
  then Returned (close conn)
         [print "requests library not installed. Run: pip install requests" []]
  else
    match for_each (check_body api) rows
                   {| v_index := O; v_issues := []; v_updates := [];
                      v_out := [] |} with
    | Raise e => Crashed (close conn) e
    | Ok st =>
        let out := verify_summary st in
        match v_updates st with
        | [] => Returned (close conn) out
        | _ =>
            if negb dry_run
            then
              match for_each apply_body (v_updates st) conn with
              | Raise e => Crashed (close conn) e
              | Ok conn' =>
                  Returned (close (commit conn'))
                    (out ++ [print "Applying name corrections to DB..." [];
                             print "Done." []])
              end
            else
              Returned (close conn)
                (out ++
                 [print "(Dry run - pass --apply to write corrections to DB)"
                        []])
        end
    end.

(* ================================================================== *)
(** * The specification, in the terms of the model *)
(* ================================================================== *)

(** ** Interception importer *)

Definition number_value (n : number) : value :=
  match n with
  | NInt z => VInt z
  | NFloat x => VReal x
  end.

(** The rows for the entries of one crop that have a percentage. *)
Definition filled_rows (fid : value) (stages : list stage) : list row :=
  flat_map (fun s : stage =>
              let '(bbch, pct, source) := s in
              match pct with
              | None => []
              | Some p => [[("focus_crop_id", fid);
                            ("bbch_stage", VInt bbch);
                            ("interception_pct", number_value p);
                            ("interception_source", VText source)]]
              end) stages.

(** The rows for the entries with a filled percentage whose crop name
    matches a row of [focus_crops], in the order of the table. *)
Definition interception_rows (focus_crops_table : table)
           (data : list (string * list stage)) : list row :=
  flat_map (fun entry : string * list stage =>
              match find (crop_named (fst entry)) focus_crops_table with
              | None => []
              | Some fc => filled_rows (col fc "focus_crop_id") (snd entry)
              end) data.

Definition count_stubs (stages : list stage) : Z :=
  Z.of_nat (List.length (filter (fun s : stage =>
                                   match snd (fst s) with
                                   | None => true
                                   | Some _ => false
                                   end) stages)).

(** The entries without a percentage, in the whole table and under the
    crops that match a row of [focus_crops]. *)
Definition all_stubs (data : list (string * list stage)) : Z :=
  fold_right (fun entry n => count_stubs (snd entry) + n) 0 data.

Definition matched_stubs (focus_crops_table : table)
           (data : list (string * list stage)) : Z :=
  fold_right (fun entry n =>
                match find (crop_named (fst entry)) focus_crops_table with
                | None => n
                | Some _ => count_stubs (snd entry) + n
                end) 0 data.

Definition unmatched_crops (focus_crops_table : table)
           (data : list (string * list stage)) : Z :=
  fold_right (fun entry n =>
                match find (crop_named (fst entry)) focus_crops_table with
                | None => 1 + n
                | Some _ => n
                end) 0 data.

(** A sequence of [INSERT OR REPLACE] into one table. *)
Definition upsert_all (t : table_name) (rows : list row) (db : Database)
  : Database :=
  fold_left (fun d r => insert_or_replace t r d) rows db.

(** A sequence of [INSERT OR IGNORE] into one table. *)
Definition insert_all_or_ignore (t : table_name) (rows : list row)
           (db : Database) : Database :=
  fold_left (fun d r => insert_or_ignore t r d) rows db.

(** What the engine accepts. *)
Definition fits_int64 (z : Z) : Prop := - 2 ^ 63 <= z < 2 ^ 63.

Definition bindable_number (n : number) : Prop :=
  match n with
  | NInt z => fits_int64 z
  | NFloat _ => True
  end.

Definition bindable_stage (s : stage) : Prop :=
  match snd (fst s) with
  | None => True
  | Some p => fits_int64 (fst (fst s)) /\ bindable_number p
  end.

Definition bindable_table (data : list (string * list stage)) : Prop :=
  Forall (fun entry => Forall bindable_stage (snd entry)) data.

Definition accepted (t : table_name) (rows : list row) : Prop :=
  Forall (fun r => rejects t r = None) rows.

(** ** EPPO verifier *)

(** The corrections that the loop queues for the [i]-th row, and for the
    rows from the [i]-th on. *)
Definition queued (api : eppo_api) (i : nat) (r : row) : list correction :=
  match compare_names api i r with
  | Ok (Some c) => [c]
  | _ => []
  end.

Fixpoint queued_all (api : eppo_api) (i : nat) (rows : list row)
  : list correction :=
  match rows with
  | [] => []
  | r :: rest => queued api i r ++ queued_all api (S i) rest
  end.

(** The preferred English name that the service returns for the code of
    a row, with the scientific name: both requests succeed, the list of
    names can be read up to its first entry in English that is marked as
    preferred, and the name of that entry is a string. *)
Definition api_preferred_name (api : eppo_api) (i : nat) (r : row)
  : option (string * json) :=
  match get_taxon api i (col r "eppo_code"),
        get_names api i (col r "eppo_code") with
  | Ok taxon, Ok names =>
      match py_iter names with
      | Ok entries =>
          match find_pref_name entries,
                get_default taxon "fullname" (JStr EmptyString) with
          | Ok (JStr p), Ok sci => Some (p, sci)
          | _, _ => None
          end
      | Raise _ => None
      end
  | _, _ => None
  end.

(** Two names differ when case is ignored. *)
Definition differs_ignoring_case (a b : string) : bool :=
  negb (String.eqb (Str.lower a) (Str.lower b)).

(** Two rows that agree on every column but [c]. *)
Definition same_but (c : string) (r r' : row) : Prop :=
  forall k, k <> c -> col r' k = col r k.

(** A scientific name that is [NULL] or the empty string. *)
Definition no_name (v : value) : Prop := v = VNull \/ v = VText EmptyString.

(** The crop row [r] is the crop of an EPPO code that a queued correction
    names. *)
Definition linked_to (eppo_table : table) (updates : list correction)
           (r : row) : Prop :=
  exists u e,
    In u updates /\ In e eppo_table /\
    eppo_code_id_is (snd u) e = true /\
    sql_eq (col r "crop_id") (col e "crop_id") = true.

(** What a run of the verifier may change: in [eppo_codes] the column
    [eppo_name]; in [crops] the column [scientific_name], of a row that had
    no name and is linked to a corrected code; nothing else. *)
Definition only_names_changed (updates : list correction)
           (db db' : Database) : Prop :=
  (forall t, t <> eppo_codes -> t <> crops -> tbl t db' = tbl t db) /\
  Forall2 (same_but "eppo_name") (tbl eppo_codes db) (tbl eppo_codes db') /\
  Forall2 (fun r r' =>
             same_but "scientific_name" r r' /\
             (col r' "scientific_name" <> col r "scientific_name" ->
              no_name (col r "scientific_name") /\
              linked_to (tbl eppo_codes db) updates r))
          (tbl crops db) (tbl crops db').

(** ** Idempotence *)


(** The row that [import_characteristics] upserts for a record, if it
    upserts one. *)
Definition char_row_of (scenarios : table) (s : json) : list row :=
  match get_stripped s "scenario_code" with
  | Ok code =>
      if Str.is_empty code then []
      else
        match find (surface_water_scenario code) scenarios with
        | None => []
        | Some found =>
            match (lat <- get s "latitude_deg" ;;
                   lon <- get s "longitude_deg" ;;
                   characteristics_row (col found "scenario_id") code s
                                       lat lon) with
            | Ok r => [r]
            | Raise _ => []
            end
        end
  | Raise _ => []
  end.

(** The row that [import_irrigation] upserts for a record. *)
Definition irr_row_of (tables : table * table) (r : json) : list row :=
  let (scenarios, crop_table) := tables in
  match get_stripped r "scenario_code", get_stripped r "crop",
        get r "irrigation_mm_annual" with
  | Ok code, Ok crop, Ok mm =>
      if Str.is_empty code || Str.is_empty crop || is_none mm then []
      else
        match find (surface_water_scenario code) scenarios,
              find (crop_named crop) crop_table with
        | Some sc_row, Some fc_row =>
            match py_float mm with
            | Ok x => [[("focus_crop_id", col fc_row "focus_crop_id");
                        ("scenario_id", col sc_row "scenario_id");
                        ("irrigation_mm_annual", VReal x);
                        ("source_reference", VText SOURCE_REF)]]
            | Raise _ => []
            end
        | _, _ => []
        end
  | _, _, _ => []
  end.

(** What [--apply] makes of the database when the FOCUS importer runs to
    its end. *)
Definition characteristics_written (items : list json) (db : Database)
  : Database :=
  upsert_all focus_sw_scenario_characteristics
             (flat_map (char_row_of (tbl focus_scenarios db)) items) db.

Definition irrigation_written (items : list json) (db : Database)
  : Database :=
  upsert_all focus_crop_scenario_irrigation
             (flat_map (irr_row_of (tbl focus_scenarios db,
                                    tbl focus_crops db)) items) db.

(** The row that [import_links] inserts for one scenario of a crop. *)
Definition link_row_of (fid : value) (scenarios : table) (scen_code : json)
  : list row :=
  match strip_of scen_code with
  | Ok code =>
      match find (scenario_coded code) scenarios with
      | Some sc => [[("focus_crop_id", fid);
                     ("scenario_id", col sc "scenario_id");
                     ("waterbody_type", VNull);
                     ("is_default_run", VInt 1)]]
      | None => []
      end
  | Raise _ => []
  end.

(** The rows that [import_links] inserts for one record. *)
Definition links_rows_of (tables : table * table) (item : json) : list row :=
  let (crop_table, scenarios) := tables in
  match get_stripped item "crop", get item "scenarios" with
  | Ok crop_name, Ok scs =>
      if Str.is_empty crop_name || negb (truthy scs) then []
      else
        match find (crop_named crop_name) crop_table with
        | None => []
        | Some fc =>
            match py_iter (match scs with
                           | JStr s => JArr (split_scenarios s)
                           | _ => scs
                           end) with
            | Ok codes =>
                flat_map (link_row_of (col fc "focus_crop_id") scenarios)
                         codes
            | Raise _ => []
            end
        end
  | _, _ => []
  end.

Definition links_written (items : list json) (db : Database) : Database :=
  insert_all_or_ignore focus_crop_scenario_links
    (flat_map (links_rows_of (tbl focus_crops db, tbl focus_scenarios db))
              items) db.

Definition interception_written (data : list (string * list stage))
           (db : Database) : Database :=
  upsert_all focus_crop_interception
             (interception_rows (tbl focus_crops db) data) db.

(** The row that [import_from_csv] inserts for a row of
    [cropscenario.csv]. *)
Definition swash_link_row_of (tables : table * table) (r : csv_row)
  : list row :=
  let (crop_table, scenarios) := tables in
  match csv_field r (mapped SWASH_CS_COLS "crop_name"),
        csv_field r (mapped SWASH_CS_COLS "scenario"),
        csv_field r (mapped SWASH_CS_COLS "waterbody"),
        is_default_of r with
  | Ok crop_name, Ok scen_code, Ok waterbody, Ok is_default =>
      match find (crop_named crop_name) crop_table,
            find (scenario_coded scen_code) scenarios with
      | Some fc_row, Some sc_row =>
          match bind_int is_default with
          | Ok d => [[("focus_crop_id", col fc_row "focus_crop_id");
                      ("scenario_id", col sc_row "scenario_id");
                      ("waterbody_type", VText waterbody);
                      ("is_default_run", d)]]
          | Raise _ => []
          end
      | _, _ => []
      end
  | _, _, _, _ => []
  end.

Definition swash_links_written (cs_rows : list csv_row) (db : Database)
  : Database :=
  insert_all_or_ignore focus_crop_scenario_links
    (flat_map (swash_link_row_of (tbl focus_crops db, tbl focus_scenarios db))
              cs_rows) db.

(** [focus_crops] as the lookups see it: the name and the id of each
    row. *)
Definition crop_keys (crop_table : table) : list (value * value) :=
  map (fun r => (col r "swash_crop_name", col r "focus_crop_id")) crop_table.

(** The [UPDATE] that [import_from_csv] runs for a row of [crop.csv]: the
    id in its [WHERE] clause and its assignments. *)
Definition crop_update_of (keys : list (value * value)) (r : csv_row)
  : list (value * list (string * value)) :=
  match csv_field r (mapped SWASH_CROP_COLS "name") with
  | Ok name =>
      if Str.is_empty name then []
      else
        match find (fun p => sql_eq (fst p) (VText name)) keys with
        | None => []
        | Some p =>
            match crop_updates r with
            | Ok [] => []
            | Ok updates =>
                match bind_all updates with
                | Ok params => [(snd p, params)]
                | Raise _ => []
                end
            | Raise _ => []
            end
        end
  | Raise _ => []
  end.

(** A sequence of [UPDATE focus_crops SET ... WHERE focus_crop_id = ?]. *)
Definition apply_updates (us : list (value * list (string * value)))
           (db : Database) : Database :=
  fold_left (fun d u => update focus_crops (snd u) (focus_crop_is (fst u)) d)
            us db.

(** What the sequence makes of one row. *)
Definition row_updates (us : list (value * list (string * value))) (r : row)
  : row :=
  fold_left (fun r' u => if focus_crop_is (fst u) r' then set_cols (snd u) r'
                         else r')
            us r.

(** The columns that the crop loop may assign. *)
Definition assigns_parameters (params : list (string * value)) : Prop :=
  Forall (fun kv =>
            In (fst kv)
               ["bbch_sowing_min"; "bbch_sowing_max"; "bbch_harvest_min";
                "bbch_harvest_max"; "canopy_type"; "root_depth_m";
                "lai_max"]) params.

Definition swash_crops_written (crop_rows : list csv_row) (db : Database)
  : Database :=
  apply_updates (flat_map (crop_update_of (crop_keys (tbl focus_crops db)))
                          crop_rows) db.

(** What [--apply] makes of the database when [import_from_csv] runs to
    its end. *)
Definition swash_written (crop_rows cs_rows : list csv_row) (db : Database)
  : Database :=
  swash_links_written cs_rows (swash_crops_written crop_rows db).

(** The rows of a list that the engine does not refuse. *)
Definition accepted_rows (t : table_name) (rows : list row) : list row :=
  flat_map (fun r => match rejects t r with
                     | None => [r]
                     | Some _ => []
                     end) rows.

(** The loop of [import_primo] over the rows of the sheet. *)
Definition parse_sheet (ws : list (list cell)) (unknown_crop_id : value)
           (primo_version : string) (out0 : list event) : result primo_parse :=
  for_each (parse_body unknown_crop_id primo_version)
           (enumerate 0 (skipn HEADER_ROWS ws))
           {| reg396_rows := []; primo_rows := []; preview_count := 0;
              parse_out := out0 |}.

(** What [--apply] makes of the database when [import_primo] runs to its
    end on the sheet [ws]. *)
Definition primo_written (ws : list (list cell)) (primo_version : string)
           (db : Database) : Database :=
  match get_or_create_placeholder (connect db) with
  | Ok (conn1, unknown_crop_id) =>
      match parse_sheet ws unknown_crop_id primo_version
                        [print "Opening {xlsx_path}..." []] with
      | Ok parsed =>
          insert_all_or_ignore primo_commodities
            (accepted_rows primo_commodities (primo_rows parsed))
            (insert_all_or_ignore reg396_commodities
               (accepted_rows reg396_commodities (reg396_rows parsed))
               (working conn1))
      | Raise _ => db
      end
  | Raise _ => db
  end.

(** The database that a run returns with, when it returns. *)
Definition returned (o : outcome) : option Database :=
  match o with
  | Returned db _ => Some db
  | _ => None
  end.




(** [main] of the FOCUS importer with [--apply], on a database file that
    exists. *)
Definition focus_apply (char_json irr_json : option json) (db : Database)
  : outcome :=
  match focus_main (Some db) char_json irr_json true with
  | Ran o => o
  | NoDatabase msg => Exited db [] msg
  end.

(** ** PRIMo importer *)

(** The level that the trailing zeros of a code give. *)
Definition level_of_zeros (c : string) : Z :=
  if Str.endswith c "000" then 1 else if Str.endswith c "00" then 2 else 3.

(** What holds of a row that the parse loop queues for
    [reg396_commodities]: it points to the placeholder crop; its code and
    its name are not empty and have no white space around them; a code
    made of digits only has at least seven of them; the level is the one of
    the trailing zeros for a code of seven digits, and 3 for any other
    code. *)
Definition reg396_row_ok (unknown_crop_id : value) (r : row) : Prop :=
  col r "crop_id" = unknown_crop_id /\
  col r "regulation_version" = VText REGULATION_VERSION /\
  exists code name,
    col r "annex1_code" = VText code /\ col r "annex1_name" = VText name /\
    code <> EmptyString /\ name <> EmptyString /\
    Str.strip code = code /\ Str.strip name = name /\
    (Str.all_digits code = true -> (7 <= String.length code)%nat) /\
    (seven_digits code ->
     col r "hierarchy_level" = VInt (level_of_zeros code)) /\
    (~ seven_digits code -> col r "hierarchy_level" = VInt 3).

(** What holds of a row that the parse loop queues for
    [primo_commodities], beside the row [reg] queued for
    [reg396_commodities] from the same line of the sheet. *)
Definition primo_row_ok (unknown_crop_id : value) (primo_version : string)
           (reg p : row) : Prop :=
  col p "crop_id" = unknown_crop_id /\
  col p "primo_version" = VText primo_version /\
  col p "primo_code" = col reg "annex1_code" /\
  (exists name, col p "primo_name" = VText name /\ name <> EmptyString /\
                Str.strip name = name) /\
  (col p "unit_weight_g" = VNull \/ exists x, col p "unit_weight_g" = VReal x).

(** The lines that an insert loop of [import_primo] prints: one for each
    row that the engine refuses. *)
Definition refusals (t : table_name) (skip_fmt : string) (label : row -> arg)
           (rows : list row) : list event :=
  flat_map (fun r => match rejects t r with
                     | Some msg =>
                         [print skip_fmt [label r; AExn (DatabaseError msg)]]
                     | None => []
                     end) rows.

(** ** What the importers leave alone *)

(** Two rows that agree on every column outside [cols]. *)
Definition same_outside (cols : list string) (r r' : row) : Prop :=
  forall k, ~ In k cols -> col r' k = col r k.

(** The columns of [focus_crops] that [import_from_csv] assigns. *)
Definition crop_parameters : list string :=
  ["bbch_sowing_min"; "bbch_sowing_max"; "bbch_harvest_min";
   "bbch_harvest_max"; "canopy_type"; "root_depth_m"; "lai_max"].

(** The table [t] of [db'] is that of [db] with rows added at its end,
    none of which collides with a row of [db]. *)
Definition only_appended (t : table_name) (db db' : Database) : Prop :=
  exists added,
    tbl t db' = tbl t db ++ added /\
    Forall (fun r => existsb (conflict t r) (tbl t db) = false) added.

(** ** What the reports count *)

(** Two states of the loop of [import_characteristics] that have counted
    and printed the same, on databases whose table [focus_scenarios] is
    [scenarios]. *)
Definition char_sim (scenarios : table) (s1 s2 : char_state) : Prop :=
  tbl focus_scenarios (working (char_conn s1)) = scenarios /\
  tbl focus_scenarios (working (char_conn s2)) = scenarios /\
  char_updated s2 = char_updated s1 /\ char_out s2 = char_out s1.

Definition irr_sim (tables : table * table) (s1 s2 : irr_state) : Prop :=
  tbl focus_scenarios (working (irr_conn s1)) = fst tables /\
  tbl focus_crops (working (irr_conn s1)) = snd tables /\
  tbl focus_scenarios (working (irr_conn s2)) = fst tables /\
  tbl focus_crops (working (irr_conn s2)) = snd tables /\
  irr_inserted s2 = irr_inserted s1 /\ irr_skipped s2 = irr_skipped s1 /\
  irr_out s2 = irr_out s1.

Definition links_sim (tables : table * table) (s1 s2 : links_state) : Prop :=
  tbl focus_crops (working (links_conn s1)) = fst tables /\
  tbl focus_scenarios (working (links_conn s1)) = snd tables /\
  tbl focus_crops (working (links_conn s2)) = fst tables /\
  tbl focus_scenarios (working (links_conn s2)) = snd tables /\
  links_inserted s2 = links_inserted s1 /\
  links_skipped s2 = links_skipped s1.

(** ** More on the EPPO verifier *)

(** The exception that the [try] block raises for the [i]-th row, and
    for the rows from the [i]-th on. *)
Definition failed (api : eppo_api) (i : nat) (r : row) : list exn :=
  match compare_names api i r with
  | Raise e => [e]
  | Ok _ => []
  end.

Fixpoint failed_all (api : eppo_api) (i : nat) (rows : list row)
  : list exn :=
  match rows with
  | [] => []
  | r :: rest => failed api i r ++ failed_all api (S i) rest
  end.

(** An entry of the list of names that is a JSON object. *)
Definition is_dict (j : json) : bool :=
  match j with JObj _ => true | _ => false end.

(** An entry with [langiso == "en"] and [preferred == 1]. *)
Definition preferred_en (j : json) : bool :=
  match get j "langiso", get j "preferred" with
  | Ok lang, Ok pref => is_en lang && is_one pref
  | _, _ => false
  end.

(** A scientific name that [--apply] can bind to its [UPDATE], or does
    not bind because it is falsy. *)
Definition bindable_name (u : correction) : Prop :=
  truthy (snd (fst u)) = true -> exists v, bind_json (snd (fst u)) = Ok v.

(** ** References between the tables *)

(** The row [r] has in column [key] the value that a row of [parent] has
    there. *)
Definition refers_to (parent : table) (key : string) (r : row) : Prop :=
  exists p, In p parent /\ col r key = col p key.

(** Every row of table [t] in [db'] was in [db] or satisfies [P]. *)
Definition new_rows (t : table_name) (db db' : Database) (P : row -> Prop)
  : Prop :=
  forall r, In r (tbl t db') -> In r (tbl t db) \/ P r.

(** ** The verifier, run again *)

(** The service answers by the code alone: the same at every request. *)
Definition answers_by_code (api : eppo_api) : Prop :=
  forall i j code,
    taxon_response api i code = taxon_response api j code /\
    names_response api i code = names_response api j code.

(** [eppo_code_id] is a key of the table: the comparison of a [WHERE]
    clause tells two rows apart and finds each row by its own id. *)
Definition eppo_ids_are_keys (eppo_table : table) : Prop :=
  forall e1 e2,
    In e1 eppo_table -> In e2 eppo_table ->
    (sql_eq (col e1 "eppo_code_id") (col e2 "eppo_code_id") = true <->
     e1 = e2).

(** A row of the join of [eppo_codes] and [crops]. *)
Definition joined_row (e c : row) : row :=
  [("eppo_code_id", col e "eppo_code_id");
   ("eppo_code", col e "eppo_code");
   ("eppo_name", col e "eppo_name");
   ("taxon_level", col e "taxon_level");
   ("common_name_en", col c "common_name_en");
   ("scientific_name", col c "scientific_name")].

(** What the [UPDATE]s of [eppo_codes] for the queued corrections make of
    one row of the table. *)
Definition rename (updates : list correction) (e : row) : row :=
  fold_left (fun e' (u : correction) =>
               if eppo_code_id_is (snd u) e'
               then set_cols [("eppo_name", VText (fst (fst u)))] e'
               else e')
            updates e.

(** ** The verifier, in the words of the specification *)











End Embedding.

(* ================================================================== *)
(** * A small instance to run the tools on *)
(* ================================================================== *)

(** Floats that are whole numbers: enough to evaluate the tools on
    examples.  Nothing that is proved below depends on this instance. *)
Definition whole_of_str (s : string) : option Z :=
  match int_of_str s with
  | Ok z => Some z
  | Raise _ => None
  end.

#[export] Instance WholeFloats : Floats := Z.

#[export] Instance WholeFloat : PyFloat := {|
  float_of_Z := fun z => Some z;
  float_of_str := whole_of_str;
  float_is_zero := fun x => x =? 0;
  float_eq_Z := Z.eqb;
  float_eqb := Z.eqb;
  float_leb := Z.leb;
  float_leb_Z := Z.leb;
  Z_leb_float := Z.leb;
  float_str := fun x => (Str.of_Z x ++ ".0")%string
|}.

(** Two rows collide on a uniqueness constraint over [cols] when they
    have equal values in each of its columns.  SQLite takes [NULL] to
    differ from every value, also from [NULL]: a row with a [NULL] in one
    of the columns collides with no row, not even with itself. *)
Definition same_on (cols : list string) (r old : @row WholeFloats) : bool :=
  forallb (fun c => sql_eq (col r c) (col old c)) cols.

(** A schema in which every table that the importers insert into has a
    unique key on the columns that identify a row. *)
Definition key_columns (t : table_name) : list string :=
  match t with
  | crops => ["crop_id"]
  | eppo_codes => ["eppo_code_id"]
  | focus_scenarios => ["scenario_id"]
  | focus_crops => ["focus_crop_id"]
  | focus_crop_scenario_links => ["focus_crop_id"; "scenario_id"]
  | focus_crop_interception => ["focus_crop_id"; "bbch_stage"]
  | focus_sw_scenario_characteristics => ["scenario_id"]
  | focus_crop_scenario_irrigation => ["focus_crop_id"; "scenario_id"]
  | primo_commodities => ["primo_version"; "primo_code"]
  | reg396_commodities => ["annex1_code"]
  end.

(** The reg396 table also has a trigger that refuses the commodity name
    ["(deleted)"]. *)
Definition refuses_deleted (t : table_name) (r : @row WholeFloats)
  : option string :=
  match t, col r "annex1_name" with
  | reg396_commodities, VText "(deleted)" => Some "commodity was deleted"
  | _, _ => None
  end.

#[export] Instance KeyedSchema : @Schema WholeFloats := {|
  conflict := fun t => same_on (key_columns t);
  rejects := refuses_deleted
|}.

Definition empty_db : @Database WholeFloats :=
  mkDatabase [] [] [] [] [] [] [] [] [] [].

(** A database with two surface-water scenarios and two FOCUS crops. *)
Definition sample_db : @Database WholeFloats :=
  mkDatabase
    [[("crop_id", VInt 1); ("common_name_en", VText "Wheat");
      ("scientific_name", VNull)];
     [("crop_id", VInt 2); ("common_name_en", VText "Maize");
      ("scientific_name", VText "Zea mays")]]
    [[("eppo_code_id", VInt 1); ("eppo_code", VText "TRZAX");
      ("eppo_name", VText "wheat"); ("taxon_level", VText "species");
      ("crop_id", VInt 1)];
     [("eppo_code_id", VInt 2); ("eppo_code", VText "ZEAMX");
      ("eppo_name", VText "Maize"); ("taxon_level", VText "species");
      ("crop_id", VInt 2)]]
    [[("scenario_id", VInt 1); ("scenario_code", VText "D1");
      ("scenario_type_id", VInt 1)];
     [("scenario_id", VInt 2); ("scenario_code", VText "R1");
      ("scenario_type_id", VInt 1)]]
    [[("focus_crop_id", VInt 10); ("swash_crop_name", VText "Maize")];
     [("focus_crop_id", VInt 11); ("swash_crop_name", VText "Winter cereals")]]
    [] [] [] [] [] [].

(** An interception table with some percentages filled in. *)
Definition filled_table : list (string * list (@stage WholeFloats)) :=
  [("Maize", [(0, Some (NInt 25), "Table 7"); (10, None, STUB);
              (20, Some (NInt 50), "Table 7")]);
   ("Grass", [(0, Some (NInt 90), "Table 7"); (10, None, STUB)])].

(** Decoded source files for the FOCUS importer: one irrigation record
    that matches [sample_db]; a scenario that does not exist ([X9])
    followed by one that does. *)
Definition sample_irrigation : @json WholeFloats :=
  JObj [("irrigation",
         JArr [JObj [("scenario_code", JStr "D1"); ("crop", JStr "Maize");
                     ("irrigation_mm_annual", JInt 120)]])].

Definition scenario_X9 : @json WholeFloats :=
  JObj [("scenario_code", JStr "X9"); ("latitude_deg", JInt 50)].

Definition scenario_D1 : @json WholeFloats :=
  JObj [("scenario_code", JStr "D1"); ("latitude_deg", JInt 52)].

Definition characteristics_of (scenarios : list (@json WholeFloats))
  : @json WholeFloats :=
  JObj [("scenarios", JArr scenarios)].

(** Rows of [crop.csv]: a crop of [sample_db] whose emergence stage is not
    a number, and a well-formed one. *)
Definition crop_row_malformed : csv_row :=
  [("CropName", Some "Maize"); ("BBCHemergenceMin", Some "abc")].

Definition crop_row_well_formed : csv_row :=
  [("CropName", Some "Winter cereals"); ("BBCHemergenceMin", Some "9")].

Definition crop_row_unknown : csv_row :=
  [("CropName", Some "Quinoa"); ("BBCHemergenceMin", Some "9")].

Definition link_row_unknown : csv_row :=
  [("CropName", Some "Quinoa"); ("ScenarioCode", Some "D1");
   ("WaterbodyType", Some "ditch"); ("IsDefault", Some "1")].

(** The states in which the loops of the importers start on [sample_db]. *)
Definition char_start : @char_state WholeFloats :=
  {| char_conn := connect sample_db; char_updated := 0; char_out := [] |}.

Definition irr_start : @irr_state WholeFloats :=
  {| irr_conn := connect sample_db; irr_inserted := 0; irr_skipped := [];
     irr_out := [] |}.

Definition links_start : @links_state WholeFloats :=
  {| links_conn := connect sample_db; links_inserted := 0;
     links_skipped := [] |}.

Definition icpt_start : @icpt_state WholeFloats :=
  {| icpt_conn := connect sample_db; icpt_inserted := 0; icpt_stubbed := 0;
     icpt_skipped := 0; icpt_out := [] |}.

Definition swash_crops_start : @swash_crops_state WholeFloats :=
  {| sc_conn := connect sample_db; sc_updated_crops := 0;
     sc_skipped_crops := [] |}.

Definition swash_links_start : @swash_links_state WholeFloats :=
  {| sl_conn := connect sample_db; sl_inserted := 0; sl_skipped := [] |}.

(** Records that match nothing in [sample_db]. *)
Definition irrigation_X9 : @json WholeFloats :=
  JObj [("scenario_code", JStr "X9"); ("crop", JStr "Maize");
        ("irrigation_mm_annual", JInt 80)].

Definition links_quinoa : @json WholeFloats :=
  JObj [("crop", JStr "Quinoa"); ("scenarios", JStr "D1, R1")].

(** An EPPO service that fails for the code [TRZAX] and knows maize. *)
Definition sample_api : @eppo_api WholeFloats :=
  {| taxon_response := fun _ code =>
       match code with
       | VText "TRZAX" => inl "404 Client Error"
       | _ => inr (JObj [("fullname", JStr "Zea mays L.")])
       end;
     names_response := fun _ _ =>
       inr (JArr [JObj [("langiso", JStr "fr"); ("preferred", JInt 1);
                        ("fullname", JStr "mais")];
                  JObj [("langiso", JStr "en"); ("preferred", JInt 1);
                        ("fullname", JStr "maize")]]) |}.

Definition verify_start : @verify_state WholeFloats :=
  {| v_index := O; v_issues := []; v_updates := []; v_out := [] |}.

(** The two rows that the verifier reads from [sample_db]. *)
Definition row_TRZAX : @row WholeFloats :=
  [("eppo_code_id", VInt 1); ("eppo_code", VText "TRZAX");
   ("eppo_name", VText "wheat"); ("taxon_level", VText "species");
   ("common_name_en", VText "Wheat"); ("scientific_name", VNull)].

Definition row_ZEAMX : @row WholeFloats :=
  [("eppo_code_id", VInt 2); ("eppo_code", VText "ZEAMX");
   ("eppo_name", VText "Maize"); ("taxon_level", VText "species");
   ("common_name_en", VText "Maize"); ("scientific_name", VText "Zea mays")].

(** A commodity row that the trigger of [KeyedSchema] refuses. *)
Definition deleted_commodity : @row WholeFloats :=
  [("crop_id", VInt 3); ("annex1_code", VText "0110010");
   ("annex1_name", VText "(deleted)"); ("hierarchy_level", VInt 3);
   ("parent_annex1_code", VText "01100000");
   ("regulation_version", VText REGULATION_VERSION)].

Definition primo_start : @primo_ins WholeFloats :=
  {| pi_conn := connect sample_db; pi_inserted := 0; pi_skipped := 0;
     pi_out := [] |}.

(** An EPPO service for which every code is "corn", Zea mays L. *)
Definition corn_api : @eppo_api WholeFloats :=
  {| taxon_response := fun _ _ =>
       inr (JObj [("fullname", JStr "Zea mays L.")]);
     names_response := fun _ _ =>
       inr (JArr [JObj [("langiso", JStr "en"); ("preferred", JInt 1);
                        ("fullname", JStr "CORN")]]) |}.

(** A file of links for maize in the two scenarios of the sample
    database. *)
Definition links_maize : @json WholeFloats :=
  JObj [("crop_scenarios",
         JArr [JObj [("crop", JStr "Maize");
                     ("scenarios", JArr [JStr "D1"; JStr "R1"])]])].

(** A schema without unique keys. *)
Definition NoKeys : @Schema WholeFloats := {|
  conflict := fun _ _ _ => false;
  rejects := fun _ _ => None
|}.


(** The sheet of a workbook: three header lines, a group whose code Excel
    holds as a number, a commodity with a PRIMo name and a unit weight, an
    empty line and a line without a name. *)
Definition sample_sheet : list (list (@cell WholeFloats)) :=
  [[CStr "PRIMo"; CNone; CNone; CNone];
   [CNone; CNone; CNone; CNone];
   [CStr "Code"; CStr "Name"; CStr "PRIMo name"; CStr "Unit weight"];
   [CInt 110000; CStr "Citrus fruits"; CNone; CNone];
   [CStr " 0110010 "; CStr "Grapefruits"; CStr "Grapefruit"; CInt 160];
   [CNone; CNone; CNone; CNone];
   [CStr "0110020"; CNone; CStr "Oranges"; CInt 140]].

(** A row of [cropscenario.csv] for a crop and a scenario of
    [sample_db]. *)
Definition link_row_maize : csv_row :=
  [("CropName", Some "Maize"); ("ScenarioCode", Some "D1");
   ("WaterbodyType", Some "ditch"); ("IsDefault", Some "1")].

(** An irrigation file without the array of records. *)
Definition irrigation_without_array : @json WholeFloats :=
  JObj [("note", JStr "no data")].

(** The answer of the service for a code: a synonym, a French name, the
    preferred English name, and a line that is not an object. *)
Definition names_of_maize : list (@json WholeFloats) :=
  [JObj [("langiso", JStr "en"); ("preferred", JInt 0);
         ("fullname", JStr "corn")];
   JObj [("langiso", JStr "fr"); ("preferred", JInt 1);
         ("fullname", JStr "mais")]].



(* ================================================================== *)
(** * Properties *)
(* ================================================================== *)

(** ** The hierarchy heuristics of import_primo.py *)

Example parse_hierarchy_level_group :
  parse_hierarchy_level (PyStr "0110000") = Some 1.
Proof. reflexivity. Qed.

Example parse_hierarchy_level_subgroup :
  parse_hierarchy_level (PyStr "0110100") = Some 2.
Proof. reflexivity. Qed.

Example parse_hierarchy_level_item :
  parse_hierarchy_level (PyStr "0110010") = Some 3.
Proof. reflexivity. Qed.

Example parse_hierarchy_level_short :
  parse_hierarchy_level (PyStr "110000") = None.
Proof. reflexivity. Qed.

Example parse_hierarchy_level_of_int :
  parse_hierarchy_level (PyInt 1100000) = Some 1.
Proof. reflexivity. Qed.

Example parent_code_subgroup :
  parent_code (PyStr "0110100") = Some "0110000".
Proof. reflexivity. Qed.

Lemma span_digits_all (s : string) :
  Str.all_digits s = true ->
  Str.span_digits s = (String.length s, EmptyString).
Proof.
  induction s as [|c s IH]; simpl; intros H.
  - reflexivity.
  - apply andb_true_iff in H. destruct H as [Hc Hs].
    rewrite Hc, (IH Hs). reflexivity.
Qed.

Lemma span_digits_app (s rest : string) :
  Str.all_digits s = true ->
  (match rest with
   | EmptyString => True
   | String c _ => Str.is_digit c = false
   end) ->
  Str.span_digits (s ++ rest)%string = (String.length s, rest).
Proof.
  induction s as [|c s IH]; simpl; intros H Hrest.
  - destruct rest as [|c r]; simpl; [reflexivity|]. now rewrite Hrest.
  - apply andb_true_iff in H. destruct H as [Hc Hs].
    rewrite Hc, (IH Hs Hrest). reflexivity.
Qed.

Lemma span_digits_split (s : string) :
  exists d rest,
    s = (d ++ rest)%string /\ Str.all_digits d = true /\
    Str.span_digits s = (String.length d, rest).
Proof.
  induction s as [|c s IH]; simpl.
  - exists EmptyString, EmptyString. auto.
  - destruct (Str.is_digit c) eqn:Hc.
    + destruct IH as (d & rest & Hs & Hd & Hspan).
      exists (String c d), rest. simpl. rewrite Hc, Hd, Hspan, Hs.
      auto.
    + exists EmptyString, (String c s). auto.
Qed.

(** What [^\d{7}$] accepts: seven digits, and seven digits followed by a
    line feed. *)
Lemma re_match_seven_iff (s : string) :
  Str.re_match_digits 7 7 s = true <->
  exists d, seven_digits d /\ (s = d \/ s = (d ++ LFs)%string).
Proof.
  unfold Str.re_match_digits, seven_digits. split.
  - destruct (span_digits_split s) as (d & rest & Hs & Hd & Hspan).
    rewrite Hspan. intros H.
    apply andb_true_iff in H. destruct H as [H Hend].
    apply andb_true_iff in H. destruct H as [Hlo Hhi].
    apply Nat.leb_le in Hlo. apply Nat.leb_le in Hhi.
    exists d. split; [split; [lia | assumption]|].
    destruct rest as [|c [|c' r]]; simpl in Hend; try discriminate.
    + left. rewrite Hs. clear. induction d; simpl; congruence.
    + right. apply Ascii.eqb_eq in Hend. subst c. exact Hs.
  - intros (d & [Hlen Hd] & [Hs | Hs]); subst s.
    + rewrite (span_digits_all _ Hd), Hlen. reflexivity.
    + rewrite (span_digits_app d LFs Hd); [|reflexivity].
      rewrite Hlen. reflexivity.
Qed.

(** On a code of seven digits the level follows the trailing zeros. *)
Lemma parse_hierarchy_level_seven_digits (s : string) :
  seven_digits s ->
  parse_hierarchy_level (PyStr s) =
  Some (if Str.endswith s "000" then 1
        else if Str.endswith s "00" then 2 else 3).
Proof.
  intros Hs. unfold parse_hierarchy_level. simpl py_str.
  assert (Hm : Str.re_match_digits 7 7 s = true).
  { apply re_match_seven_iff. exists s. auto. }
  rewrite Hm.
  destruct Hs as [Hlen _].
  destruct s as [|c s]; [discriminate|]. simpl.
  destruct (Str.endswith (String c s) "000");
    [reflexivity | destruct (Str.endswith (String c s) "00"); reflexivity].
Qed.

(** A string that [^\d{7}$] does not accept has no level. *)
Lemma parse_hierarchy_level_no_match (o : pyobj) :
  Str.re_match_digits 7 7 (py_str o) = false ->
  parse_hierarchy_level o = None.
Proof.
  intros H. unfold parse_hierarchy_level. rewrite H.
  now rewrite orb_true_r.
Qed.

(** A string gets a level exactly when it is seven digits, with or
    without a line feed after them. *)
Lemma parse_hierarchy_level_some_iff (s : string) :
  parse_hierarchy_level (PyStr s) <> None <->
  exists d, seven_digits d /\ (s = d \/ s = (d ++ LFs)%string).
Proof.
  rewrite <- re_match_seven_iff. unfold parse_hierarchy_level. simpl py_str.
  destruct (Str.re_match_digits 7 7 s) eqn:Hm.
  - split; [reflexivity|]. intros _.
    assert (Ht : py_truthy (PyStr s) = true).
    { destruct s; [discriminate Hm | reflexivity]. }
    rewrite Ht. simpl.
    destruct (Str.endswith s "000");
      [|destruct (Str.endswith s "00")]; discriminate.
  - rewrite orb_true_r. split; [congruence | discriminate].
Qed.

(** C3, where the code departs from it: seven digits followed by a line
    feed are eight characters, and the function still gives them a level,
    because [$] also matches just before a final line feed. *)
Theorem parse_hierarchy_level_trailing_newline :
  String.length ("0110000" ++ LFs) = 8%nat /\
  parse_hierarchy_level (PyStr ("0110000" ++ LFs)%string) = Some 3.
Proof. split; reflexivity. Qed.

(** The parent of a sub-group code is its group. *)
Lemma parent_code_subgroup_length (s : string) :
  seven_digits s ->
  Str.endswith s "000" = false -> Str.endswith s "00" = true ->
  exists p, parent_code (PyStr s) = Some p /\ String.length p = 7%nat.
Proof.
  intros Hs H3 H2. unfold parent_code. simpl py_str.
  assert (Hm : Str.re_match_digits 7 7 s = true).
  { apply re_match_seven_iff. exists s. auto. }
  rewrite Hm, H3, H2. simpl.
  eexists. split; [reflexivity|].
  destruct Hs as [Hlen _].
  do 8 (destruct s as [|? s]; try discriminate Hlen). reflexivity.
Qed.

(** The "parent" of an individual commodity has eight characters: the
    first five of the code and three zeros. *)
Lemma parent_code_item_length (s : string) :
  seven_digits s ->
  Str.endswith s "00" = false ->
  exists p, parent_code (PyStr s) = Some p /\ String.length p = 8%nat.
Proof.
  intros Hs H2. unfold parent_code. simpl py_str.
  assert (Hm : Str.re_match_digits 7 7 s = true).
  { apply re_match_seven_iff. exists s. auto. }
  destruct Hs as [Hlen _].
  do 8 (destruct s as [|? s]; try discriminate Hlen).
  rewrite Hm. clear Hm.
  unfold Str.endswith, Str.slice_last, Str.slice_to in *.
  simpl in *. rewrite H2.
  destruct (Ascii.eqb a3 "0"); simpl; eexists; split; reflexivity.
Qed.

(** C9, where the code departs from it: for the commodity [0110010] the
    comment in the code and the claim both give the group [0110000]; the
    function returns a string of eight digits. *)
Theorem parent_code_item_not_a_code :
  parent_code (PyStr "0110010") = Some "01100000" /\
  parent_code (PyStr "0110010") <> Some "0110000".
Proof. split; [reflexivity | discriminate]. Qed.

(** ** The two heuristics together *)

Lemma length_append (a b : string) :
  String.length (a ++ b) = (String.length a + String.length b)%nat.
Proof. induction a as [|c a IH]; simpl; [reflexivity | now rewrite IH]. Qed.

Lemma re_match_seven_length (s : string) :
  Str.re_match_digits 7 7 s = true -> (7 <= String.length s)%nat.
Proof.
  intros H. apply re_match_seven_iff in H.
  destruct H as (d & [Hlen _] & [-> | ->]); [lia|].
  rewrite length_append. simpl. lia.
Qed.

Lemma re_match_seven_truthy (o : pyobj) :
  Str.re_match_digits 7 7 (py_str o) = true -> py_truthy o = true.
Proof.
  destruct o as [|[|]|z|s]; simpl; try discriminate; intros H.
  - destruct (z =? 0) eqn:Hz; [|reflexivity].
    apply Z.eqb_eq in Hz. subst z. discriminate H.
  - destruct s; [discriminate H | reflexivity].
Qed.

(** A code has a parent exactly when it has level 2 or 3: the last
    [return None] of [parent_code] is never reached. *)
Theorem parent_code_none_iff_no_level_or_group (o : pyobj) :
  parent_code o = None <->
  parse_hierarchy_level o = None \/ parse_hierarchy_level o = Some 1.
Proof.
  unfold parent_code, parse_hierarchy_level.
  destruct (Str.re_match_digits 7 7 (py_str o)) eqn:Hm.
  - rewrite (re_match_seven_truthy o Hm). cbn [negb orb].
    pose proof (re_match_seven_length _ Hm) as Hlen.
    destruct (Str.endswith (py_str o) "000") eqn:H3; [tauto|].
    destruct (Str.endswith (py_str o) "00") eqn:H2.
    + split; [discriminate | intros [H | H]; discriminate H].
    + unfold Str.endswith in H2. unfold Str.slice_last.
      apply andb_false_iff in H2. destruct H2 as [H2 | H2].
      * apply Nat.leb_gt in H2. simpl in H2. lia.
      * simpl String.length in H2. rewrite H2. cbn [negb].
        split; [discriminate | intros [H | H]; discriminate H].
  - rewrite orb_true_r. cbn [negb orb]. tauto.
Qed.

Ltac seven_chars d Hlen :=
  do 8 (destruct d as [|? d]; try discriminate Hlen).

Lemma endswith_zeros_after_line_feed (d : string) :
  String.length d = 7%nat ->
  Str.endswith (d ++ LFs) "00" = false /\
  Str.endswith (d ++ LFs) "000" = false /\
  Str.slice_last 2 (d ++ LFs) <> "00".
Proof.
  intros Hlen. seven_chars d Hlen.
  unfold Str.endswith, Str.slice_last. simpl.
  repeat split;
    try (repeat match goal with
                | |- context [Ascii.eqb ?x ?y] => destruct (Ascii.eqb x y)
                end; reflexivity).
  intros H. inversion H.
Qed.

(** The parent of a code of level 2 is a code of level 1 with the same
    first four digits. *)
Theorem parent_of_subgroup_is_a_group (s : string) :
  parse_hierarchy_level (PyStr s) = Some 2 ->
  exists p,
    parent_code (PyStr s) = Some p /\
    seven_digits p /\
    parse_hierarchy_level (PyStr p) = Some 1 /\
    Str.slice_to 4 p = Str.slice_to 4 s.
Proof.
  intros H.
  assert (Hs : Str.re_match_digits 7 7 s = true /\
               Str.endswith s "000" = false /\ Str.endswith s "00" = true).
  { unfold parse_hierarchy_level in H. simpl py_str in H.
    destruct (Str.re_match_digits 7 7 s) eqn:Hm;
      [|rewrite orb_true_r in H; discriminate].
    rewrite (re_match_seven_truthy (PyStr s) Hm) in H. cbn [negb orb] in H.
    destruct (Str.endswith s "000"); [discriminate|].
    destruct (Str.endswith s "00"); [auto | discriminate]. }
  clear H. destruct Hs as (Hm & H3 & H2).
  unfold parent_code. simpl py_str. rewrite Hm, H3, H2. cbn [negb orb].
  destruct (proj1 (re_match_seven_iff s) Hm) as (d & [Hlen Hd] & [-> | ->]).
  - seven_chars d Hlen. simpl in Hd.
    repeat (apply andb_true_iff in Hd; destruct Hd as [? Hd]).
    eexists. split; [reflexivity|].
    assert (Hp : seven_digits
                   (Str.slice_to 4
                      (String a (String a0 (String a1 (String a2
                         (String a3 (String a4 (String a5 EmptyString)))))))
                    ++ "000")).
    { split; [reflexivity|]. simpl.
      repeat (apply andb_true_iff; split; try assumption); reflexivity. }
    split; [exact Hp|]. split; [|reflexivity].
    rewrite (parse_hierarchy_level_seven_digits Hp). reflexivity.
  - destruct (endswith_zeros_after_line_feed d Hlen) as (E & _).
    congruence.
Qed.

(** What [parent_code] returns has no parent itself, and is not the code
    that it was derived from: the hierarchy that the importer stores is one
    step deep and has no cycle. *)
Theorem parent_code_has_no_parent (o : pyobj) (p : string) :
  parent_code o = Some p ->
  parent_code (PyStr p) = None /\ p <> py_str o.
Proof.
  unfold parent_code at 1.
  destruct (Str.re_match_digits 7 7 (py_str o)) eqn:Hm; [|discriminate].
  cbn [negb orb].
  destruct (proj1 (re_match_seven_iff _) Hm) as (d & [Hlen Hd] & [Hs | Hs]);
    rewrite Hs; clear Hm Hs.
  - seven_chars d Hlen. simpl in Hd.
    repeat (apply andb_true_iff in Hd; destruct Hd as [? Hd]).
    unfold Str.endswith, Str.slice_last, Str.slice_to. simpl.
    destruct (Ascii.eqb a4 "0") eqn:E4; destruct (Ascii.eqb a5 "0") eqn:E5;
      destruct (Ascii.eqb a3 "0") eqn:E3; simpl; try discriminate;
      intros Hp; inversion Hp; subst p; clear Hp;
      (split; [|intros Heq; inversion Heq; subst;
                 try discriminate E3; try discriminate E4;
                 try discriminate E5]).
    all: unfold parent_code; simpl py_str; unfold Str.re_match_digits;
      simpl; repeat match goal with H : Str.is_digit _ = true |- _ =>
                             rewrite H; clear H end;
      try reflexivity.
  - destruct (endswith_zeros_after_line_feed d Hlen) as (E2 & E3 & E).
    rewrite E3, E2. apply String.eqb_neq in E. rewrite E. cbn [negb].
    seven_chars d Hlen. simpl in Hd.
    repeat (apply andb_true_iff in Hd; destruct Hd as [? Hd]).
    intros Hp. inversion Hp; subst p; clear Hp.
    split; [|intros Heq; inversion Heq].
    unfold parent_code; simpl py_str; unfold Str.re_match_digits;
      simpl; repeat match goal with H : Str.is_digit _ = true |- _ =>
                             rewrite H; clear H end.
    reflexivity.
Qed.

(** ** Stripped strings and zero-filled codes *)

Lemma rstrip_idem (s : string) : Str.rstrip (Str.rstrip s) = Str.rstrip s.
Proof.
  induction s as [|a s IH]; [reflexivity|].
  simpl. destruct (Str.rstrip s) as [|b r] eqn:E.
  - destruct (Str.is_space a) eqn:Ha; [reflexivity|].
    simpl. now rewrite Ha.
  - change (Str.rstrip (String a (String b r))) with
      (match Str.rstrip (String b r) with
       | EmptyString =>
           if Str.is_space a then EmptyString else String a EmptyString
       | r' => String a r'
       end).
    now rewrite IH.
Qed.

Lemma lstrip_head (s : string) :
  match Str.lstrip s with
  | EmptyString => True
  | String c _ => Str.is_space c = false
  end.
Proof.
  induction s as [|a s IH]; simpl; [exact I|].
  destruct (Str.is_space a) eqn:Ha; [exact IH | exact Ha].
Qed.

Lemma lstrip_rstrip (s : string) :
  match s with
  | EmptyString => True
  | String c _ => Str.is_space c = false
  end ->
  Str.lstrip (Str.rstrip s) = Str.rstrip s.
Proof.
  destruct s as [|a s]; [reflexivity|]. intros Ha. cbn [Str.rstrip].
  destruct (Str.rstrip s); [rewrite Ha|]; cbn [Str.lstrip]; now rewrite Ha.
Qed.

(** [strip] does nothing to a string that it has stripped. *)
Lemma strip_idem (s : string) : Str.strip (Str.strip s) = Str.strip s.
Proof.
  unfold Str.strip.
  rewrite (lstrip_rstrip (Str.lstrip s) (lstrip_head s)).
  apply rstrip_idem.
Qed.

Lemma is_digit_not_space (c : ascii) :
  Str.is_digit c = true -> Str.is_space c = false.
Proof.
  unfold Str.is_digit, Str.is_space. intros H.
  apply andb_true_iff in H. destruct H as [H1 H2].
  apply Nat.leb_le in H1. apply Nat.leb_le in H2.
  repeat match goal with
         | |- context [(?a <=? ?b)%nat] =>
             destruct (Nat.leb_spec a b)
         | |- context [(?a =? ?b)%nat] =>
             destruct (Nat.eqb_spec a b)
         end; simpl; try reflexivity; lia.
Qed.

Lemma lstrip_digits (s : string) :
  Str.all_digits s = true -> Str.lstrip s = s.
Proof.
  destruct s as [|c s]; simpl; [reflexivity|]. intros H.
  apply andb_true_iff in H. destruct H as [Hc _].
  now rewrite (is_digit_not_space c Hc).
Qed.

Lemma rstrip_digits (s : string) :
  Str.all_digits s = true -> Str.rstrip s = s.
Proof.
  induction s as [|c s IH]; simpl; [reflexivity|]. intros H.
  apply andb_true_iff in H. destruct H as [Hc Hs].
  rewrite (IH Hs). destruct s; [|reflexivity].
  now rewrite (is_digit_not_space c Hc).
Qed.

Lemma strip_digits (s : string) :
  Str.all_digits s = true -> Str.strip s = s.
Proof.
  intros H. unfold Str.strip. rewrite (lstrip_digits s H).
  now apply rstrip_digits.
Qed.

Lemma all_digits_append (a b : string) :
  Str.all_digits (a ++ b) = Str.all_digits a && Str.all_digits b.
Proof.
  induction a as [|c a IH]; simpl; [reflexivity|].
  now rewrite IH, andb_assoc.
Qed.

Lemma all_digits_zeros (n : nat) :
  Str.all_digits (Str.repeat_char "0" n) = true.
Proof. induction n; simpl; auto. Qed.

Lemma length_repeat_char (c : ascii) (n : nat) :
  String.length (Str.repeat_char c n) = n.
Proof. induction n; simpl; auto. Qed.

Lemma is_digit_not_sign (c : ascii) :
  Str.is_digit c = true ->
  Ascii.eqb c "+" || Ascii.eqb c "-" = false.
Proof.
  intros H.
  destruct (Ascii.eqb c "+") eqn:E1;
    [apply Ascii.eqb_eq in E1; subst c; discriminate H|].
  destruct (Ascii.eqb c "-") eqn:E2;
    [apply Ascii.eqb_eq in E2; subst c; discriminate H|].
  reflexivity.
Qed.

(** Digits are padded with zeros in front. *)
Lemma zfill_digits (width : nat) (s : string) :
  Str.all_digits s = true ->
  Str.zfill width s =
  (Str.repeat_char "0" (width - String.length s) ++ s)%string.
Proof.
  destruct s as [|c s]; intros H.
  - unfold Str.zfill. clear. induction (width - String.length EmptyString)%nat;
      simpl; congruence.
  - unfold Str.zfill. simpl in H. apply andb_true_iff in H.
    destruct H as [Hc _]. now rewrite (is_digit_not_sign c Hc).
Qed.

(** What [^\d{lo,hi}$] accepts when the string is made of digits. *)
Lemma re_match_digits_all (lo hi : nat) (s : string) :
  Str.all_digits s = true ->
  Str.re_match_digits lo hi s =
  (lo <=? String.length s)%nat && (String.length s <=? hi)%nat.
Proof.
  intros H. unfold Str.re_match_digits. rewrite (span_digits_all s H).
  simpl. apply andb_true_r.
Qed.

Lemma re_match_digits_length (lo hi : nat) (s : string) :
  Str.re_match_digits lo hi s = true ->
  exists d, Str.all_digits d = true /\
            (lo <= String.length d <= hi)%nat /\
            (s = d \/ s = (d ++ LFs)%string).
Proof.
  unfold Str.re_match_digits.
  destruct (span_digits_split s) as (d & rest & Hs & Hd & Hspan).
  rewrite Hspan. intros H.
  apply andb_true_iff in H. destruct H as [H Hend].
  apply andb_true_iff in H. destruct H as [Hlo Hhi].
  apply Nat.leb_le in Hlo. apply Nat.leb_le in Hhi.
  exists d. split; [assumption|]. split; [lia|].
  destruct rest as [|c [|c' r]]; simpl in Hend; try discriminate.
  - left. rewrite Hs. clear. induction d; simpl; congruence.
  - right. apply Ascii.eqb_eq in Hend. subst c. exact Hs.
Qed.

Lemma rstrip_append_space (d : string) (c : ascii) :
  Str.is_space c = true ->
  Str.rstrip (d ++ String c EmptyString) = Str.rstrip d.
Proof.
  intros Hc. induction d as [|a d IH]; simpl.
  - now rewrite Hc.
  - now rewrite IH.
Qed.

(** A stripped string does not end with a line feed. *)
Lemma stripped_no_line_feed (s d : string) :
  Str.strip s = s -> s <> (d ++ LFs)%string.
Proof.
  intros Hs Heq.
  assert (Hr : Str.rstrip s = s).
  { rewrite <- Hs at 1. unfold Str.strip. rewrite rstrip_idem. exact Hs. }
  rewrite Heq in Hr. unfold LFs in Hr.
  rewrite rstrip_append_space in Hr by reflexivity.
  assert (Hlen : (String.length (Str.rstrip d) <= String.length d)%nat).
  { clear. induction d as [|a d IH]; simpl; [lia|].
    destruct (Str.rstrip d); [destruct (Str.is_space a)|]; simpl in *; lia. }
  rewrite Hr, length_append in Hlen. simpl in Hlen. lia.
Qed.

(** On a stripped string [^\d{lo,hi}$] accepts digits only. *)
Lemma re_match_digits_stripped (lo hi : nat) (s : string) :
  Str.strip s = s ->
  Str.re_match_digits lo hi s =
  Str.all_digits s && (lo <=? String.length s)%nat
  && (String.length s <=? hi)%nat.
Proof.
  intros Hs. destruct (Str.all_digits s) eqn:Hd.
  - now rewrite re_match_digits_all.
  - simpl. destruct (Str.re_match_digits lo hi s) eqn:Hm; [|reflexivity].
    apply re_match_digits_length in Hm.
    destruct Hm as (d & Hd' & _ & [-> | ->]); [congruence|].
    exfalso. eapply stripped_no_line_feed; [exact Hs | reflexivity].
Qed.

(** ** Lists of codes that commas separate *)

Lemma split_no_sep (sep : ascii) (s : string) :
  Forall (fun w => has_char sep w = false) (Str.split sep s).
Proof.
  induction s as [|c s IH]; simpl.
  - constructor; [reflexivity | constructor].
  - destruct (Ascii.eqb c sep) eqn:Hc.
    + constructor; [reflexivity | exact IH].
    + destruct (Str.split sep s) as [|w ws].
      * constructor; [simpl; now rewrite Hc | constructor].
      * inversion IH; subst. constructor; [simpl; now rewrite Hc, H1|].
        assumption.
Qed.

Lemma split_not_nil (sep : ascii) (s : string) : Str.split sep s <> [].
Proof.
  destruct s as [|c s]; simpl; [discriminate|].
  destruct (Ascii.eqb c sep); [discriminate|].
  destruct (Str.split sep s); discriminate.
Qed.

Lemma split_one (sep : ascii) (w : string) :
  has_char sep w = false -> Str.split sep w = [w].
Proof.
  induction w as [|c w IH]; simpl; intros H; [reflexivity|].
  apply orb_false_iff in H. destruct H as [Hc Hw].
  now rewrite Hc, (IH Hw).
Qed.

Lemma split_append (sep : ascii) (w rest : string) :
  has_char sep w = false ->
  Str.split sep (w ++ String sep rest) = w :: Str.split sep rest.
Proof.
  induction w as [|c w IH]; simpl; intros H.
  - now rewrite Ascii.eqb_refl.
  - apply orb_false_iff in H. destruct H as [Hc Hw].
    now rewrite Hc, (IH Hw).
Qed.

Lemma has_char_lstrip (c : ascii) (s : string) :
  has_char c s = false -> has_char c (Str.lstrip s) = false.
Proof.
  induction s as [|a s IH]; simpl; intros H; [reflexivity|].
  apply orb_false_iff in H. destruct H as [Ha Hs].
  destruct (Str.is_space a); [auto|]. simpl. now rewrite Ha, Hs.
Qed.

Lemma has_char_rstrip (c : ascii) (s : string) :
  has_char c s = false -> has_char c (Str.rstrip s) = false.
Proof.
  induction s as [|a s IH]; simpl; intros H; [reflexivity|].
  apply orb_false_iff in H. destruct H as [Ha Hs].
  specialize (IH Hs).
  destruct (Str.rstrip s); [destruct (Str.is_space a)|]; simpl in *;
    try rewrite Ha; auto.
Qed.

Lemma has_char_strip (c : ascii) (s : string) :
  has_char c s = false -> has_char c (Str.strip s) = false.
Proof.
  intros H. unfold Str.strip. now apply has_char_rstrip, has_char_lstrip.
Qed.

Lemma strip_after_space (w : string) :
  Str.strip (String " " w) = Str.strip w.
Proof. reflexivity. Qed.

(** The pieces of a joined list of clean codes. *)
Lemma split_concat (codes : list string) :
  Forall clean_code codes ->
  map Str.strip (Str.split "," (String.concat ", " codes)) =
  match codes with
  | [] => [EmptyString]
  | _ => codes
  end.
Proof.
  induction 1 as [|w ws (Hne & Hs & Hc) Hws IH]; [reflexivity|].
  destruct ws as [|w2 ws].
  - simpl. rewrite (@split_one "," w Hc). simpl. now rewrite Hs.
  - change (String.concat ", " (w :: w2 :: ws))
      with (w ++ String "," (String " " (String.concat ", " (w2 :: ws))))%string.
    rewrite (@split_append "," w _ Hc). cbn [map]. rewrite Hs. f_equal.
    assert (Hsp : forall s,
               map Str.strip (Str.split "," (String " " s)) =
               map Str.strip (Str.split "," s)).
    { intros s. simpl. pose proof (split_not_nil "," s) as Hn.
      destruct (Str.split "," s) as [|x xs]; [congruence | reflexivity]. }
    rewrite Hsp. exact IH.
Qed.

(** ** Names that are the same when case is ignored *)






(** ** Loops and exceptions *)

Lemma for_each_invariant {S I : Type} (P : S -> Prop)
      (body : S -> I -> result S) :
  (forall st i st', P st -> body st i = Ok st' -> P st') ->
  forall items st st',
    P st -> for_each body items st = Ok st' -> P st'.
Proof.
  intros Hbody items.
  induction items as [|i rest IH]; simpl; intros st st' HP H.
  - inversion H. now subst.
  - destruct (body st i) as [st1|e] eqn:Hb; [|discriminate].
    eapply IH; [|exact H]. eapply Hbody; eauto.
Qed.

Lemma for_each_app {S I : Type} (body : S -> I -> result S)
      (xs ys : list I) (st : S) :
  for_each body (xs ++ ys) st =
  bind (for_each body xs st) (for_each body ys).
Proof.
  revert st. induction xs as [|x xs IH]; simpl; intros st.
  - reflexivity.
  - destruct (body st x); simpl; auto.
Qed.

(** A loop whose body never raises runs to its end. *)
Lemma for_each_total {S I : Type} (body : S -> I -> result S) :
  (forall st i, exists st', body st i = Ok st') ->
  forall items st, exists st', for_each body items st = Ok st'.
Proof.
  intros Hbody items.
  induction items as [|i rest IH]; simpl; intros st.
  - eauto.
  - destruct (Hbody st i) as [st1 H1]. rewrite H1. apply IH.
Qed.

Ltac inv_ok :=
  repeat match goal with
    | H : Ok _ = Ok _ |- _ => inversion H; subst; clear H
    | H : Raise _ = Ok _ |- _ => discriminate H
    | H : bind ?r _ = Ok _ |- _ =>
        let E := fresh "E" in
        destruct r eqn:E; simpl in H; [|discriminate H]
    | H : (if ?b then _ else _) = Ok _ |- _ =>
        let E := fresh "E" in destruct b eqn:E
    | H : match ?x with _ => _ end = Ok _ |- _ =>
        let E := fresh "E" in destruct x eqn:E
    end.

Section Properties.

Context {FT : Floats} {F : PyFloat} {Sch : Schema}.

(** ** Connections *)

Lemma committed_execute (stmt : Database -> Database) (c : connection) :
  committed (execute stmt c) = committed c.
Proof. reflexivity. Qed.

Lemma committed_execute_insert
      (ins : table_name -> row -> Database -> Database)
      (t : table_name) (r : row) (c c' : connection) :
  execute_insert ins t r c = Ok c' -> committed c' = committed c.
Proof.
  unfold execute_insert. destruct (rejects t r); intros H; inversion H.
  reflexivity.
Qed.

Lemma close_connect (db : Database) : close (connect db) = db.
Proof. reflexivity. Qed.

(** ** Preview mode never commits *)

Lemma char_body_committed (dry_run : bool) (st st' : char_state) (s : json) :
  char_body dry_run st s = Ok st' ->
  committed (char_conn st') = committed (char_conn st).
Proof.
  unfold char_body. intros H. inv_ok; simpl; auto.
  eapply committed_execute_insert; eauto.
Qed.

Lemma irr_body_committed (dry_run : bool) (st st' : irr_state) (r : json) :
  irr_body dry_run st r = Ok st' ->
  committed (irr_conn st') = committed (irr_conn st).
Proof.
  unfold irr_body. intros H. inv_ok; simpl; auto.
  eapply committed_execute_insert; eauto.
Qed.

Lemma import_characteristics_preview (file : option json) (db : Database) :
  db_after (import_characteristics file db true) = db.
Proof.
  unfold import_characteristics.
  destruct file as [data|]; [|reflexivity].
  destruct (first_array data "scenarios" "items") as [sc|e]; [|reflexivity].
  destruct (negb (truthy sc)); [reflexivity|].
  destruct (py_iter sc) as [items|e]; simpl; [|reflexivity].
  destruct (for_each _ _ _) as [st|e] eqn:Hloop; simpl; [|reflexivity].
  eapply (for_each_invariant
            (fun st : char_state => committed (char_conn st) = db)) in Hloop; auto.
  intros st0 i st1 HP Hb. apply char_body_committed in Hb. congruence.
Qed.

Lemma import_irrigation_preview (file : option json) (db : Database) :
  db_after (import_irrigation file db true) = db.
Proof.
  unfold import_irrigation.
  destruct file as [data|]; [|reflexivity].
  destruct (first_array data "irrigation" "items") as [sc|e]; [|reflexivity].
  destruct (negb (truthy sc)); [reflexivity|].
  destruct (py_iter sc) as [items|e]; simpl; [|reflexivity].
  destruct (for_each _ _ _) as [st|e] eqn:Hloop; simpl; [|reflexivity].
  eapply (for_each_invariant
            (fun st : irr_state => committed (irr_conn st) = db)) in Hloop; auto.
  intros st0 i st1 HP Hb. apply irr_body_committed in Hb. congruence.
Qed.

Lemma db_after_prepend (out : list event) (o : outcome) :
  db_after (prepend out o) = db_after o.
Proof. destruct o; reflexivity. Qed.

Lemma db_after_and_then (db : Database) (o : outcome)
      (k : Database -> list event -> outcome) :
  db_after o = db ->
  (forall out, db_after (k db out) = db) ->
  db_after (and_then o k) = db.
Proof.
  intros Ho Hk. destruct o; simpl in *; subst; auto.
Qed.

Lemma focus_main_preview (db : Database) (char_json irr_json : option json)
      (o : outcome) :
  focus_main (Some db) char_json irr_json false = Ran o -> db_after o = db.
Proof.
  unfold focus_main. simpl. intros H. inversion H; subst; clear H.
  apply db_after_and_then.
  - destruct char_json; [|reflexivity].
    rewrite db_after_prepend. apply import_characteristics_preview.
  - intros out1. apply db_after_and_then; [|reflexivity].
    destruct irr_json; [|reflexivity].
    rewrite db_after_prepend. apply import_irrigation_preview.
Qed.

Lemma link_body_committed (dry_run : bool) (crop_name : string) (fid : value)
      (st st' : links_state) (j : json) :
  link_body dry_run crop_name fid st j = Ok st' ->
  committed (links_conn st') = committed (links_conn st).
Proof.
  unfold link_body. intros H. inv_ok; simpl; auto.
  eapply committed_execute_insert; eauto.
Qed.

Lemma links_row_body_committed (dry_run : bool) (st st' : links_state)
      (item : json) :
  links_row_body dry_run st item = Ok st' ->
  committed (links_conn st') = committed (links_conn st).
Proof.
  unfold links_row_body. intros H.
  destruct (get_stripped item "crop") as [crop_name|]; simpl in H;
    [|discriminate].
  destruct (get item "scenarios") as [scenarios|]; simpl in H;
    [|discriminate].
  destruct (_ || _); [inversion H; reflexivity|].
  destruct (select_one _ _ _) as [fc|]; [|inversion H; reflexivity].
  destruct (py_iter _) as [codes|]; simpl in H; [|discriminate].
  eapply (for_each_invariant
            (fun s : links_state => committed (links_conn s) = committed (links_conn st)))
    in H; auto.
  intros s0 i s1 HP Hb. apply link_body_committed in Hb. congruence.
Qed.

Lemma import_links_preview (file : option json) (db : Database) :
  db_after (import_links file db true) = db.
Proof.
  unfold import_links.
  destruct file as [data|]; [|reflexivity].
  destruct (bind _ _) as [items|e]; [|reflexivity].
  destruct (negb (truthy items)); [reflexivity|].
  destruct (py_iter items) as [rows|e]; simpl; [|reflexivity].
  destruct (for_each _ _ _) as [st|e] eqn:Hloop; simpl; [|reflexivity].
  eapply (for_each_invariant
            (fun st : links_state => committed (links_conn st) = db)) in Hloop; auto.
  intros st0 i st1 HP Hb. apply links_row_body_committed in Hb. congruence.
Qed.

Lemma stage_body_committed (dry_run : bool) (fid : value)
      (st st' : icpt_state) (s : stage) :
  stage_body dry_run fid st s = Ok st' ->
  committed (icpt_conn st') = committed (icpt_conn st).
Proof.
  unfold stage_body. destruct s as [[bbch pct] source].
  intros H. inv_ok; simpl; auto.
  eapply committed_execute_insert; eauto.
Qed.

Lemma crop_body_committed (dry_run : bool) (st st' : icpt_state)
      (entry : string * list stage) :
  crop_body dry_run st entry = Ok st' ->
  committed (icpt_conn st') = committed (icpt_conn st).
Proof.
  unfold crop_body. destruct entry as [crop_name stages].
  destruct (select_one _ _ _) as [fc|]; intros H; [|inversion H; reflexivity].
  eapply (for_each_invariant
            (fun s : icpt_state => committed (icpt_conn s) = committed (icpt_conn st)))
    in H; auto.
  intros s0 i s1 HP Hb. apply stage_body_committed in Hb. congruence.
Qed.

Lemma import_interception_preview (data : list (string * list stage))
      (db : Database) :
  db_after (import_interception_with data db true) = db.
Proof.
  unfold import_interception_with, interception_loop.
  destruct (for_each _ _ _) as [st|e] eqn:Hloop; simpl; [|reflexivity].
  eapply (for_each_invariant
            (fun st : icpt_state => committed (icpt_conn st) = db)) in Hloop; auto.
  intros st0 i st1 HP Hb. apply crop_body_committed in Hb. congruence.
Qed.

Lemma swash_crop_body_committed (dry_run : bool)
      (st st' : swash_crops_state) (r : csv_row) :
  swash_crop_body dry_run st r = Ok st' ->
  committed (sc_conn st') = committed (sc_conn st).
Proof.
  unfold swash_crop_body. intros H. inv_ok; simpl; auto.
Qed.

Lemma swash_link_body_committed (dry_run : bool)
      (st st' : swash_links_state) (r : csv_row) :
  swash_link_body dry_run st r = Ok st' ->
  committed (sl_conn st') = committed (sl_conn st).
Proof.
  unfold swash_link_body. intros H. inv_ok; simpl; auto.
  eapply committed_execute_insert; eauto.
Qed.

Lemma import_from_csv_preview (crop_csv cs_csv : option (list csv_row))
      (db : Database) :
  db_after (import_from_csv crop_csv cs_csv db true) = db.
Proof.
  unfold import_from_csv.
  destruct crop_csv as [crop_rows|]; [|reflexivity].
  destruct cs_csv as [cs_rows|]; [|reflexivity].
  destruct (for_each (swash_crop_body true) _ _) as [s1|e] eqn:H1; simpl;
    [|reflexivity].
  destruct (for_each (swash_link_body true) _ _) as [s2|e] eqn:H2; simpl;
    [|reflexivity].
  eapply (for_each_invariant
            (fun st : swash_crops_state => committed (sc_conn st) = db)) in H1; auto.
  - eapply (for_each_invariant
              (fun st : swash_links_state => committed (sl_conn st) = db)) in H2; auto.
    intros st0 i st1 HP Hb. apply swash_link_body_committed in Hb. congruence.
  - intros st0 i st1 HP Hb. apply swash_crop_body_committed in Hb. congruence.
Qed.

Lemma import_from_mdb_preview (has_pyodbc : bool)
      (mdb : string + list csv_row * list csv_row) (db : Database) :
  db_after (import_from_mdb has_pyodbc mdb db true) = db.
Proof.
  unfold import_from_mdb.
  destruct has_pyodbc; [|reflexivity]. cbn [negb].
  destruct mdb as [e|[crop_rows cs_rows]]; [reflexivity|].
  rewrite db_after_prepend. apply import_from_csv_preview.
Qed.

Lemma get_or_create_placeholder_committed (conn conn' : connection)
      (id : value) :
  get_or_create_placeholder conn = Ok (conn', id) ->
  committed conn' = committed conn.
Proof.
  unfold get_or_create_placeholder, insert_placeholder.
  destruct (select_one _ _ _); intros H; [|discriminate].
  now inversion H.
Qed.

Lemma import_primo_preview (HAS_OPENPYXL : bool) (xlsx : option workbook)
      (db : Database) (primo_version : string) :
  db_after (import_primo HAS_OPENPYXL xlsx db true primo_version) = db.
Proof.
  unfold import_primo.
  destruct HAS_OPENPYXL; [|reflexivity]. simpl.
  destruct xlsx as [wb|]; [|reflexivity].
  destruct (sheet wb SHEET_COMMODITY) as [ws|]; [|reflexivity].
  destruct (get_or_create_placeholder (connect db)) as [[conn1 id]|e] eqn:Hp;
    simpl; [|reflexivity].
  destruct (for_each _ _ _) as [parsed|e]; simpl; [|reflexivity].
  apply get_or_create_placeholder_committed in Hp. exact Hp.
Qed.

Lemma verify_codes_preview (HAS_REQUESTS : bool) (api : eppo_api)
      (db : Database) :
  db_after (verify_codes HAS_REQUESTS api db true) = db.
Proof.
  unfold verify_codes.
  destruct HAS_REQUESTS; [|reflexivity]. simpl.
  destruct (for_each _ _ _) as [st|e]; [|reflexivity].
  destruct (v_updates st); reflexivity.
Qed.

(** C1: a run without [--apply] leaves the database as it was, whatever
    the input is and however the run ends.  This holds for the five
    importers, for the two entry points of the SWASH importer, for [main]
    of the FOCUS importer, and for the EPPO verifier. *)
Theorem preview_leaves_database_unchanged :
  forall (db : Database),
    (forall file, db_after (import_characteristics file db true) = db) /\
    (forall file, db_after (import_irrigation file db true) = db) /\
    (forall char_json irr_json o,
        focus_main (Some db) char_json irr_json false = Ran o ->
        db_after o = db) /\
    (forall file, db_after (import_links file db true) = db) /\
    (forall data, db_after (import_interception_with data db true) = db) /\
    (forall crop_csv cs_csv,
        db_after (import_from_csv crop_csv cs_csv db true) = db) /\
    (forall has_pyodbc mdb,
        db_after (import_from_mdb has_pyodbc mdb db true) = db) /\
    (forall has_openpyxl xlsx version,
        db_after (import_primo has_openpyxl xlsx db true version) = db) /\
    (forall has_requests api,
        db_after (verify_codes has_requests api db true) = db).
Proof.
  intros db. repeat split; intros.
  - apply import_characteristics_preview.
  - apply import_irrigation_preview.
  - eapply focus_main_preview; eauto.
  - apply import_links_preview.
  - apply import_interception_preview.
  - apply import_from_csv_preview.
  - apply import_from_mdb_preview.
  - apply import_primo_preview.
  - apply verify_codes_preview.
Qed.

(** ** Tables of a database *)

Lemma tbl_set_tbl (t t' : table_name) (x : table) (db : Database) :
  tbl t' (set_tbl t x db) = if table_name_eqb t t' then x else tbl t' db.
Proof. destruct db, t, t'; reflexivity. Qed.

Lemma tbl_set_tbl_same (t : table_name) (x : table) (db : Database) :
  tbl t (set_tbl t x db) = x.
Proof. destruct db, t; reflexivity. Qed.

Lemma set_tbl_set_tbl (t : table_name) (x y : table) (db : Database) :
  set_tbl t x (set_tbl t y db) = set_tbl t x db.
Proof. destruct db, t; reflexivity. Qed.

Lemma set_tbl_tbl (t : table_name) (db : Database) :
  set_tbl t (tbl t db) db = db.
Proof. destruct db, t; reflexivity. Qed.

Lemma table_name_eqb_refl (t : table_name) : table_name_eqb t t = true.
Proof. destruct t; reflexivity. Qed.

Lemma table_name_eqb_eq (t t' : table_name) :
  table_name_eqb t t' = true <-> t = t'.
Proof. destruct t, t'; simpl; split; congruence. Qed.

(** Statements on one table, one after the other, amount to one change
    of that table. *)
Lemma fold_on_table (t : table_name) (f : table -> row -> table)
      (rows : list row) (db : Database) :
  fold_left (fun d r => set_tbl t (f (tbl t d) r) d) rows db =
  set_tbl t (fold_left f rows (tbl t db)) db.
Proof.
  revert db. induction rows as [|r rows IH]; simpl; intros db.
  - now rewrite set_tbl_tbl.
  - rewrite IH, tbl_set_tbl_same, set_tbl_set_tbl. reflexivity.
Qed.

Lemma upsert_all_table (t : table_name) (rows : list row) (db : Database) :
  upsert_all t rows db =
  set_tbl t (fold_left (replace_into t) rows (tbl t db)) db.
Proof. apply fold_on_table. Qed.

Lemma insert_all_or_ignore_table (t : table_name) (rows : list row)
      (db : Database) :
  insert_all_or_ignore t rows db =
  set_tbl t (fold_left (ignore_into t) rows (tbl t db)) db.
Proof. apply fold_on_table. Qed.

Lemma tbl_upsert_all_other (t t' : table_name) (rows : list row)
      (db : Database) :
  table_name_eqb t t' = false ->
  tbl t' (upsert_all t rows db) = tbl t' db.
Proof. intros H. now rewrite upsert_all_table, tbl_set_tbl, H. Qed.

Lemma tbl_insert_all_or_ignore_other (t t' : table_name) (rows : list row)
      (db : Database) :
  table_name_eqb t t' = false ->
  tbl t' (insert_all_or_ignore t rows db) = tbl t' db.
Proof. intros H. now rewrite insert_all_or_ignore_table, tbl_set_tbl, H. Qed.

Lemma upsert_all_app (t : table_name) (xs ys : list row) (db : Database) :
  upsert_all t (xs ++ ys) db = upsert_all t ys (upsert_all t xs db).
Proof. apply fold_left_app. Qed.

Lemma insert_all_or_ignore_app (t : table_name) (xs ys : list row)
      (db : Database) :
  insert_all_or_ignore t (xs ++ ys) db =
  insert_all_or_ignore t ys (insert_all_or_ignore t xs db).
Proof. apply fold_left_app. Qed.

Lemma execute_insert_working
      (ins : table_name -> row -> Database -> Database)
      (t : table_name) (r : row) (c c' : connection) :
  execute_insert ins t r c = Ok c' ->
  working c' = ins t r (working c) /\ rejects t r = None.
Proof.
  unfold execute_insert. destruct (rejects t r); intros H; inversion H.
  auto.
Qed.

Lemma bind_int_ok (z : Z) (v : value) :
  bind_int z = Ok v -> v = VInt z /\ - 2 ^ 63 <= z < 2 ^ 63.
Proof.
  unfold bind_int. destruct (_ && _) eqn:E; intros H; inversion H.
  apply andb_true_iff in E. destruct E as [E1 E2].
  apply Z.leb_le in E1. apply Z.ltb_lt in E2. auto.
Qed.

Lemma bind_number_ok (n : number) (v : value) :
  bind_number n = Ok v -> v = number_value n.
Proof.
  destruct n; simpl; intros H.
  - now apply bind_int_ok in H.
  - now inversion H.
Qed.

(** ** The interception importer *)

Lemma count_stubs_cons (s : stage) (stages : list stage) :
  count_stubs (s :: stages) =
  (match snd (fst s) with None => 1 | Some _ => 0 end) + count_stubs stages.
Proof.
  unfold count_stubs. simpl.
  destruct (snd (fst s)); simpl List.length; lia.
Qed.

Lemma filled_rows_cons (fid : value) (bbch : Z) (pct : option number)
      (source : string) (stages : list stage) :
  filled_rows fid ((bbch, pct, source) :: stages) =
  match pct with
  | None => []
  | Some p => [[("focus_crop_id", fid);
                ("bbch_stage", VInt bbch);
                ("interception_pct", number_value p);
                ("interception_source", VText source)]]
  end ++ filled_rows fid stages.
Proof. reflexivity. Qed.

Lemma stage_loop_spec (dry_run : bool) (fid : value) (stages : list stage) :
  forall st st',
    for_each (stage_body dry_run fid) stages st = Ok st' ->
    working (icpt_conn st') =
      (if dry_run then working (icpt_conn st)
       else upsert_all focus_crop_interception (filled_rows fid stages)
                       (working (icpt_conn st))) /\
    icpt_inserted st' =
      (if dry_run then icpt_inserted st
       else icpt_inserted st
            + Z.of_nat (List.length (filled_rows fid stages))) /\
    icpt_stubbed st' = icpt_stubbed st + count_stubs stages /\
    icpt_skipped st' = icpt_skipped st /\
    icpt_out st' = icpt_out st.
Proof.
  induction stages as [|s stages IH]; intros st st' H.
  - simpl in H. inversion H; subst. unfold count_stubs. simpl.
    destruct dry_run; repeat split; lia.
  - cbn [for_each] in H.
    destruct (stage_body dry_run fid st s) as [st1|e] eqn:Hb; [|discriminate].
    apply IH in H. destruct H as (Hw & Hi & Hs & Hk & Ho).
    rewrite count_stubs_cons.
    unfold stage_body in Hb. destruct s as [[bbch pct] source].
    cbn [fst snd].
    destruct pct as [p|].
    + destruct dry_run; cbn [negb] in Hb.
      * inversion Hb; subst. repeat split; auto; lia.
      * inv_ok.
        apply bind_int_ok in E. destruct E as [-> _].
        apply bind_number_ok in E0. subst.
        apply execute_insert_working in E1. destruct E1 as [E1 _].
        cbn [icpt_conn icpt_inserted icpt_stubbed icpt_skipped icpt_out] in *.
        rewrite E1 in Hw.
        repeat split; auto; try lia.
        rewrite Hi, filled_rows_cons, length_app. cbn [List.length].
        rewrite Nat2Z.inj_add. change (Z.of_nat 1) with 1.
        now rewrite Z.add_assoc.
    + inversion Hb; subst.
      cbn [icpt_conn icpt_inserted icpt_stubbed icpt_skipped icpt_out] in *.
      repeat split; auto; lia.
Qed.

Lemma crop_loop_spec (dry_run : bool) (data : list (string * list stage)) :
  forall st st',
    for_each (crop_body dry_run) data st = Ok st' ->
    working (icpt_conn st') =
      (if dry_run then working (icpt_conn st)
       else upsert_all focus_crop_interception
              (interception_rows (tbl focus_crops (working (icpt_conn st)))
                                 data)
              (working (icpt_conn st))) /\
    icpt_inserted st' =
      (if dry_run then icpt_inserted st
       else icpt_inserted st
            + Z.of_nat (List.length
                (interception_rows (tbl focus_crops (working (icpt_conn st)))
                                   data))) /\
    icpt_stubbed st' =
      icpt_stubbed st
      + matched_stubs (tbl focus_crops (working (icpt_conn st))) data /\
    icpt_skipped st' =
      icpt_skipped st
      + unmatched_crops (tbl focus_crops (working (icpt_conn st))) data.
Proof.
  induction data as [|[crop_name stages] data IH]; intros st st' H.
  - simpl in H. inversion H; subst. simpl.
    destruct dry_run; repeat split; lia.
  - cbn [for_each] in H.
    destruct (crop_body dry_run st (crop_name, stages)) as [st1|e] eqn:Hb;
      [|discriminate].
    apply IH in H. clear IH. destruct H as (Hw & Hi & Hs & Hk).
    unfold crop_body, select_one in Hb.
    cbn [interception_rows matched_stubs unmatched_crops flat_map fold_right
         fst snd].
    destruct (find (crop_named crop_name)
                   (tbl focus_crops (working (icpt_conn st)))) as [fc|] eqn:Hf.
    + apply stage_loop_spec in Hb. destruct Hb as (Hw1 & Hi1 & Hs1 & Hk1 & _).
      assert (Hfc : tbl focus_crops (working (icpt_conn st1)) =
                    tbl focus_crops (working (icpt_conn st))).
      { rewrite Hw1. destruct dry_run; [reflexivity|].
        now apply tbl_upsert_all_other. }
      rewrite Hfc in *.
      repeat split.
      * rewrite Hw, Hw1. destruct dry_run; [reflexivity|].
        now rewrite upsert_all_app.
      * rewrite Hi, Hi1. destruct dry_run; [reflexivity|].
        rewrite length_app, Nat2Z.inj_add. now rewrite Z.add_assoc.
      * rewrite Hs, Hs1. now rewrite Z.add_assoc.
      * rewrite Hk, Hk1. reflexivity.
    + inversion Hb; subst; clear Hb.
      cbn [icpt_conn icpt_inserted icpt_stubbed icpt_skipped icpt_out] in *.
      repeat split; auto.
      rewrite Hk. now rewrite Z.add_assoc.
Qed.

Lemma bind_int_fits (z : Z) : fits_int64 z -> bind_int z = Ok (VInt z).
Proof.
  unfold fits_int64, bind_int. intros [H1 H2].
  apply Z.leb_le in H1. apply Z.ltb_lt in H2. now rewrite H1, H2.
Qed.

Lemma bind_number_fits (n : number) :
  bindable_number n -> bind_number n = Ok (number_value n).
Proof.
  destruct n; simpl; intros H; [now apply bind_int_fits | reflexivity].
Qed.

Lemma execute_insert_accepted
      (ins : table_name -> row -> Database -> Database)
      (t : table_name) (r : row) (c : connection) :
  rejects t r = None -> execute_insert ins t r c = Ok (execute (ins t r) c).
Proof. unfold execute_insert. now intros ->. Qed.

Lemma accepted_app (t : table_name) (xs ys : list row) :
  accepted t (xs ++ ys) <-> accepted t xs /\ accepted t ys.
Proof. apply Forall_app. Qed.

Lemma stage_loop_total (dry_run : bool) (fid : value) (stages : list stage) :
  Forall bindable_stage stages ->
  accepted focus_crop_interception (filled_rows fid stages) ->
  forall st, exists st', for_each (stage_body dry_run fid) stages st = Ok st'.
Proof.
  induction stages as [|[[bbch pct] source] stages IH]; intros Hb Ha st.
  - simpl. eauto.
  - inversion Hb as [|? ? Hs Hb']; subst. clear Hb.
    rewrite filled_rows_cons in Ha. apply accepted_app in Ha.
    destruct Ha as [Ha1 Ha2].
    cbn [for_each]. unfold stage_body at 1.
    destruct pct as [p|]; [|now apply IH].
    destruct dry_run; cbn [negb]; [now apply IH|].
    destruct Hs as [Hz Hp]. cbn [fst snd] in Hz.
    rewrite (bind_int_fits Hz), (bind_number_fits _ Hp). cbn [bind].
    inversion Ha1 as [|? ? Hr _]; subst.
    rewrite execute_insert_accepted by exact Hr. cbn [bind].
    now apply IH.
Qed.

Lemma crop_loop_total (dry_run : bool) (data : list (string * list stage)) :
  bindable_table data ->
  forall st,
    accepted focus_crop_interception
      (interception_rows (tbl focus_crops (working (icpt_conn st))) data) ->
    exists st', for_each (crop_body dry_run) data st = Ok st'.
Proof.
  induction data as [|[crop_name stages] data IH]; intros Hb st Ha.
  - simpl. eauto.
  - inversion Hb as [|? ? Hs Hb']; subst. clear Hb. cbn [snd] in Hs.
    cbn [interception_rows flat_map fst snd] in Ha.
    apply accepted_app in Ha. destruct Ha as [Ha1 Ha2].
    cbn [for_each]. unfold crop_body at 1, select_one.
    destruct (find (crop_named crop_name)
                   (tbl focus_crops (working (icpt_conn st)))) as [fc|] eqn:Hf.
    + destruct (stage_loop_total dry_run (col fc "focus_crop_id") Hs Ha1 st)
        as [st1 H1].
      rewrite H1. apply IH; [assumption|].
      apply stage_loop_spec in H1. destruct H1 as (Hw & _).
      rewrite Hw. destruct dry_run; [exact Ha2|].
      rewrite tbl_upsert_all_other by reflexivity. exact Ha2.
    + apply IH; [assumption|]. exact Ha2.
Qed.

(** C8, amended: without a percentage an entry is counted as a stub when
    its crop is found in [focus_crops]; a crop that is not found is counted
    once, whatever its entries; and with [--apply] the database becomes
    what the upserts of the filled entries of the found crops, in the
    order of the table, make of it. *)
Theorem interception_counts_and_upserts
        (data : list (string * list stage)) (db : Database) (dry_run : bool) :
  bindable_table data ->
  accepted focus_crop_interception
           (interception_rows (tbl focus_crops db) data) ->
  exists st out,
    interception_loop data (connect db) dry_run = Ok st /\
    icpt_stubbed st = matched_stubs (tbl focus_crops db) data /\
    icpt_skipped st = unmatched_crops (tbl focus_crops db) data /\
    icpt_inserted st =
      (if dry_run then 0
       else Z.of_nat (List.length
                        (interception_rows (tbl focus_crops db) data))) /\
    import_interception_with data db dry_run =
      Returned (if dry_run then db
                else upsert_all focus_crop_interception
                       (interception_rows (tbl focus_crops db) data) db)
               out.
Proof.
  intros Hb Ha.
  destruct (crop_loop_total dry_run Hb
              {| icpt_conn := connect db; icpt_inserted := 0;
                 icpt_stubbed := 0; icpt_skipped := 0; icpt_out := [] |} Ha)
    as [st Hloop].
  pose proof (crop_loop_spec _ _ _ Hloop) as (Hw & Hi & Hs & Hk).
  cbn [icpt_conn icpt_inserted icpt_stubbed icpt_skipped working connect]
    in Hw, Hi, Hs, Hk.
  exists st. eexists.
  unfold import_interception_with, interception_loop.
  rewrite Hloop.
  split; [reflexivity|].
  split; [exact Hs|].
  split; [exact Hk|].
  split; [destruct dry_run; exact Hi|].
  f_equal. destruct dry_run; cbn [negb].
  - unfold close.
    apply (for_each_invariant
             (fun s : icpt_state => committed (icpt_conn s) = db)) in Hloop; auto.
    intros s0 i s1 HP Hbody. apply crop_body_committed in Hbody. congruence.
  - unfold close, commit. cbn [committed]. exact Hw.
Qed.

(** ** Required inputs that are missing *)

(** C6, amended: a missing library (requests, openpyxl, pyodbc), a
    database file that [main] of the FOCUS importer does not find, a
    missing [crop.csv] or [cropscenario.csv], and an Access database that
    cannot be opened end the run with a message before anything is
    processed or written; a missing source file of [import_links] and
    [import_primo] ends it with [FileNotFoundError].  A missing JSON file
    of the FOCUS importer does not end the run: [main] prints that it
    skips the file and goes on. *)
Theorem missing_input_ends_the_run_except_focus_json :
  (forall api db dry_run,
      verify_codes false api db dry_run =
      Returned db
        [print "requests library not installed. Run: pip install requests" []])
  /\ (forall xlsx db dry_run version,
         import_primo false xlsx db dry_run version =
         Exited db [] "openpyxl not installed. Run: pip install openpyxl")
  /\ (forall db dry_run version,
         import_primo true None db dry_run version =
         Crashed db FileNotFoundError)
  /\ (forall char_json irr_json apply,
         focus_main None char_json irr_json apply =
         NoDatabase "Database not found: {args.db}")
  /\ (forall cs_csv db dry_run,
         import_from_csv None cs_csv db dry_run =
         Exited db []
           "Not found: {crop_csv}\nExport with: mdb-export swash.mdb Crop > crop.csv")
  /\ (forall crop_rows db dry_run,
         import_from_csv (Some crop_rows) None db dry_run =
         Exited db []
           "Not found: {cs_csv}\nExport with: mdb-export swash.mdb CropScenario > cropscenario.csv")
  /\ (forall mdb db dry_run,
         import_from_mdb false mdb db dry_run =
         Exited db [] "pyodbc not installed. Run: pip install pyodbc")
  /\ (forall e db dry_run,
         import_from_mdb true (inl e) db dry_run =
         Exited db []
           "Could not open SWASH MDB: {e}\nCheck the Access driver is installed.")
  /\ (forall db dry_run, import_links None db dry_run =
                         Crashed db FileNotFoundError)
  /\ (forall db,
         focus_main (Some db) None None true =
         Ran (Returned db
                [print "Skip characteristics: {args.char_json} not found" [];
                 print "Skip irrigation: {args.irr_json} not found" []])).
Proof. repeat split. Qed.

(** ** Records whose natural key matches no row *)

Lemma for_each_cons_ok {S I : Type} (body : S -> I -> result S)
      (i : I) (rest : list I) (st st' : S) :
  body st i = Ok st' ->
  for_each body (i :: rest) st = for_each body rest st'.
Proof. intros H. simpl. now rewrite H. Qed.

Lemma char_body_unmatched (dry_run : bool) (st : char_state) (s : json)
      (code : string) :
  get_stripped s "scenario_code" = Ok code ->
  Str.is_empty code = false ->
  select_one focus_scenarios (surface_water_scenario code)
             (working (char_conn st)) = None ->
  char_body dry_run st s =
  Ok {| char_conn := char_conn st;
        char_updated := char_updated st;
        char_out := char_out st ++
          [print "  Skip scenario {code}: not found in focus_scenarios (surface water)"
                 [AStr code]] |}.
Proof.
  intros Hc He Hl. unfold char_body. rewrite Hc. cbn [bind].
  now rewrite He, Hl.
Qed.

Lemma irr_body_unmatched (dry_run : bool) (st : irr_state) (r mm : json)
      (code crop : string) :
  get_stripped r "scenario_code" = Ok code ->
  get_stripped r "crop" = Ok crop ->
  get r "irrigation_mm_annual" = Ok mm ->
  Str.is_empty code || Str.is_empty crop || is_none mm = false ->
  select_one focus_scenarios (surface_water_scenario code)
             (working (irr_conn st)) = None \/
  select_one focus_crops (crop_named crop) (working (irr_conn st)) = None ->
  irr_body dry_run st r =
  Ok {| irr_conn := irr_conn st; irr_inserted := irr_inserted st;
        irr_skipped := irr_skipped st ++ [(code, crop)];
        irr_out := irr_out st |}.
Proof.
  intros Hc Hp Hm He Hl. unfold irr_body. rewrite Hc, Hp, Hm. cbn [bind].
  rewrite He.
  destruct Hl as [Hl | Hl]; rewrite Hl; [reflexivity|].
  now destruct (select_one focus_scenarios _ _).
Qed.

Lemma links_row_body_unmatched (dry_run : bool) (st : links_state)
      (item scenarios : json) (crop_name : string) :
  get_stripped item "crop" = Ok crop_name ->
  get item "scenarios" = Ok scenarios ->
  Str.is_empty crop_name || negb (truthy scenarios) = false ->
  select_one focus_crops (crop_named crop_name)
             (working (links_conn st)) = None ->
  links_row_body dry_run st item =
  Ok {| links_conn := links_conn st;
        links_inserted := links_inserted st;
        links_skipped := links_skipped st ++ [(crop_name, None)] |}.
Proof.
  intros Hc Hs He Hl. unfold links_row_body. rewrite Hc, Hs. cbn [bind].
  now rewrite He, Hl.
Qed.

Lemma link_body_unmatched (dry_run : bool) (crop_name : string)
      (fid : value) (st : links_state) (raw : string) :
  select_one focus_scenarios (scenario_coded (Str.strip raw))
             (working (links_conn st)) = None ->
  link_body dry_run crop_name fid st (JStr raw) =
  Ok {| links_conn := links_conn st;
        links_inserted := links_inserted st;
        links_skipped := links_skipped st ++ [(crop_name, Some raw)] |}.
Proof.
  intros Hl. unfold link_body. cbn [strip_of bind]. now rewrite Hl.
Qed.

Lemma crop_body_unmatched (dry_run : bool) (st : icpt_state)
      (crop_name : string) (stages : list stage) :
  select_one focus_crops (crop_named crop_name)
             (working (icpt_conn st)) = None ->
  crop_body dry_run st (crop_name, stages) =
  Ok {| icpt_conn := icpt_conn st; icpt_inserted := icpt_inserted st;
        icpt_stubbed := icpt_stubbed st;
        icpt_skipped := icpt_skipped st + 1;
        icpt_out := icpt_out st ++
          [print "  WARNING: '{crop_name}' not found in focus_crops - skipping"
                 [AStr crop_name]] |}.
Proof. intros Hl. unfold crop_body. now rewrite Hl. Qed.

Lemma swash_crop_body_unmatched (dry_run : bool) (st : swash_crops_state)
      (r : csv_row) (name : string) :
  csv_field r "CropName" = Ok name ->
  Str.is_empty name = false ->
  select_one focus_crops (crop_named name) (working (sc_conn st)) = None ->
  swash_crop_body dry_run st r =
  Ok {| sc_conn := sc_conn st;
        sc_updated_crops := sc_updated_crops st;
        sc_skipped_crops := sc_skipped_crops st ++ [name] |}.
Proof.
  intros Hn He Hl. unfold swash_crop_body.
  change (mapped SWASH_CROP_COLS "name") with "CropName".
  rewrite Hn. cbn [bind]. now rewrite He, Hl.
Qed.

Lemma swash_link_body_unmatched (dry_run : bool) (st : swash_links_state)
      (r : csv_row) (crop_name scen_code waterbody : string) (d : Z) :
  csv_field r "CropName" = Ok crop_name ->
  csv_field r "ScenarioCode" = Ok scen_code ->
  csv_field r "WaterbodyType" = Ok waterbody ->
  is_default_of r = Ok d ->
  select_one focus_crops (crop_named crop_name)
             (working (sl_conn st)) = None \/
  select_one focus_scenarios (scenario_coded scen_code)
             (working (sl_conn st)) = None ->
  swash_link_body dry_run st r =
  Ok {| sl_conn := sl_conn st; sl_inserted := sl_inserted st;
        sl_skipped := sl_skipped st ++ [(crop_name, scen_code)] |}.
Proof.
  intros Hc Hs Hw Hd Hl. unfold swash_link_body.
  change (mapped SWASH_CS_COLS "crop_name") with "CropName".
  change (mapped SWASH_CS_COLS "scenario") with "ScenarioCode".
  change (mapped SWASH_CS_COLS "waterbody") with "WaterbodyType".
  rewrite Hc, Hs, Hw, Hd. cbn [bind].
  destruct Hl as [Hl | Hl]; rewrite Hl; [reflexivity|].
  now destruct (select_one focus_crops _ _).
Qed.

(** C4, amended: a record whose lookup by scenario code or crop name
    finds no row is reported as skipped, nothing is written for it, and the
    loop goes on with the records that follow.  [import_irrigation],
    [import_links], [import_interception] and [import_from_csv] add the
    record to their tally of skipped records; [import_characteristics]
    keeps no such tally and prints a line. *)
Theorem unmatched_record_is_skipped :
  (forall dry_run st s rest code,
      get_stripped s "scenario_code" = Ok code ->
      Str.is_empty code = false ->
      select_one focus_scenarios (surface_water_scenario code)
                 (working (char_conn st)) = None ->
      for_each (char_body dry_run) (s :: rest) st =
      for_each (char_body dry_run) rest
        {| char_conn := char_conn st;
           char_updated := char_updated st;
           char_out := char_out st ++
             [print "  Skip scenario {code}: not found in focus_scenarios (surface water)"
                    [AStr code]] |})
  /\ (forall dry_run st r rest mm code crop,
         get_stripped r "scenario_code" = Ok code ->
         get_stripped r "crop" = Ok crop ->
         get r "irrigation_mm_annual" = Ok mm ->
         Str.is_empty code || Str.is_empty crop || is_none mm = false ->
         select_one focus_scenarios (surface_water_scenario code)
                    (working (irr_conn st)) = None \/
         select_one focus_crops (crop_named crop)
                    (working (irr_conn st)) = None ->
         for_each (irr_body dry_run) (r :: rest) st =
         for_each (irr_body dry_run) rest
           {| irr_conn := irr_conn st; irr_inserted := irr_inserted st;
              irr_skipped := irr_skipped st ++ [(code, crop)];
              irr_out := irr_out st |})
  /\ (forall dry_run st item rest scenarios crop_name,
         get_stripped item "crop" = Ok crop_name ->
         get item "scenarios" = Ok scenarios ->
         Str.is_empty crop_name || negb (truthy scenarios) = false ->
         select_one focus_crops (crop_named crop_name)
                    (working (links_conn st)) = None ->
         for_each (links_row_body dry_run) (item :: rest) st =
         for_each (links_row_body dry_run) rest
           {| links_conn := links_conn st;
              links_inserted := links_inserted st;
              links_skipped := links_skipped st ++ [(crop_name, None)] |})
  /\ (forall dry_run crop_name fid st raw rest,
         select_one focus_scenarios (scenario_coded (Str.strip raw))
                    (working (links_conn st)) = None ->
         for_each (link_body dry_run crop_name fid) (JStr raw :: rest) st =
         for_each (link_body dry_run crop_name fid) rest
           {| links_conn := links_conn st;
              links_inserted := links_inserted st;
              links_skipped := links_skipped st ++ [(crop_name, Some raw)] |})
  /\ (forall dry_run st crop_name stages rest,
         select_one focus_crops (crop_named crop_name)
                    (working (icpt_conn st)) = None ->
         for_each (crop_body dry_run) ((crop_name, stages) :: rest) st =
         for_each (crop_body dry_run) rest
           {| icpt_conn := icpt_conn st; icpt_inserted := icpt_inserted st;
              icpt_stubbed := icpt_stubbed st;
              icpt_skipped := icpt_skipped st + 1;
              icpt_out := icpt_out st ++
                [print "  WARNING: '{crop_name}' not found in focus_crops - skipping"
                       [AStr crop_name]] |})
  /\ (forall dry_run st r rest name,
         csv_field r "CropName" = Ok name ->
         Str.is_empty name = false ->
         select_one focus_crops (crop_named name)
                    (working (sc_conn st)) = None ->
         for_each (swash_crop_body dry_run) (r :: rest) st =
         for_each (swash_crop_body dry_run) rest
           {| sc_conn := sc_conn st;
              sc_updated_crops := sc_updated_crops st;
              sc_skipped_crops := sc_skipped_crops st ++ [name] |})
  /\ (forall dry_run st r rest crop_name scen_code waterbody d,
         csv_field r "CropName" = Ok crop_name ->
         csv_field r "ScenarioCode" = Ok scen_code ->
         csv_field r "WaterbodyType" = Ok waterbody ->
         is_default_of r = Ok d ->
         select_one focus_crops (crop_named crop_name)
                    (working (sl_conn st)) = None \/
         select_one focus_scenarios (scenario_coded scen_code)
                    (working (sl_conn st)) = None ->
         for_each (swash_link_body dry_run) (r :: rest) st =
         for_each (swash_link_body dry_run) rest
           {| sl_conn := sl_conn st; sl_inserted := sl_inserted st;
              sl_skipped := sl_skipped st ++ [(crop_name, scen_code)] |}).
Proof.
  repeat split; intros; apply for_each_cons_ok.
  - now apply char_body_unmatched.
  - eapply irr_body_unmatched; eauto.
  - eapply links_row_body_unmatched; eauto.
  - now apply link_body_unmatched.
  - now apply crop_body_unmatched.
  - now apply swash_crop_body_unmatched.
  - eapply swash_link_body_unmatched; eauto.
Qed.

(** ** Failures of one item *)

(** The exceptions of the model other than [SystemExit]. *)
Lemma get_raises (o : json) (k : string) (e : exn) :
  get o k = Raise e -> is_exception e = true.
Proof. destruct o; simpl; intros H; inversion H; reflexivity. Qed.

Lemma get_default_raises (o : json) (k : string) (d : json) (e : exn) :
  get_default o k d = Raise e -> is_exception e = true.
Proof. destruct o; simpl; intros H; inversion H; reflexivity. Qed.

Lemma py_iter_raises (o : json) (e : exn) :
  py_iter o = Raise e -> is_exception e = true.
Proof. destruct o; simpl; intros H; inversion H; reflexivity. Qed.

Lemma lower_of_raises (o : json) (e : exn) :
  lower_of o = Raise e -> is_exception e = true.
Proof. destruct o; simpl; intros H; inversion H; reflexivity. Qed.

Lemma lower_of_value_raises (v : value) (e : exn) :
  lower_of_value v = Raise e -> is_exception e = true.
Proof. destruct v; simpl; intros H; inversion H; reflexivity. Qed.

Lemma get_taxon_raises (api : eppo_api) (i : nat) (code : value) (e : exn) :
  get_taxon api i code = Raise e -> is_exception e = true.
Proof.
  unfold get_taxon. destruct (taxon_response api i code);
    intros H; inversion H; reflexivity.
Qed.

Lemma get_names_raises (api : eppo_api) (i : nat) (code : value) (e : exn) :
  get_names api i code = Raise e -> is_exception e = true.
Proof.
  unfold get_names. destruct (names_response api i code);
    intros H; inversion H; reflexivity.
Qed.

Lemma find_pref_name_raises (names : list json) (e : exn) :
  find_pref_name names = Raise e -> is_exception e = true.
Proof.
  induction names as [|n rest IH]; simpl; intros H; [discriminate|].
  destruct (get n "langiso") as [lang|e1] eqn:Hl; simpl in H.
  - destruct (is_en lang); [|auto].
    destruct (get n "preferred") as [pref|e2] eqn:Hp; simpl in H.
    + destruct (is_one pref); [|auto]. eapply get_raises; eauto.
    + inversion H; subst. eapply get_raises; eauto.
  - inversion H; subst. eapply get_raises; eauto.
Qed.

Lemma compare_names_raises (api : eppo_api) (i : nat) (r : row) (e : exn) :
  compare_names api i r = Raise e -> is_exception e = true.
Proof.
  unfold compare_names. intros H.
  destruct (get_taxon api i _) as [taxon|e1] eqn:H1; simpl in H;
    [|inversion H; subst; eapply get_taxon_raises; eauto].
  destruct (get_names api i _) as [names|e2] eqn:H2; simpl in H;
    [|inversion H; subst; eapply get_names_raises; eauto].
  destruct (py_iter names) as [entries|e3] eqn:H3; simpl in H;
    [|inversion H; subst; eapply py_iter_raises; eauto].
  destruct (find_pref_name entries) as [pref|e4] eqn:H4; simpl in H;
    [|inversion H; subst; eapply find_pref_name_raises; eauto].
  destruct (get_default taxon _ _) as [sci|e5] eqn:H5; simpl in H;
    [|inversion H; subst; eapply get_default_raises; eauto].
  destruct (truthy pref); [|discriminate].
  destruct (lower_of pref) as [a|e6] eqn:H6; simpl in H;
    [|inversion H; subst; eapply lower_of_raises; eauto].
  destruct (lower_of_value _) as [b|e7] eqn:H7; simpl in H;
    [|inversion H; subst; eapply lower_of_value_raises; eauto].
  destruct (negb _); discriminate.
Qed.

(** A row on which the [try] block raises becomes an issue. *)
Lemma check_body_failure (api : eppo_api) (st : verify_state) (r : row)
      (e : exn) :
  compare_names api (v_index st) r = Raise e ->
  check_body api st r =
  Ok {| v_index := S (v_index st);
        v_issues := v_issues st ++
          [(col r "eppo_code", print "{e}" [AExn e])];
        v_updates := v_updates st;
        v_out := (v_out st ++
          [print "Checking {code} ({row['common_name_en']})..."
                 [AVal (col r "eppo_code"); AVal (col r "common_name_en")]])
          ++ [print "ERROR: {e}" [AExn e]] |}.
Proof.
  intros H. unfold check_body. rewrite H. cbn [bind try_except].
  now rewrite (compare_names_raises _ _ _ H).
Qed.

Lemma check_body_total (api : eppo_api) (st : verify_state) (r : row) :
  exists st', check_body api st r = Ok st'.
Proof.
  destruct (compare_names api (v_index st) r) as [c|e] eqn:H.
  - unfold check_body. rewrite H. cbn [bind].
    destruct c as [[[new_name new_sci] eppo_id]|]; cbn [try_except]; eauto.
  - rewrite (check_body_failure _ _ _ H). eauto.
Qed.

(** An [INSERT] of import_primo.py that the engine refuses is counted. *)
Lemma insert_body_rejected (t : table_name) (skip_fmt : string)
      (label : row -> arg) (st : primo_ins) (r : row) (msg : string) :
  rejects t r = Some msg ->
  insert_body t skip_fmt label st r =
  Ok {| pi_conn := pi_conn st; pi_inserted := pi_inserted st;
        pi_skipped := pi_skipped st + 1;
        pi_out := pi_out st ++
          [print skip_fmt [label r; AExn (DatabaseError msg)]] |}.
Proof.
  intros H. unfold insert_body, execute_insert. now rewrite H.
Qed.

Lemma insert_body_accepted (t : table_name) (skip_fmt : string)
      (label : row -> arg) (st : primo_ins) (r : row) :
  rejects t r = None ->
  insert_body t skip_fmt label st r =
  Ok {| pi_conn := execute (insert_or_ignore t r) (pi_conn st);
        pi_inserted := pi_inserted st + 1;
        pi_skipped := pi_skipped st; pi_out := pi_out st |}.
Proof.
  intros H. unfold insert_body, execute_insert. now rewrite H.
Qed.

Lemma insert_body_total (t : table_name) (skip_fmt : string)
      (label : row -> arg) (st : primo_ins) (r : row) :
  exists st', insert_body t skip_fmt label st r = Ok st'.
Proof.
  destruct (rejects t r) as [msg|] eqn:H.
  - erewrite insert_body_rejected; eauto.
  - erewrite insert_body_accepted; eauto.
Qed.

(** A field of [crop.csv] that cannot be converted ends the loop. *)
Lemma swash_crop_body_malformed (dry_run : bool) (st : swash_crops_state)
      (r : csv_row) (name : string) (fc : row) (e : exn) :
  csv_field r "CropName" = Ok name ->
  Str.is_empty name = false ->
  select_one focus_crops (crop_named name) (working (sc_conn st)) = Some fc ->
  crop_updates r = Raise e ->
  swash_crop_body dry_run st r = Raise e.
Proof.
  intros Hn He Hl Hu. unfold swash_crop_body.
  change (mapped SWASH_CROP_COLS "name") with "CropName".
  rewrite Hn. cbn [bind]. now rewrite He, Hl, Hu.
Qed.

Lemma for_each_raises {S I : Type} (body : S -> I -> result S)
      (i : I) (rest : list I) (st : S) (e : exn) :
  body st i = Raise e -> for_each body (i :: rest) st = Raise e.
Proof. intros H. simpl. now rewrite H. Qed.

Lemma import_from_csv_crop_loop_raises (crop_rows cs_rows : list csv_row)
      (db : Database) (dry_run : bool) (e : exn) :
  for_each (swash_crop_body dry_run) crop_rows
           {| sc_conn := connect db; sc_updated_crops := 0;
              sc_skipped_crops := [] |} = Raise e ->
  import_from_csv (Some crop_rows) (Some cs_rows) db dry_run = Crashed db e.
Proof. intros H. unfold import_from_csv. now rewrite H. Qed.

(** C5, amended: the failures of one item that do not end the batch are
    these.  In the EPPO verifier, whatever the [try] block raises for a
    code (a request that fails, an answer of the wrong shape) is caught,
    printed and recorded as an issue.  In import_primo.py, an [INSERT]
    that the engine refuses is caught, printed and counted as skipped.  A
    row of [crop.csv] or [cropscenario.csv] whose crop or scenario is not
    found is added to the skipped ones.  In each case the loop goes on
    with the next item.  A field of [crop.csv] that cannot be converted
    to a number is not caught: the exception ends the loop and the run,
    and nothing is committed. *)
Theorem per_item_failures :
  (forall api rows st, exists st', for_each (check_body api) rows st = Ok st')
  /\ (forall api st r rest e,
         compare_names api (v_index st) r = Raise e ->
         for_each (check_body api) (r :: rest) st =
         for_each (check_body api) rest
           {| v_index := S (v_index st);
              v_issues := v_issues st ++
                [(col r "eppo_code", print "{e}" [AExn e])];
              v_updates := v_updates st;
              v_out := (v_out st ++
                [print "Checking {code} ({row['common_name_en']})..."
                       [AVal (col r "eppo_code");
                        AVal (col r "common_name_en")]])
                ++ [print "ERROR: {e}" [AExn e]] |})
  /\ (forall t skip_fmt label rows st,
         exists st', for_each (insert_body t skip_fmt label) rows st = Ok st')
  /\ (forall t skip_fmt label st r rest msg,
         rejects t r = Some msg ->
         for_each (insert_body t skip_fmt label) (r :: rest) st =
         for_each (insert_body t skip_fmt label) rest
           {| pi_conn := pi_conn st; pi_inserted := pi_inserted st;
              pi_skipped := pi_skipped st + 1;
              pi_out := pi_out st ++
                [print skip_fmt [label r; AExn (DatabaseError msg)]] |})
  /\ (forall dry_run st r rest name,
         csv_field r "CropName" = Ok name ->
         Str.is_empty name = false ->
         select_one focus_crops (crop_named name)
                    (working (sc_conn st)) = None ->
         for_each (swash_crop_body dry_run) (r :: rest) st =
         for_each (swash_crop_body dry_run) rest
           {| sc_conn := sc_conn st;
              sc_updated_crops := sc_updated_crops st;
              sc_skipped_crops := sc_skipped_crops st ++ [name] |})
  /\ (forall dry_run st r rest crop_name scen_code waterbody d,
         csv_field r "CropName" = Ok crop_name ->
         csv_field r "ScenarioCode" = Ok scen_code ->
         csv_field r "WaterbodyType" = Ok waterbody ->
         is_default_of r = Ok d ->
         select_one focus_crops (crop_named crop_name)
                    (working (sl_conn st)) = None \/
         select_one focus_scenarios (scenario_coded scen_code)
                    (working (sl_conn st)) = None ->
         for_each (swash_link_body dry_run) (r :: rest) st =
         for_each (swash_link_body dry_run) rest
           {| sl_conn := sl_conn st; sl_inserted := sl_inserted st;
              sl_skipped := sl_skipped st ++ [(crop_name, scen_code)] |})
  /\ (forall dry_run db r rest cs_rows name fc e,
         csv_field r "CropName" = Ok name ->
         Str.is_empty name = false ->
         select_one focus_crops (crop_named name) db = Some fc ->
         crop_updates r = Raise e ->
         import_from_csv (Some (r :: rest)) (Some cs_rows) db dry_run =
         Crashed db e).
Proof.
  split; [|split; [|split; [|split; [|split; [|split]]]]].
  - intros api. apply for_each_total. apply check_body_total.
  - intros. apply for_each_cons_ok. now apply check_body_failure.
  - intros t skip_fmt label. apply for_each_total. apply insert_body_total.
  - intros. apply for_each_cons_ok. now apply insert_body_rejected.
  - intros. apply for_each_cons_ok. now apply swash_crop_body_unmatched.
  - intros. apply for_each_cons_ok. eapply swash_link_body_unmatched; eauto.
  - intros. apply import_from_csv_crop_loop_raises. apply for_each_raises.
    eapply swash_crop_body_malformed; eauto.
Qed.

(** ** The EPPO verifier *)

Lemma check_body_updates (api : eppo_api) (st st' : verify_state) (r : row) :
  check_body api st r = Ok st' ->
  v_updates st' = v_updates st ++ queued api (v_index st) r /\
  v_index st' = S (v_index st).
Proof.
  unfold check_body, queued.
  destruct (compare_names api (v_index st) r) as [c|e] eqn:Hc;
    cbn [bind try_except].
  - destruct c as [[[new_name new_sci] eppo_id]|]; intros H; inversion H;
      cbn [v_updates v_index]; split; auto; now rewrite app_nil_r.
  - rewrite (compare_names_raises _ _ _ Hc). intros H; inversion H.
    cbn [v_updates v_index]. now rewrite app_nil_r.
Qed.

Lemma check_loop_updates (api : eppo_api) (rows : list row) :
  forall st st',
    for_each (check_body api) rows st = Ok st' ->
    v_updates st' = v_updates st ++ queued_all api (v_index st) rows.
Proof.
  induction rows as [|r rows IH]; intros st st' H.
  - simpl in H. inversion H. simpl. now rewrite app_nil_r.
  - cbn [for_each] in H.
    destruct (check_body api st r) as [st1|e] eqn:Hb; [|discriminate].
    apply check_body_updates in Hb. destruct Hb as [Hu Hi].
    apply IH in H. rewrite H, Hu, Hi. cbn [queued_all].
    now rewrite app_assoc.
Qed.

(** When a correction is queued for a row. *)
Lemma queued_iff (api : eppo_api) (i : nat) (r : row)
      (p : string) (sci : json) (id : value) :
  In (p, sci, id) (queued api i r) <->
  api_preferred_name api i r = Some (p, sci) /\
  p <> EmptyString /\
  exists d, col r "eppo_name" = VText d /\
            differs_ignoring_case p d = true /\
            id = col r "eppo_code_id".
Proof.
  unfold queued, compare_names, api_preferred_name, differs_ignoring_case.
  destruct (get_taxon api i _) as [taxon|]; cbn [bind];
    [|split; [intros [] | intros (H & _); discriminate H]].
  destruct (get_names api i _) as [names|]; cbn [bind];
    [|split; [intros [] | intros (H & _); discriminate H]].
  destruct (py_iter names) as [entries|]; cbn [bind];
    [|split; [intros [] | intros (H & _); discriminate H]].
  destruct (find_pref_name entries) as [pref|]; cbn [bind];
    [|split; [intros [] | intros (H & _); discriminate H]].
  destruct (get_default taxon _ _) as [sci'|]; cbn [bind];
    [|split; [intros [] | intros (H & _); destruct pref; discriminate H]].
  destruct pref as [|b|z|x|s|l|d];
    try (destruct (truthy _); simpl;
         (split; [intros [] | intros (H & _); discriminate H])).
  cbn [truthy lower_of bind].
  destruct s as [|c s]; cbn [Str.is_empty negb].
  { split; [intros [] | intros (H & Hp & _); inversion H; congruence]. }
  destruct (col r "eppo_name") as [| |x|d]; cbn [lower_of_value bind];
    try (simpl; (split; [intros []
                        | intros (_ & _ & d' & H & _); discriminate H])).
  destruct (negb (String.eqb _ _)) eqn:Hd.
  - split.
    + intros [H | []]. inversion H; subst.
      split; [reflexivity|]. split; [discriminate|].
      exists d. auto.
    + intros (H & _ & d' & Hd' & _ & Hid). inversion H; subst.
      left. reflexivity.
  - split; [intros []|].
    intros (H & _ & d' & Hd' & Hdiff & _). inversion H; subst.
    inversion Hd'; subst. congruence.
Qed.


(** ** What the verifier may write *)

Lemma col_set_col_other (c k : string) (v : value) (r : row) :
  k <> c -> col (set_col c v r) k = col r k.
Proof.
  intros Hk. unfold set_col. destruct (has_col r c).
  - induction r as [|[k0 v0] r IH]; simpl; [reflexivity|].
    destruct (String.eqb k0 c) eqn:Hc; simpl.
    + apply String.eqb_eq in Hc. subst k0.
      destruct (String.eqb c k) eqn:Hck; [|exact IH].
      apply String.eqb_eq in Hck. congruence.
    + destruct (String.eqb k0 k); [reflexivity | exact IH].
  - induction r as [|[k0 v0] r IH]; simpl.
    + destruct (String.eqb c k) eqn:Hck; [|reflexivity].
      apply String.eqb_eq in Hck. congruence.
    + destruct (String.eqb k0 k); [reflexivity | exact IH].
Qed.

Lemma same_but_refl (c : string) (r : row) : same_but c r r.
Proof. intros k _. reflexivity. Qed.

Lemma same_but_trans (c : string) (r1 r2 r3 : row) :
  same_but c r1 r2 -> same_but c r2 r3 -> same_but c r1 r3.
Proof. intros H1 H2 k Hk. rewrite (H2 k Hk). now apply H1. Qed.

Lemma same_but_set_col (c : string) (v : value) (r : row) :
  same_but c r (set_col c v r).
Proof. intros k Hk. now apply col_set_col_other. Qed.

Lemma Forall2_refl_of {A : Type} (R : A -> A -> Prop) (l : list A) :
  (forall x, R x x) -> Forall2 R l l.
Proof. intros H. induction l; constructor; auto. Qed.

Lemma Forall2_compose {A : Type} (R1 R2 R3 : A -> A -> Prop)
      (l1 l2 l3 : list A) :
  (forall x y z, R1 x y -> R2 y z -> R3 x z) ->
  Forall2 R1 l1 l2 -> Forall2 R2 l2 l3 -> Forall2 R3 l1 l3.
Proof.
  intros H H12. revert l3.
  induction H12 as [|x y l1 l2 Hxy _ IH]; intros l3 H23;
    inversion H23; subst; constructor; eauto.
Qed.

Lemma Forall2_map_r {A : Type} (R : A -> A -> Prop) (f : A -> A)
      (l : list A) :
  (forall x, R x (f x)) -> Forall2 R l (map f l).
Proof. intros H. induction l; simpl; constructor; auto. Qed.

Lemma Forall2_In_r {A : Type} (R : A -> A -> Prop) (l l' : list A) (y : A) :
  Forall2 R l l' -> In y l' -> exists x, In x l /\ R x y.
Proof.
  induction 1 as [|x y' l l' Hxy _ IH]; simpl; intros Hy; [contradiction|].
  destruct Hy as [-> | Hy].
  - exists x. auto.
  - destruct (IH Hy) as (x0 & Hx0 & HR). exists x0. auto.
Qed.

Lemma tbl_update (t t' : table_name) (a : list (string * value))
      (cond : row -> bool) (db : Database) :
  tbl t' (update t a cond db) =
  if table_name_eqb t t'
  then map (fun r => if cond r then set_cols a r else r) (tbl t db)
  else tbl t' db.
Proof. unfold update. apply tbl_set_tbl. Qed.

Lemma sql_eq_empty_text (v : value) :
  sql_eq v (VText EmptyString) = true -> v = VText EmptyString.
Proof.
  destruct v; simpl; try discriminate.
  intros H. apply String.eqb_eq in H. now subst.
Qed.

Lemma only_names_changed_refl (updates : list correction) (db : Database) :
  only_names_changed updates db db.
Proof.
  split; [reflexivity|]. split.
  - apply Forall2_refl_of. intros r. apply same_but_refl.
  - apply Forall2_refl_of. intros r. split; [apply same_but_refl|].
    intros H. congruence.
Qed.

(** One correction keeps the frame. *)
Lemma apply_body_frame (updates : list correction) (db : Database)
      (conn conn' : connection) (u : correction) :
  In u updates ->
  only_names_changed updates db (working conn) ->
  apply_body conn u = Ok conn' ->
  only_names_changed updates db (working conn').
Proof.
  intros Hu (Hother & Heppo & Hcrops) Hb.
  destruct u as [[new_name new_sci] eppo_id].
  unfold apply_body in Hb.
  set (db1 := update eppo_codes [("eppo_name", VText new_name)]
                     (eppo_code_id_is eppo_id) (working conn)) in *.
  assert (Heppo1 : Forall2 (same_but "eppo_name") (tbl eppo_codes db)
                           (tbl eppo_codes db1)).
  { unfold db1. rewrite tbl_update. cbn [table_name_eqb].
    eapply Forall2_compose; [|exact Heppo|].
    - intros x y z. apply same_but_trans.
    - apply Forall2_map_r. intros r.
      destruct (eppo_code_id_is eppo_id r); [|apply same_but_refl].
      apply same_but_set_col. }
  assert (Hcrops1 : tbl crops db1 = tbl crops (working conn)).
  { unfold db1. now rewrite tbl_update. }
  assert (Hother1 : forall t, t <> eppo_codes -> t <> crops ->
                              tbl t db1 = tbl t db).
  { intros t H1 H2. unfold db1. rewrite tbl_update.
    destruct (table_name_eqb eppo_codes t) eqn:E.
    - apply table_name_eqb_eq in E. congruence.
    - now apply Hother. }
  destruct (truthy new_sci).
  - destruct (bind_json new_sci) as [v|e]; cbn [bind] in Hb; [|discriminate].
    inversion Hb; subst conn'; clear Hb.
    cbn [working execute]. fold db1.
    split; [|split].
    + intros t H1 H2. rewrite tbl_update.
      destruct (table_name_eqb crops t) eqn:E.
      * apply table_name_eqb_eq in E. congruence.
      * now apply Hother1.
    + rewrite tbl_update. cbn [table_name_eqb]. exact Heppo1.
    + rewrite tbl_update. cbn [table_name_eqb]. rewrite Hcrops1.
      eapply Forall2_compose with
        (R2 := fun y z =>
                 same_but "scientific_name" y z /\
                 (linked_crop_without_name db1 eppo_id y = true \/ z = y));
        [|exact Hcrops|].
      2:{ apply Forall2_map_r. intros r.
          destruct (linked_crop_without_name db1 eppo_id r) eqn:Hl.
          - split; [apply same_but_set_col | now left].
          - split; [apply same_but_refl | now right]. }
      cbn beta. intros x y z (Hxy & Hchg) (Hyz & Hlink).
      split; [eapply same_but_trans; eauto|].
      intros Hne.
      destruct Hlink as [Hlink | ->]; [|now apply Hchg].
      unfold linked_crop_without_name, select_one in Hlink.
      apply andb_true_iff in Hlink. destruct Hlink as [Hid Hempty].
      assert (Hy : no_name (col y "scientific_name")).
      { apply orb_true_iff in Hempty. destruct Hempty as [Hn | He].
        - left. destruct (col y "scientific_name"); try discriminate.
          reflexivity.
        - right. now apply sql_eq_empty_text. }
      assert (Hdec : col y "scientific_name" = col x "scientific_name" \/
                     col y "scientific_name" <> col x "scientific_name").
      { destruct Hy as [-> | ->].
        - destruct (col x "scientific_name"); auto; right; discriminate.
        - destruct (col x "scientific_name") as [| | |[|c s]]; auto;
            right; discriminate. }
      destruct Hdec as [Heq | Hneq]; [|now apply Hchg].
      split; [now rewrite <- Heq|].
      destruct (find (eppo_code_id_is eppo_id) (tbl eppo_codes db1))
        as [e1|] eqn:Hf.
      * apply find_some in Hf. destruct Hf as [Hin Hmatch].
        destruct (@Forall2_In_r _ _ _ _ _ Heppo1 Hin) as (e0 & Hin0 & Hsame).
        exists (new_name, new_sci, eppo_id), e0.
        split; [exact Hu|]. split; [exact Hin0|].
        split.
        -- unfold eppo_code_id_is in *. cbn [snd].
           rewrite <- (Hsame "eppo_code_id") by discriminate.
           exact Hmatch.
        -- rewrite <- (Hxy "crop_id") by discriminate.
           rewrite <- (Hsame "crop_id") by discriminate.
           exact Hid.
      * destruct (col y "crop_id"); discriminate.
  - inversion Hb; subst conn'; clear Hb.
    cbn [working execute]. fold db1.
    split; [exact Hother1|]. split; [exact Heppo1|].
    rewrite Hcrops1. exact Hcrops.
Qed.

Lemma apply_loop_frame (updates : list correction) (db : Database)
      (todo : list correction) :
  forall conn conn',
    (forall u, In u todo -> In u updates) ->
    only_names_changed updates db (working conn) ->
    for_each apply_body todo conn = Ok conn' ->
    only_names_changed updates db (working conn').
Proof.
  induction todo as [|u todo IH]; intros conn conn' Hsub Hframe H.
  - simpl in H. inversion H. now subst.
  - cbn [for_each] in H.
    destruct (apply_body conn u) as [conn1|e] eqn:Hb; [|discriminate].
    apply (IH conn1 conn'); auto.
    + intros u' Hu'. apply Hsub. now right.
    + eapply apply_body_frame; eauto. apply Hsub. now left.
Qed.

(** C10: whatever the service answers and however the run ends, the
    verifier changes nothing but [eppo_codes.eppo_name] and
    [crops.scientific_name]; a scientific name is written only on a crop
    whose name was [NULL] or empty and that is the crop of a corrected
    code. *)
Theorem verifier_writes_only_names
        (has_requests : bool) (api : eppo_api) (db : Database)
        (dry_run : bool) :
  only_names_changed (queued_all api 0 (joined_rows db)) db
                     (db_after (verify_codes has_requests api db dry_run)).
Proof.
  unfold verify_codes.
  destruct has_requests; cbn [negb]; [|apply only_names_changed_refl].
  destruct (for_each_total (check_body api) (check_body_total api)
              (joined_rows (working (connect db)))
              {| v_index := O; v_issues := []; v_updates := [];
                 v_out := [] |}) as [st Hloop].
  rewrite Hloop.
  apply check_loop_updates in Hloop. cbn [v_updates v_index app] in Hloop.
  cbn [working connect] in Hloop. rewrite <- Hloop.
  destruct (v_updates st) as [|u us] eqn:Hus;
    [apply only_names_changed_refl|].
  destruct dry_run; cbn [negb]; [apply only_names_changed_refl|].
  destruct (for_each apply_body (u :: us) (connect db)) as [conn'|e] eqn:Ha;
    [|apply only_names_changed_refl].
  cbn [db_after close commit committed].
  eapply apply_loop_frame; [| |exact Ha].
  - auto.
  - apply only_names_changed_refl.
Qed.

(** ** Running an importer twice *)

Section Idempotence.

(** What "insert-or-ignore / insert-or-replace" needs from the schema: a
    row that is written collides with itself, that is, its table has a
    uniqueness constraint and the row has no [NULL] in the columns of the
    constraint.  The lemmas ask this of the rows of the table after the
    first run. *)


Lemma replace_fold_In (t : table_name) (rows : list row) :
  forall tb x,
    In x (fold_left (replace_into t) rows tb) -> In x tb \/ In x rows.
Proof.
  induction rows as [|r rows IH]; intros tb x H.
  - now left.
  - cbn [fold_left] in H. apply IH in H. destruct H as [H | H].
    + unfold replace_into in H. apply in_app_or in H. destruct H as [H | H].
      * apply filter_In in H. left. tauto.
      * right. left. destruct H as [H | []]. exact H.
    + right. now right.
Qed.













Lemma tbl_upsert_all_same (t : table_name) (rows : list row) (db : Database) :
  tbl t (upsert_all t rows db) = fold_left (replace_into t) rows (tbl t db).
Proof. rewrite upsert_all_table. apply tbl_set_tbl_same. Qed.

Lemma tbl_insert_all_or_ignore_same (t : table_name) (rows : list row)
      (db : Database) :
  tbl t (insert_all_or_ignore t rows db) =
  fold_left (ignore_into t) rows (tbl t db).
Proof. rewrite insert_all_or_ignore_table. apply tbl_set_tbl_same. Qed.


(** A loop that only writes what a plan, made from tables that the writes
    leave alone, tells it to write. *)
Lemma for_each_plan {S I V W : Type} (body : S -> I -> result S)
      (w : S -> Database) (view : Database -> V) (plan : V -> I -> list W)
      (write : list W -> Database -> Database) :
  (forall db, write [] db = db) ->
  (forall a b db, write (a ++ b) db = write b (write a db)) ->
  (forall v i db, view (write (plan v i) db) = view db) ->
  (forall st i st',
      body st i = Ok st' -> w st' = write (plan (view (w st)) i) (w st)) ->
  forall items st st',
    for_each body items st = Ok st' ->
    w st' = write (flat_map (plan (view (w st))) items) (w st).
Proof.
  intros Hnil Happ Hview Hbody items.
  induction items as [|i items IH]; intros st st' H.
  - simpl in H. inversion H. simpl. now rewrite Hnil.
  - cbn [for_each] in H.
    destruct (body st i) as [st1|e] eqn:Hb; [|discriminate].
    apply Hbody in Hb. apply IH in H.
    cbn [flat_map]. rewrite Happ, <- Hb.
    rewrite H. rewrite Hb at 1. now rewrite Hview.
Qed.

Lemma char_body_apply (st st' : char_state) (s : json) :
  char_body false st s = Ok st' ->
  working (char_conn st') =
  upsert_all focus_sw_scenario_characteristics
    (char_row_of (tbl focus_scenarios (working (char_conn st))) s)
    (working (char_conn st)).
Proof.
  unfold char_body, char_row_of, select_one.
  destruct (get_stripped s "scenario_code") as [code|]; cbn [bind];
    [|discriminate].
  destruct (Str.is_empty code); [intros H; now inversion H|].
  destruct (find _ _) as [found|]; [|intros H; now inversion H].
  destruct (get s "latitude_deg") as [lat|]; cbn [bind]; [|discriminate].
  destruct (get s "longitude_deg") as [lon|]; cbn [bind]; [|discriminate].
  cbn [negb].
  destruct (characteristics_row _ _ _ _ _) as [r|]; cbn [bind];
    [|discriminate].
  destruct (execute_insert _ _ _ _) as [conn|] eqn:He; cbn [bind];
    [|discriminate].
  intros H. inversion H. cbn [char_conn].
  apply execute_insert_working in He. now destruct He as [-> _].
Qed.

Lemma irr_body_apply (st st' : irr_state) (r : json) :
  irr_body false st r = Ok st' ->
  working (irr_conn st') =
  upsert_all focus_crop_scenario_irrigation
    (irr_row_of (tbl focus_scenarios (working (irr_conn st)),
                 tbl focus_crops (working (irr_conn st))) r)
    (working (irr_conn st)).
Proof.
  unfold irr_body, irr_row_of, select_one.
  destruct (get_stripped r "scenario_code") as [code|]; cbn [bind];
    [|discriminate].
  destruct (get_stripped r "crop") as [crop|]; cbn [bind]; [|discriminate].
  destruct (get r "irrigation_mm_annual") as [mm|]; cbn [bind];
    [|discriminate].
  destruct (_ || _); [intros H; now inversion H|].
  destruct (find (surface_water_scenario code) _) as [sc_row|];
    [|intros H; now inversion H].
  destruct (find (crop_named crop) _) as [fc_row|];
    [|intros H; now inversion H].
  cbn [negb].
  destruct (py_float mm) as [x|]; cbn [bind]; [|discriminate].
  destruct (execute_insert _ _ _ _) as [conn|] eqn:He; cbn [bind];
    [|discriminate].
  intros H. inversion H. cbn [irr_conn].
  apply execute_insert_working in He. now destruct He as [-> _].
Qed.

Lemma char_loop_apply (items : list json) (st st' : char_state) :
  for_each (char_body false) items st = Ok st' ->
  working (char_conn st') = characteristics_written items (working (char_conn st)).
Proof.
  unfold characteristics_written.
  apply (for_each_plan (char_body false)
           (fun st => working (char_conn st))
           (tbl focus_scenarios) char_row_of
           (upsert_all focus_sw_scenario_characteristics)).
  - reflexivity.
  - intros. apply upsert_all_app.
  - intros. now apply tbl_upsert_all_other.
  - intros. now apply char_body_apply.
Qed.

Lemma irr_loop_apply (items : list json) (st st' : irr_state) :
  for_each (irr_body false) items st = Ok st' ->
  working (irr_conn st') = irrigation_written items (working (irr_conn st)).
Proof.
  unfold irrigation_written.
  apply (for_each_plan (irr_body false)
           (fun st => working (irr_conn st))
           (fun db => (tbl focus_scenarios db, tbl focus_crops db))
           irr_row_of
           (upsert_all focus_crop_scenario_irrigation)).
  - reflexivity.
  - intros. apply upsert_all_app.
  - intros. now rewrite !tbl_upsert_all_other.
  - intros. now apply irr_body_apply.
Qed.

(** With [--apply], either the run returns and the database is what the
    upserts make of it, or it does not return and the database is as
    before. *)
Lemma import_characteristics_apply (file : option json) :
  exists items, forall db,
    returned (import_characteristics file db false) =
      Some (characteristics_written items db) \/
    returned (import_characteristics file db false) = None /\
    db_after (import_characteristics file db false) = db.
Proof.
  unfold import_characteristics.
  destruct file as [data|]; [|exists []; now right].
  destruct (first_array data "scenarios" "items") as [sc|];
    [|exists []; now right].
  destruct (negb (truthy sc)); [exists []; now right|].
  destruct (py_iter sc) as [items|]; cbn [bind]; [|exists []; now right].
  exists items. intros db.
  destruct (for_each _ _ _) as [st|] eqn:Hloop; [|now right].
  left. apply char_loop_apply in Hloop. cbn [returned negb close commit
                                              committed].
  now rewrite Hloop.
Qed.

Lemma import_irrigation_apply (file : option json) :
  exists items, forall db,
    returned (import_irrigation file db false) =
      Some (irrigation_written items db) \/
    returned (import_irrigation file db false) = None /\
    db_after (import_irrigation file db false) = db.
Proof.
  unfold import_irrigation.
  destruct file as [data|]; [|exists []; now right].
  destruct (first_array data "irrigation" "items") as [sc|];
    [|exists []; now right].
  destruct (negb (truthy sc)); [exists []; now right|].
  destruct (py_iter sc) as [items|]; cbn [bind]; [|exists []; now right].
  exists items. intros db.
  destruct (for_each _ _ _) as [st|] eqn:Hloop; [|now right].
  left. apply irr_loop_apply in Hloop. cbn [returned negb close commit
                                             committed].
  now rewrite Hloop.
Qed.

Lemma returned_db_after (o : outcome) (db : Database) :
  returned o = Some db -> db_after o = db.
Proof. destruct o; simpl; congruence. Qed.

Lemma returned_prepend (out : list event) (o : outcome) :
  returned (prepend out o) = returned o.
Proof. destruct o; reflexivity. Qed.

Lemma link_body_apply (crop_name : string) (fid : value)
      (st st' : links_state) (j : json) :
  link_body false crop_name fid st j = Ok st' ->
  working (links_conn st') =
  insert_all_or_ignore focus_crop_scenario_links
    (link_row_of fid (tbl focus_scenarios (working (links_conn st))) j)
    (working (links_conn st)).
Proof.
  unfold link_body, link_row_of, select_one.
  destruct (strip_of j) as [code|]; cbn [bind]; [|discriminate].
  destruct (find _ _) as [sc|]; [|intros H; now inversion H].
  cbn [negb].
  destruct (execute_insert _ _ _ _) as [conn|] eqn:He; cbn [bind];
    [|discriminate].
  intros H. inversion H. cbn [links_conn].
  apply execute_insert_working in He. now destruct He as [-> _].
Qed.

Lemma links_row_body_apply (st st' : links_state) (item : json) :
  links_row_body false st item = Ok st' ->
  working (links_conn st') =
  insert_all_or_ignore focus_crop_scenario_links
    (links_rows_of (tbl focus_crops (working (links_conn st)),
                    tbl focus_scenarios (working (links_conn st))) item)
    (working (links_conn st)).
Proof.
  unfold links_row_body, links_rows_of, select_one.
  destruct (get_stripped item "crop") as [crop_name|]; cbn [bind];
    [|discriminate].
  destruct (get item "scenarios") as [scs|]; cbn [bind]; [|discriminate].
  destruct (_ || _); [intros H; now inversion H|].
  destruct (find _ _) as [fc|]; [|intros H; now inversion H].
  destruct (py_iter _) as [codes|]; cbn [bind]; [|discriminate].
  apply (for_each_plan (link_body false crop_name (col fc "focus_crop_id"))
           (fun st => working (links_conn st))
           (tbl focus_scenarios)
           (link_row_of (col fc "focus_crop_id"))
           (insert_all_or_ignore focus_crop_scenario_links)).
  - reflexivity.
  - intros. apply insert_all_or_ignore_app.
  - intros. now apply tbl_insert_all_or_ignore_other.
  - intros. eapply link_body_apply. eassumption.
Qed.

Lemma links_loop_apply (items : list json) (st st' : links_state) :
  for_each (links_row_body false) items st = Ok st' ->
  working (links_conn st') = links_written items (working (links_conn st)).
Proof.
  unfold links_written.
  apply (for_each_plan (links_row_body false)
           (fun st => working (links_conn st))
           (fun db => (tbl focus_crops db, tbl focus_scenarios db))
           links_rows_of
           (insert_all_or_ignore focus_crop_scenario_links)).
  - reflexivity.
  - intros. apply insert_all_or_ignore_app.
  - intros. now rewrite !tbl_insert_all_or_ignore_other.
  - intros. now apply links_row_body_apply.
Qed.

Lemma import_links_apply (file : option json) :
  exists items, forall db,
    db_after (import_links file db false) = db \/
    db_after (import_links file db false) = links_written items db.
Proof.
  unfold import_links.
  destruct file as [data|]; [|exists []; now left].
  destruct (bind _ _) as [its|]; [|exists []; now left].
  destruct (negb (truthy its)); [exists []; now left|].
  destruct (py_iter its) as [items|]; cbn [bind]; [|exists []; now left].
  exists items. intros db.
  destruct (for_each _ _ _) as [st|] eqn:Hloop; [|now left].
  right. apply links_loop_apply in Hloop. exact Hloop.
Qed.

Lemma import_interception_apply (data : list (string * list stage))
      (db : Database) :
  db_after (import_interception_with data db false) = db \/
  db_after (import_interception_with data db false) =
  interception_written data db.
Proof.
  unfold import_interception_with, interception_loop.
  destruct (for_each _ _ _) as [st|] eqn:Hloop; [|now left].
  right. apply crop_loop_spec in Hloop. destruct Hloop as (Hw & _).
  exact Hw.
Qed.

Lemma swash_link_body_apply (st st' : swash_links_state) (r : csv_row) :
  swash_link_body false st r = Ok st' ->
  working (sl_conn st') =
  insert_all_or_ignore focus_crop_scenario_links
    (swash_link_row_of (tbl focus_crops (working (sl_conn st)),
                        tbl focus_scenarios (working (sl_conn st))) r)
    (working (sl_conn st)).
Proof.
  unfold swash_link_body, swash_link_row_of, select_one.
  destruct (csv_field r (mapped SWASH_CS_COLS "crop_name")) as [crop_name|];
    cbn [bind]; [|discriminate].
  destruct (csv_field r (mapped SWASH_CS_COLS "scenario")) as [scen_code|];
    cbn [bind]; [|discriminate].
  destruct (csv_field r (mapped SWASH_CS_COLS "waterbody")) as [waterbody|];
    cbn [bind]; [|discriminate].
  destruct (is_default_of r) as [is_default|]; cbn [bind]; [|discriminate].
  destruct (find (crop_named crop_name) _) as [fc_row|];
    [|intros H; now inversion H].
  destruct (find (scenario_coded scen_code) _) as [sc_row|];
    [|intros H; now inversion H].
  cbn [negb].
  destruct (bind_int is_default) as [d|]; cbn [bind]; [|discriminate].
  destruct (execute_insert _ _ _ _) as [conn|] eqn:He; cbn [bind];
    [|discriminate].
  intros H. inversion H. cbn [sl_conn].
  apply execute_insert_working in He. now destruct He as [-> _].
Qed.

Lemma swash_links_loop_apply (cs_rows : list csv_row)
      (st st' : swash_links_state) :
  for_each (swash_link_body false) cs_rows st = Ok st' ->
  working (sl_conn st') = swash_links_written cs_rows (working (sl_conn st)).
Proof.
  unfold swash_links_written.
  apply (for_each_plan (swash_link_body false)
           (fun st => working (sl_conn st))
           (fun db => (tbl focus_crops db, tbl focus_scenarios db))
           swash_link_row_of
           (insert_all_or_ignore focus_crop_scenario_links)).
  - reflexivity.
  - intros. apply insert_all_or_ignore_app.
  - intros. now rewrite !tbl_insert_all_or_ignore_other.
  - intros. now apply swash_link_body_apply.
Qed.

(** ** Assignments to the columns of a row *)










Lemma set_cols_cons (kv : string * value) (a : list (string * value))
      (r : row) :
  set_cols (kv :: a) r = set_cols a (set_col (fst kv) (snd kv) r).
Proof. reflexivity. Qed.






Lemma col_set_cols_other (a : list (string * value)) (k : string) :
  ~ In k (map fst a) -> forall r, col (set_cols a r) k = col r k.
Proof.
  induction a as [|[c v] a IH]; intros Hin r; [reflexivity|].
  rewrite set_cols_cons. cbn [fst snd].
  rewrite IH by (intros H; apply Hin; now right).
  apply col_set_col_other. intros ->. apply Hin. now left.
Qed.

(** ** The updates of import_from_csv *)

Lemma add_update_keys (r : csv_row) (key column : string)
      (conv : string -> result value)
      (updates updates' : list (string * value)) :
  In column ["bbch_sowing_min"; "bbch_sowing_max"; "bbch_harvest_min";
             "bbch_harvest_max"; "canopy_type"; "root_depth_m"; "lai_max"] ->
  assigns_parameters updates ->
  add_update r key column conv updates = Ok updates' ->
  assigns_parameters updates'.
Proof.
  intros Hc Hu. unfold add_update.
  destruct (crop_col r key) as [s|]; cbn [bind]; [|discriminate].
  destruct (Str.is_empty s); [intros H; inversion H; now subst|].
  destruct (conv s) as [v|]; cbn [bind]; [|discriminate].
  intros H. inversion H. apply Forall_app. split; [exact Hu|].
  constructor; [exact Hc | constructor].
Qed.

Lemma crop_updates_keys (r : csv_row) (updates : list (string * value)) :
  crop_updates r = Ok updates -> assigns_parameters updates.
Proof.
  unfold crop_updates. intros H.
  destruct (add_update r "bbch_em_min" _ _ _) as [u1|] eqn:H1; cbn [bind] in H;
    [|discriminate].
  destruct (add_update r "bbch_em_max" _ _ _) as [u2|] eqn:H2; cbn [bind] in H;
    [|discriminate].
  destruct (add_update r "bbch_har_min" _ _ _) as [u3|] eqn:H3;
    cbn [bind] in H; [|discriminate].
  destruct (add_update r "bbch_har_max" _ _ _) as [u4|] eqn:H4;
    cbn [bind] in H; [|discriminate].
  destruct (add_update r "canopy" _ _ _) as [u5|] eqn:H5; cbn [bind] in H;
    [|discriminate].
  destruct (add_update r "root_depth" _ _ _) as [u6|] eqn:H6; cbn [bind] in H;
    [|discriminate].
  eapply add_update_keys in H1; [|simpl; tauto|constructor].
  eapply add_update_keys in H2; [|simpl; tauto|exact H1].
  eapply add_update_keys in H3; [|simpl; tauto|exact H2].
  eapply add_update_keys in H4; [|simpl; tauto|exact H3].
  eapply add_update_keys in H5; [|simpl; tauto|exact H4].
  eapply add_update_keys in H6; [|simpl; tauto|exact H5].
  eapply add_update_keys in H; [exact H|simpl; tauto|exact H6].
Qed.

Lemma bind_all_keys (params : list (string * value)) :
  forall params',
    bind_all params = Ok params' ->
    assigns_parameters params -> assigns_parameters params'.
Proof.
  induction params as [|[k v] ps IH]; intros params' H Ha.
  - simpl in H. inversion H. constructor.
  - inversion Ha as [|? ? Hk Hps]; subst.
    destruct v; simpl in H.
    2:{ destruct (bind_int z) as [v'|]; cbn [bind] in H; [|discriminate].
        destruct (bind_all ps) as [ps'|]; cbn [bind] in H; [|discriminate].
        inversion H. constructor; [exact Hk | now apply IH]. }
    all: destruct (bind_all ps) as [ps'|]; cbn [bind] in H; [|discriminate];
      inversion H; constructor; [exact Hk | now apply IH].
Qed.

Lemma crop_update_of_keys (keys : list (value * value)) (r : csv_row) :
  Forall (fun u => assigns_parameters (snd u)) (crop_update_of keys r).
Proof.
  unfold crop_update_of.
  destruct (csv_field _ _) as [name|]; [|constructor].
  destruct (Str.is_empty name); [constructor|].
  destruct (find _ keys) as [p|]; [|constructor].
  destruct (crop_updates r) as [updates|] eqn:Hu; [|constructor].
  destruct updates as [|u updates]; [constructor|].
  destruct (bind_all (u :: updates)) as [params|] eqn:Hb; [|constructor].
  constructor; [|constructor]. cbn [snd].
  eapply bind_all_keys; [exact Hb|]. eapply crop_updates_keys. exact Hu.
Qed.

Lemma assigns_parameters_not (params : list (string * value)) (k : string) :
  assigns_parameters params ->
  k = "focus_crop_id" \/ k = "swash_crop_name" ->
  ~ In k (map fst params).
Proof.
  intros Ha Hk Hin. apply in_map_iff in Hin.
  destruct Hin as ([k0 v0] & Heq & Hin). cbn [fst] in Heq. subst k0.
  unfold assigns_parameters in Ha. rewrite Forall_forall in Ha.
  specialize (Ha _ Hin). cbn [fst] in Ha.
  destruct Hk as [-> | ->]; simpl in Ha;
    repeat (destruct Ha as [Ha | Ha]; [discriminate|]); contradiction.
Qed.

Lemma row_updates_cons (u : value * list (string * value))
      (us : list (value * list (string * value))) (r : row) :
  row_updates (u :: us) r =
  row_updates us (if focus_crop_is (fst u) r then set_cols (snd u) r else r).
Proof. reflexivity. Qed.

Lemma col_row_updates (us : list (value * list (string * value)))
      (k : string) :
  Forall (fun u => assigns_parameters (snd u)) us ->
  k = "focus_crop_id" \/ k = "swash_crop_name" ->
  forall r, col (row_updates us r) k = col r k.
Proof.
  intros Hus Hk.
  induction Hus as [|u us Hu _ IH]; intros r; [reflexivity|].
  rewrite row_updates_cons, IH.
  destruct (focus_crop_is (fst u) r); [|reflexivity].
  apply col_set_cols_other. now apply assigns_parameters_not.
Qed.

Lemma apply_updates_table (us : list (value * list (string * value))) :
  forall db,
    apply_updates us db =
    set_tbl focus_crops (map (row_updates us) (tbl focus_crops db)) db.
Proof.
  induction us as [|u us IH]; intros db.
  - simpl. rewrite map_id. symmetry. apply set_tbl_tbl.
  - unfold apply_updates in *. cbn [fold_left]. rewrite IH.
    unfold update. rewrite tbl_set_tbl_same, set_tbl_set_tbl, map_map.
    reflexivity.
Qed.

Lemma apply_updates_app (a b : list (value * list (string * value)))
      (db : Database) :
  apply_updates (a ++ b) db = apply_updates b (apply_updates a db).
Proof. apply fold_left_app. Qed.

Lemma crop_keys_apply_updates (us : list (value * list (string * value)))
      (db : Database) :
  Forall (fun u => assigns_parameters (snd u)) us ->
  crop_keys (tbl focus_crops (apply_updates us db)) =
  crop_keys (tbl focus_crops db).
Proof.
  intros Hus. rewrite apply_updates_table, tbl_set_tbl_same.
  unfold crop_keys. rewrite map_map. apply map_ext. intros r.
  rewrite !(col_row_updates Hus) by auto. reflexivity.
Qed.

Lemma tbl_apply_updates_other (us : list (value * list (string * value)))
      (t : table_name) (db : Database) :
  table_name_eqb focus_crops t = false ->
  tbl t (apply_updates us db) = tbl t db.
Proof. intros H. now rewrite apply_updates_table, tbl_set_tbl, H. Qed.

(** The lookup of a crop by its name, on the table and on its keys. *)
Lemma find_crop_keys (name : string) (crop_table : table) :
  option_map (fun fc => col fc "focus_crop_id")
             (find (crop_named name) crop_table) =
  option_map snd (find (fun p => sql_eq (fst p) (VText name))
                       (crop_keys crop_table)).
Proof.
  induction crop_table as [|r tb IH]; simpl; [reflexivity|].
  unfold crop_named at 1.
  destruct (sql_eq (col r "swash_crop_name") (VText name));
    [reflexivity | exact IH].
Qed.

Lemma swash_crop_body_apply (st st' : swash_crops_state) (r : csv_row) :
  swash_crop_body false st r = Ok st' ->
  working (sc_conn st') =
  apply_updates
    (crop_update_of (crop_keys (tbl focus_crops (working (sc_conn st)))) r)
    (working (sc_conn st)).
Proof.
  unfold swash_crop_body, crop_update_of, select_one.
  destruct (csv_field _ _) as [name|]; cbn [bind]; [|discriminate].
  destruct (Str.is_empty name); [intros H; now inversion H|].
  pose proof (find_crop_keys name (tbl focus_crops (working (sc_conn st))))
    as Hf.
  destruct (find (crop_named name) _) as [fc|];
    destruct (find (fun p => _) _) as [p|]; try discriminate Hf;
    [|intros H; now inversion H].
  cbn [option_map] in Hf. inversion Hf as [Hid].
  destruct (crop_updates r) as [updates|]; cbn [bind]; [|discriminate].
  destruct updates as [|u updates]; [intros H; now inversion H|].
  cbn [negb].
  destruct (bind_all (u :: updates)) as [params|]; cbn [bind];
    [|discriminate].
  intros H. inversion H. cbn [sc_conn working execute apply_updates fold_left
                              fst snd].
  now rewrite Hid.
Qed.

Lemma swash_crops_loop_apply (crop_rows : list csv_row)
      (st st' : swash_crops_state) :
  for_each (swash_crop_body false) crop_rows st = Ok st' ->
  working (sc_conn st') = swash_crops_written crop_rows (working (sc_conn st)).
Proof.
  unfold swash_crops_written.
  apply (for_each_plan (swash_crop_body false)
           (fun st => working (sc_conn st))
           (fun db => crop_keys (tbl focus_crops db))
           crop_update_of apply_updates).
  - reflexivity.
  - intros. apply apply_updates_app.
  - intros. apply crop_keys_apply_updates. apply crop_update_of_keys.
  - intros. now apply swash_crop_body_apply.
Qed.

Lemma import_from_csv_apply (crop_csv cs_csv : option (list csv_row)) :
  exists crop_rows cs_rows, forall db,
    db_after (import_from_csv crop_csv cs_csv db false) = db \/
    db_after (import_from_csv crop_csv cs_csv db false) =
    swash_written crop_rows cs_rows db.
Proof.
  unfold import_from_csv.
  destruct crop_csv as [crop_rows|]; [|exists [], []; now left].
  destruct cs_csv as [cs_rows|]; [|exists [], []; now left].
  exists crop_rows, cs_rows. intros db.
  destruct (for_each (swash_crop_body false) _ _) as [s1|] eqn:H1;
    cbn [bind]; [|now left].
  destruct (for_each (swash_link_body false) _ _) as [s2|] eqn:H2;
    cbn [bind]; [|now left].
  right. apply swash_crops_loop_apply in H1.
  apply swash_links_loop_apply in H2.
  cbn [negb db_after close commit committed sl_conn sc_conn working connect]
    in *.
  unfold swash_written. now rewrite <- H1.
Qed.

(** ** The inserts of import_primo *)

Lemma insert_body_apply (t : table_name) (skip_fmt : string)
      (label : row -> arg) (st st' : primo_ins) (r : row) :
  insert_body t skip_fmt label st r = Ok st' ->
  working (pi_conn st') =
  insert_all_or_ignore t (match rejects t r with
                          | None => [r]
                          | Some _ => []
                          end) (working (pi_conn st)).
Proof.
  destruct (rejects t r) as [msg|] eqn:Hr.
  - erewrite insert_body_rejected by exact Hr.
    intros H. now inversion H.
  - erewrite insert_body_accepted by exact Hr.
    intros H. now inversion H.
Qed.

Lemma insert_loop_apply (t : table_name) (skip_fmt : string)
      (label : row -> arg) (rows : list row) (st st' : primo_ins) :
  for_each (insert_body t skip_fmt label) rows st = Ok st' ->
  working (pi_conn st') =
  insert_all_or_ignore t (accepted_rows t rows) (working (pi_conn st)).
Proof.
  unfold accepted_rows.
  apply (for_each_plan (insert_body t skip_fmt label)
           (fun st => working (pi_conn st))
           (fun _ : Database => tt)
           (fun (_ : unit) r => match rejects t r with
                                | None => [r]
                                | Some _ => []
                                end)
           (insert_all_or_ignore t)).
  - reflexivity.
  - intros. apply insert_all_or_ignore_app.
  - reflexivity.
  - intros. eapply insert_body_apply. eassumption.
Qed.

Lemma import_primo_apply (has_openpyxl : bool) (xlsx : option workbook)
      (primo_version : string) :
  exists ws, forall db,
    db_after (import_primo has_openpyxl xlsx db false primo_version) = db \/
    db_after (import_primo has_openpyxl xlsx db false primo_version) =
    primo_written ws primo_version db.
Proof.
  unfold import_primo.
  destruct has_openpyxl; cbn [negb]; [|exists []; now left].
  destruct xlsx as [wb|]; [|exists []; now left].
  destruct (sheet wb SHEET_COMMODITY) as [ws|]; [|exists []; now left].
  exists ws. intros db. unfold primo_written, parse_sheet.
  destruct (get_or_create_placeholder (connect db)) as [[conn1 id]|];
    cbn [bind]; [|now left].
  destruct (for_each (parse_body id primo_version) _ _) as [parsed|];
    cbn [bind]; [|now left].
  destruct (for_each_total
              (insert_body reg396_commodities
                 "  reg396 skip {r['annex1_code']}: {e}" reg396_label)
              (insert_body_total _ _ _)
              (reg396_rows parsed)
              {| pi_conn := conn1; pi_inserted := 0; pi_skipped := 0;
                 pi_out := parse_out parsed ++
                   [print "Parsed {len(reg396_rows)} reg396 commodities, {len(primo_rows)} primo entries"
                          [AInt (Z.of_nat (List.length (reg396_rows parsed)));
                           AInt (Z.of_nat (List.length (primo_rows parsed)))]]
              |}) as [r Hr].
  rewrite Hr. cbn [bind].
  destruct (for_each_total
              (insert_body primo_commodities
                 "  primo skip {p['primo_name'][:30]}: {e}" primo_label)
              (insert_body_total _ _ _)
              (primo_rows parsed)
              {| pi_conn := pi_conn r; pi_inserted := 0; pi_skipped := 0;
                 pi_out := pi_out r |}) as [p Hp].
  rewrite Hp. cbn [bind].
  right. apply insert_loop_apply in Hr. apply insert_loop_apply in Hp.
  cbn [pi_conn db_after close commit committed] in *.
  now rewrite Hp, Hr.
Qed.

(** ** Running an importer again *)










(** ** The updates and inserts of import_from_csv, run again *)




Lemma crop_updates_all_keys (keys : list (value * value))
      (crop_rows : list csv_row) :
  Forall (fun u => assigns_parameters (snd u))
         (flat_map (crop_update_of keys) crop_rows).
Proof.
  induction crop_rows as [|r rows IH]; simpl; [constructor|].
  apply Forall_app. split; [apply crop_update_of_keys | exact IH].
Qed.


(** ** import_primo, run again *)



(** ** The importers, run again *)

Lemma returned_or_not (o : outcome) (db db' : Database) :
  returned o = Some db' \/ returned o = None /\ db_after o = db ->
  db_after o = db \/ db_after o = db'.
Proof.
  intros [H | [_ H]]; [right; now apply returned_db_after | now left].
Qed.

Lemma focus_apply_steps (char_json irr_json : option json) (db : Database) :
  db_after (focus_apply char_json irr_json db) =
  match returned (match char_json with
                  | Some _ => import_characteristics char_json db false
                  | None => Returned db []
                  end) with
  | Some db1 =>
      db_after (match irr_json with
                | Some _ => import_irrigation irr_json db1 false
                | None => Returned db1 []
                end)
  | None => db_after (import_characteristics char_json db false)
  end.
Proof.
  unfold focus_apply, focus_main. cbn [negb].
  destruct char_json as [cj|].
  - destruct (import_characteristics (Some cj) db false) as [db1 out| |];
      cbn [prepend and_then returned db_after]; try reflexivity.
    destruct irr_json as [ij|]; [|reflexivity].
    destruct (import_irrigation (Some ij) db1 false); reflexivity.
  - cbn [and_then returned]. destruct irr_json as [ij|]; [|reflexivity].
    destruct (import_irrigation (Some ij) db false); reflexivity.
Qed.



Lemma db_after_import_from_mdb (has_pyodbc : bool)
      (mdb : string + list csv_row * list csv_row) (db : Database) :
  db_after (import_from_mdb has_pyodbc mdb db false) = db \/
  exists crop_rows cs_rows,
    mdb = inr (crop_rows, cs_rows) /\
    db_after (import_from_mdb has_pyodbc mdb db false) =
    db_after (import_from_csv (Some crop_rows) (Some cs_rows) db false).
Proof.
  unfold import_from_mdb. destruct has_pyodbc; cbn [negb]; [|now left].
  destruct mdb as [e | [crop_rows cs_rows]]; [now left|].
  right. exists crop_rows, cs_rows. split; [reflexivity|].
  apply db_after_prepend.
Qed.



(** ** The parse loop of import_primo *)

Lemma cell_text_stripped (c : cell) : Str.strip (cell_text c) = cell_text c.
Proof. apply strip_idem. Qed.

Lemma is_empty_false (s : string) :
  Str.is_empty s = false <-> s <> EmptyString.
Proof. destruct s; simpl; split; congruence. Qed.

(** The code after [if re.match(r'^\d{1,7}$', code): code = code.zfill(7)]. *)
Lemma normalised_code (c : string) :
  Str.strip c = c -> c <> EmptyString ->
  let c' := if Str.re_match_digits 1 7 c then Str.zfill 7 c else c in
  c' <> EmptyString /\ Str.strip c' = c' /\
  (Str.all_digits c' = true -> (7 <= String.length c')%nat).
Proof.
  intros Hs Hne. rewrite (@re_match_digits_stripped 1 7 c Hs).
  assert (Hlen : (1 <= String.length c)%nat).
  { destruct c; [congruence | simpl; lia]. }
  destruct (Str.all_digits c) eqn:Hd; cbn [andb].
  - destruct (Nat.leb_spec 1 (String.length c)); [|lia]. cbn [andb].
    destruct (Nat.leb_spec (String.length c) 7); cbn zeta.
    + rewrite (@zfill_digits 7 c Hd).
      assert (Hall : Str.all_digits
                       (Str.repeat_char "0" (7 - String.length c) ++ c) = true).
      { now rewrite all_digits_append, all_digits_zeros, Hd. }
      assert (Hl : String.length
                     (Str.repeat_char "0" (7 - String.length c) ++ c) = 7%nat).
      { rewrite length_append, length_repeat_char. lia. }
      split; [|split].
      * intros E. rewrite E in Hl. discriminate Hl.
      * now apply strip_digits.
      * intros _. lia.
    + split; [exact Hne|]. split; [exact Hs|]. intros _. lia.
  - cbn zeta. split; [exact Hne|]. split; [exact Hs|]. congruence.
Qed.

(** The level that is stored: [hlevel or 3]. *)
Lemma stored_level (c : string) :
  (seven_digits c ->
   match parse_hierarchy_level (PyStr c) with Some l => l | None => 3 end =
   level_of_zeros c) /\
  (~ seven_digits c ->
   match parse_hierarchy_level (PyStr c) with Some l => l | None => 3 end = 3).
Proof.
  split.
  - intros H. now rewrite (parse_hierarchy_level_seven_digits H).
  - intros H. unfold parse_hierarchy_level. simpl py_str.
    destruct (Str.re_match_digits 7 7 c) eqn:Hm;
      [|now rewrite orb_true_r].
    rewrite (re_match_seven_truthy (PyStr c) Hm). cbn [negb orb].
    destruct (proj1 (re_match_seven_iff c) Hm) as (d & Hd & [-> | ->]);
      [contradiction|].
    destruct Hd as [Hlen _].
    destruct (endswith_zeros_after_line_feed d Hlen) as (E2 & E3 & _).
    now rewrite E3, E2.
Qed.

(** One turn of the parse loop: the line is left out, or it queues a row
    for [reg396_commodities] and, when it has a PRIMo name, one for
    [primo_commodities]. *)
Lemma parse_body_step (unknown_crop_id : value) (primo_version : string)
      (st st' : primo_parse) (ir : Z * list cell) :
  parse_body unknown_crop_id primo_version st ir = Ok st' ->
  st' = st \/
  exists reg,
    reg396_row_ok unknown_crop_id reg /\
    reg396_rows st' = reg396_rows st ++ [reg] /\
    preview_count st' =
      (if preview_count st <? 10 then preview_count st + 1
       else preview_count st) /\
    List.length (parse_out st') =
      (List.length (parse_out st) +
       (if (preview_count st <? 10)%Z then 1 else 0))%nat /\
    (primo_rows st' = primo_rows st \/
     exists p, primo_row_ok unknown_crop_id primo_version reg p /\
               primo_rows st' = primo_rows st ++ [p]).
Proof.
  destruct ir as [i r]. unfold parse_body.
  destruct (negb (existsb cell_truthy r)); [intros H; inversion H; now left|].
  destruct (nth_cell r (COL_ANNEX1_CODE - 1)) as [c_code|]; cbn [bind];
    [|discriminate].
  destruct (nth_cell r (COL_ANNEX1_NAME - 1)) as [c_name|]; cbn [bind];
    [|discriminate].
  destruct (nth_cell r (COL_PRIMO_NAME - 1)) as [c_primo|]; cbn [bind];
    [|discriminate].
  destruct (nth_cell r (COL_UNIT_WEIGHT - 1)) as [unit_weight|]; cbn [bind];
    [|discriminate].
  destruct (Str.is_empty (cell_text c_code)) eqn:Ec;
    [intros H; inversion H; now left|].
  destruct (Str.is_empty (cell_text c_name)) eqn:En;
    [intros H; inversion H; now left|].
  cbn [orb]. apply is_empty_false in Ec. apply is_empty_false in En.
  destruct (@normalised_code _ (cell_text_stripped c_code) Ec)
    as (Hne & Hstrip & Hdigits).
  cbn zeta in Hne, Hstrip, Hdigits.
  set (code := if Str.re_match_digits 1 7 (cell_text c_code)
               then Str.zfill 7 (cell_text c_code) else cell_text c_code) in *.
  destruct (stored_level code) as [Hl7 Hl3].
  set (reg := [("crop_id", unknown_crop_id); ("annex1_code", VText code);
               ("annex1_name", VText (cell_text c_name));
               ("hierarchy_level",
                VInt match parse_hierarchy_level (PyStr code) with
                     | Some l => l
                     | None => 3
                     end);
               ("parent_annex1_code",
                match parent_code (PyStr code) with
                | Some c => VText c
                | None => VNull
                end);
               ("regulation_version", VText REGULATION_VERSION)]).
  assert (Hreg : reg396_row_ok unknown_crop_id reg).
  { split; [reflexivity|]. split; [reflexivity|].
    exists code, (cell_text c_name).
    split; [reflexivity|]. split; [reflexivity|].
    split; [exact Hne|]. split; [exact En|].
    split; [exact Hstrip|]. split; [apply cell_text_stripped|].
    split; [exact Hdigits|].
    split; intros H; unfold reg; cbn [col String.eqb Ascii.eqb Bool.eqb];
      f_equal; auto. }
  assert (Hout : forall out : event,
             List.length
               (if preview_count st <? 10
                then parse_out st ++ [out]
                else parse_out st) =
             (List.length (parse_out st) +
              (if (preview_count st <? 10)%Z then 1 else 0))%nat).
  { intros out. destruct (preview_count st <? 10);
      [rewrite length_app; reflexivity | lia]. }
  destruct (Str.is_empty (cell_text c_primo)) eqn:Ep.
  - intros H. inversion H. right. exists reg.
    cbn [reg396_rows primo_rows preview_count parse_out].
    split; [exact Hreg|]. split; [reflexivity|]. split; [reflexivity|].
    split; [apply Hout|]. now left.
  - apply is_empty_false in Ep.
    destruct (if cell_truthy unit_weight then cell_float unit_weight
              else Ok VNull) as [w|] eqn:Hw; cbn [bind]; [|discriminate].
    intros H. inversion H. right. exists reg.
    cbn [reg396_rows primo_rows preview_count parse_out].
    split; [exact Hreg|]. split; [reflexivity|]. split; [reflexivity|].
    split; [apply Hout|]. right. eexists. split; [|reflexivity].
    split; [reflexivity|]. split; [reflexivity|]. split; [reflexivity|].
    split; [exists (cell_text c_primo); split; [reflexivity|];
            split; [exact Ep | apply cell_text_stripped]|].
    change (w = VNull \/ exists x, w = VReal x).
    destruct (cell_truthy unit_weight).
    + right. unfold cell_float, float_of in Hw.
      destruct unit_weight as [|b|z|x|s];
        repeat match type of Hw with
               | match ?e with _ => _ end = _ => destruct e
               end; inversion Hw; eauto.
    + inversion Hw. now left.
Qed.

(** Every row that the parse loop of [import_primo] queues for
    [reg396_commodities] points to the placeholder crop and has a code and
    a name that are stripped and not empty; a code of one to seven digits
    has been filled with zeros to seven; the level is that of the trailing
    zeros for a code of seven digits and 3 for every other code. *)
Theorem parsed_reg396_rows_are_well_formed
        (ws : list (list cell)) (unknown_crop_id : value)
        (primo_version : string) (out0 : list event) (parsed : primo_parse) :
  parse_sheet ws unknown_crop_id primo_version out0 = Ok parsed ->
  Forall (reg396_row_ok unknown_crop_id) (reg396_rows parsed).
Proof.
  unfold parse_sheet.
  apply (for_each_invariant
           (fun st => Forall (reg396_row_ok unknown_crop_id) (reg396_rows st))).
  - intros st i st' HP Hb. apply parse_body_step in Hb.
    destruct Hb as [-> | (reg & Hreg & Hrows & _)]; [exact HP|].
    rewrite Hrows. apply Forall_app. split; [exact HP|].
    constructor; [exact Hreg | constructor].
  - constructor.
Qed.

(** Every row queued for [primo_commodities] comes with a row queued for
    [reg396_commodities] that has the same code; it points to the
    placeholder crop, has the version given on the command line and a name
    that is not empty, and its unit weight is a float or [NULL]. *)
Theorem every_primo_row_has_its_reg396_row
        (ws : list (list cell)) (unknown_crop_id : value)
        (primo_version : string) (out0 : list event) (parsed : primo_parse) :
  parse_sheet ws unknown_crop_id primo_version out0 = Ok parsed ->
  forall p, In p (primo_rows parsed) ->
            exists reg, In reg (reg396_rows parsed) /\
                        primo_row_ok unknown_crop_id primo_version reg p.
Proof.
  unfold parse_sheet.
  apply (for_each_invariant
           (fun st => forall p, In p (primo_rows st) ->
                                exists reg, In reg (reg396_rows st) /\
                                            primo_row_ok unknown_crop_id
                                                         primo_version reg p)).
  - intros st i st' HP Hb. apply parse_body_step in Hb.
    destruct Hb as [-> | (reg & _ & Hrows & _ & _ & Hp)]; [exact HP|].
    rewrite Hrows. intros p Hin.
    destruct Hp as [Hp | (p' & Hok & Hp)]; rewrite Hp in Hin.
    + destruct (HP p Hin) as (reg0 & Hin0 & Hok0).
      exists reg0. split; [apply in_or_app; now left | exact Hok0].
    + apply in_app_or in Hin. destruct Hin as [Hin | [<- | []]].
      * destruct (HP p Hin) as (reg0 & Hin0 & Hok0).
        exists reg0. split; [apply in_or_app; now left | exact Hok0].
      * exists reg. split; [apply in_or_app; right; now left | exact Hok].
  - intros p [].
Qed.

Lemma length_enumerate {A : Type} (l : list A) :
  forall i, List.length (enumerate i l) = List.length l.
Proof. induction l as [|x l IH]; intros i; simpl; [reflexivity | now rewrite IH]. Qed.

Lemma parse_loop_length (unknown_crop_id : value) (primo_version : string)
      (items : list (Z * list cell)) :
  forall st st',
    for_each (parse_body unknown_crop_id primo_version) items st = Ok st' ->
    (List.length (reg396_rows st') <=
     List.length (reg396_rows st) + List.length items)%nat.
Proof.
  induction items as [|i items IH]; intros st st' H.
  - simpl in H. inversion H. lia.
  - cbn [for_each] in H.
    destruct (parse_body unknown_crop_id primo_version st i) as [st1|] eqn:Hb;
      [|discriminate].
    apply IH in H. apply parse_body_step in Hb.
    destruct Hb as [-> | (reg & _ & Hrows & _)]; simpl; [lia|].
    rewrite Hrows, length_app in H. simpl in H. simpl. lia.
Qed.

(** The counts of the parse loop: no more rows for [primo_commodities]
    than for [reg396_commodities], no more of these than lines below the
    three header lines, and a preview line for each of the first ten rows
    queued for [reg396_commodities]. *)
Theorem parse_sheet_counts
        (ws : list (list cell)) (unknown_crop_id : value)
        (primo_version : string) (out0 : list event) (parsed : primo_parse) :
  parse_sheet ws unknown_crop_id primo_version out0 = Ok parsed ->
  (List.length (primo_rows parsed) <= List.length (reg396_rows parsed)
   <= List.length ws - 3)%nat /\
  preview_count parsed =
    Z.min 10 (Z.of_nat (List.length (reg396_rows parsed))) /\
  List.length (parse_out parsed) =
    (List.length out0 + Nat.min 10 (List.length (reg396_rows parsed)))%nat.
Proof.
  unfold parse_sheet. intros H.
  pose proof (parse_loop_length _ _ _ _ H) as Hlen.
  cbn [reg396_rows List.length] in Hlen.
  rewrite length_enumerate, length_skipn in Hlen.
  change HEADER_ROWS with 3%nat in Hlen.
  assert (HQ : (List.length (primo_rows parsed)
                <= List.length (reg396_rows parsed))%nat /\
               preview_count parsed =
                 Z.min 10 (Z.of_nat (List.length (reg396_rows parsed))) /\
               List.length (parse_out parsed) =
                 (List.length out0 +
                  Nat.min 10 (List.length (reg396_rows parsed)))%nat).
  { revert H.
    apply (for_each_invariant
             (fun st =>
                (List.length (primo_rows st)
                 <= List.length (reg396_rows st))%nat /\
                preview_count st =
                  Z.min 10 (Z.of_nat (List.length (reg396_rows st))) /\
                List.length (parse_out st) =
                  (List.length out0 +
                   Nat.min 10 (List.length (reg396_rows st)))%nat)).
    - intros st i st' (H1 & H2 & H3) Hb. apply parse_body_step in Hb.
      destruct Hb as [-> | (reg & _ & Hrows & Hcount & Hout & Hp)]; [auto|].
      rewrite Hrows, Hcount, Hout, length_app. cbn [List.length].
      destruct Hp as [Hp | (p & _ & Hp)]; rewrite Hp;
        try rewrite length_app; cbn [List.length];
        destruct (Z.ltb_spec (preview_count st) 10); lia.
    - cbn [primo_rows reg396_rows preview_count parse_out List.length].
      split; [lia|]. split; [reflexivity | simpl; lia]. }
  destruct HQ as (H1 & H2 & H3). repeat split; try assumption; lia.
Qed.

(** ** The insert loops of import_primo *)

Lemma length_accepted_rows (t : table_name) (rows : list row) :
  (List.length (accepted_rows t rows) <= List.length rows)%nat.
Proof.
  induction rows as [|r rows IH]; simpl; [lia|].
  destruct (rejects t r); simpl; lia.
Qed.

(** An insert loop of [import_primo] runs to its end whatever the rows
    are.  [inserted] counts the rows that the engine did not refuse, be
    they new or ignored as duplicates; [skipped] counts the refused rows,
    each with one printed line; the statements run are the
    [INSERT OR IGNORE] of the rows that were not refused. *)
Theorem insert_loop_counts (t : table_name) (skip_fmt : string)
        (label : row -> arg) (rows : list row) (st : primo_ins) :
  for_each (insert_body t skip_fmt label) rows st =
  Ok {| pi_conn :=
          {| committed := committed (pi_conn st);
             working := insert_all_or_ignore t (accepted_rows t rows)
                                             (working (pi_conn st)) |};
        pi_inserted :=
          pi_inserted st + Z.of_nat (List.length (accepted_rows t rows));
        pi_skipped :=
          pi_skipped st + (Z.of_nat (List.length rows)
                           - Z.of_nat (List.length (accepted_rows t rows)));
        pi_out := pi_out st ++ refusals t skip_fmt label rows |}.
Proof.
  revert st. induction rows as [|r rows IH]; intros st.
  - destruct st as [[c w] i s o]. cbn. rewrite app_nil_r.
    f_equal. f_equal; lia.
  - cbn [for_each].
    unfold accepted_rows, refusals. cbn [flat_map].
    fold (accepted_rows t rows). fold (refusals t skip_fmt label rows).
    destruct (rejects t r) as [msg|] eqn:Hr.
    + erewrite insert_body_rejected by exact Hr. rewrite IH.
      cbn [pi_conn pi_inserted pi_skipped pi_out app List.length].
      rewrite <- app_assoc. f_equal. f_equal; lia.
    + erewrite insert_body_accepted by exact Hr. rewrite IH.
      cbn [pi_conn pi_inserted pi_skipped pi_out app List.length
           committed working execute].
      unfold insert_all_or_ignore. cbn [fold_left].
      f_equal. f_equal; lia.
Qed.

(** ** The placeholder crop of import_primo *)

(** [get_or_create_placeholder] returns only when the lookup finds the
    crop. *)
Lemma get_or_create_placeholder_cases (conn conn1 : connection) (id : value) :
  get_or_create_placeholder conn = Ok (conn1, id) ->
  conn1 = conn /\
  exists found,
    find is_placeholder (tbl crops (working conn)) = Some found /\
    col found "crop_id" = id.
Proof.
  unfold get_or_create_placeholder, insert_placeholder, select_one.
  destruct (find is_placeholder (tbl crops (working conn))) as [found|];
    [|discriminate].
  intros H. inversion H; subst. eauto.
Qed.

Lemma sql_eq_text (v : value) (s : string) :
  sql_eq v (VText s) = true -> v = VText s.
Proof.
  destruct v; simpl; try discriminate.
  intros H. apply String.eqb_eq in H. now subst.
Qed.


Lemma tbl_crops_primo_written (ws : list (list cell)) (primo_version : string)
      (db : Database) :
  tbl crops (primo_written ws primo_version db) = tbl crops db.
Proof.
  unfold primo_written.
  destruct (get_or_create_placeholder (connect db)) as [[conn1 id]|] eqn:Hg;
    [|reflexivity].
  destruct (parse_sheet ws id primo_version _); [|reflexivity].
  rewrite !tbl_insert_all_or_ignore_other by reflexivity.
  apply get_or_create_placeholder_cases in Hg.
  now destruct Hg as (-> & _).
Qed.


(** ** What the importers leave alone *)

Lemma frame_of_cases (o : outcome) (db W : Database) (t : table_name) :
  db_after o = db \/ db_after o = W ->
  tbl t W = tbl t db ->
  tbl t (db_after o) = tbl t db.
Proof. intros [-> | ->] H; [reflexivity | exact H]. Qed.

Lemma tbl_primo_written_other (ws : list (list cell)) (primo_version : string)
      (db : Database) (t : table_name) :
  table_name_eqb crops t = false ->
  table_name_eqb reg396_commodities t = false ->
  table_name_eqb primo_commodities t = false ->
  tbl t (primo_written ws primo_version db) = tbl t db.
Proof.
  intros Hc Hr Hp. unfold primo_written.
  destruct (get_or_create_placeholder (connect db)) as [[conn1 id]|] eqn:Hg;
    [|reflexivity].
  destruct (parse_sheet ws id primo_version _); [|reflexivity].
  rewrite !tbl_insert_all_or_ignore_other by assumption.
  apply get_or_create_placeholder_cases in Hg.
  now destruct Hg as (-> & _).
Qed.

Lemma tbl_swash_written_other (crop_rows cs_rows : list csv_row)
      (db : Database) (t : table_name) :
  table_name_eqb focus_crops t = false ->
  table_name_eqb focus_crop_scenario_links t = false ->
  tbl t (swash_written crop_rows cs_rows db) = tbl t db.
Proof.
  intros Hc Hl. unfold swash_written, swash_links_written, swash_crops_written.
  rewrite tbl_insert_all_or_ignore_other by assumption.
  now apply tbl_apply_updates_other.
Qed.

Lemma import_characteristics_frame (file : option json) (db : Database)
      (dry_run : bool) (t : table_name) :
  table_name_eqb focus_sw_scenario_characteristics t = false ->
  tbl t (db_after (import_characteristics file db dry_run)) = tbl t db.
Proof.
  intros Ht. destruct dry_run;
    [now rewrite import_characteristics_preview|].
  destruct (import_characteristics_apply file) as [items H].
  eapply frame_of_cases; [eapply returned_or_not; apply H|].
  now apply tbl_upsert_all_other.
Qed.

Lemma import_irrigation_frame (file : option json) (db : Database)
      (dry_run : bool) (t : table_name) :
  table_name_eqb focus_crop_scenario_irrigation t = false ->
  tbl t (db_after (import_irrigation file db dry_run)) = tbl t db.
Proof.
  intros Ht. destruct dry_run;
    [now rewrite import_irrigation_preview|].
  destruct (import_irrigation_apply file) as [items H].
  eapply frame_of_cases; [eapply returned_or_not; apply H|].
  now apply tbl_upsert_all_other.
Qed.

Lemma import_from_csv_frame (crop_csv cs_csv : option (list csv_row))
      (db : Database) (dry_run : bool) (t : table_name) :
  table_name_eqb focus_crops t = false ->
  table_name_eqb focus_crop_scenario_links t = false ->
  tbl t (db_after (import_from_csv crop_csv cs_csv db dry_run)) = tbl t db.
Proof.
  intros Hc Hl. destruct dry_run; [now rewrite import_from_csv_preview|].
  destruct (import_from_csv_apply crop_csv cs_csv) as (c & s & H).
  eapply frame_of_cases; [apply H|].
  now apply tbl_swash_written_other.
Qed.

(** Each importer writes to its own tables only: whatever the input is,
    however the run ends and with or without [--apply], every other table
    of the database is after the run what it was before.  The tables that
    the lookups read ([focus_scenarios], and [focus_crops] for all but the
    SWASH importer) are never written. *)
Theorem importers_write_only_their_tables (db : Database) (dry_run : bool) :
  (forall file t,
      table_name_eqb focus_sw_scenario_characteristics t = false ->
      tbl t (db_after (import_characteristics file db dry_run)) = tbl t db)
  /\ (forall file t,
         table_name_eqb focus_crop_scenario_irrigation t = false ->
         tbl t (db_after (import_irrigation file db dry_run)) = tbl t db)
  /\ (forall char_json irr_json o t,
         focus_main (Some db) char_json irr_json (negb dry_run) = Ran o ->
         table_name_eqb focus_sw_scenario_characteristics t = false ->
         table_name_eqb focus_crop_scenario_irrigation t = false ->
         tbl t (db_after o) = tbl t db)
  /\ (forall file t,
         table_name_eqb focus_crop_scenario_links t = false ->
         tbl t (db_after (import_links file db dry_run)) = tbl t db)
  /\ (forall data t,
         table_name_eqb focus_crop_interception t = false ->
         tbl t (db_after (import_interception_with data db dry_run)) =
         tbl t db)
  /\ (forall crop_csv cs_csv t,
         table_name_eqb focus_crops t = false ->
         table_name_eqb focus_crop_scenario_links t = false ->
         tbl t (db_after (import_from_csv crop_csv cs_csv db dry_run)) =
         tbl t db)
  /\ (forall has_pyodbc mdb t,
         table_name_eqb focus_crops t = false ->
         table_name_eqb focus_crop_scenario_links t = false ->
         tbl t (db_after (import_from_mdb has_pyodbc mdb db dry_run)) =
         tbl t db)
  /\ (forall has_openpyxl xlsx primo_version t,
         table_name_eqb crops t = false ->
         table_name_eqb reg396_commodities t = false ->
         table_name_eqb primo_commodities t = false ->
         tbl t (db_after (import_primo has_openpyxl xlsx db dry_run
                                       primo_version)) = tbl t db).
Proof.
  split; [intros; now apply import_characteristics_frame|].
  split; [intros; now apply import_irrigation_frame|].
  split.
  { intros cj ij o t Hmain Hc Hi. destruct dry_run; cbn [negb] in Hmain.
    - now rewrite (focus_main_preview Hmain).
    - assert (Ho : o = focus_apply cj ij db).
      { unfold focus_apply. now rewrite Hmain. }
      rewrite Ho, focus_apply_steps.
      destruct cj as [cj|]; cbn [returned].
      + pose proof (import_characteristics_frame (Some cj) db false t Hc)
          as H1.
        destruct (returned (import_characteristics (Some cj) db false))
          as [db1|] eqn:Hret; [|exact H1].
        apply returned_db_after in Hret. rewrite Hret in H1.
        rewrite <- H1. destruct ij as [ij|]; [|reflexivity].
        now apply import_irrigation_frame.
      + destruct ij as [ij|]; [|reflexivity].
        now apply import_irrigation_frame. }
  split.
  { intros file t Ht. destruct dry_run; [now rewrite import_links_preview|].
    destruct (import_links_apply file) as [items H].
    eapply frame_of_cases; [apply H|].
    now apply tbl_insert_all_or_ignore_other. }
  split.
  { intros data t Ht. destruct dry_run;
      [now rewrite import_interception_preview|].
    eapply frame_of_cases; [apply import_interception_apply|].
    now apply tbl_upsert_all_other. }
  split; [intros; now apply import_from_csv_frame|].
  split.
  { intros has_pyodbc mdb t Hc Hl.
    destruct dry_run; [now rewrite import_from_mdb_preview|].
    destruct (db_after_import_from_mdb has_pyodbc mdb db)
      as [-> | (c & s & _ & ->)]; [reflexivity|].
    now apply import_from_csv_frame. }
  intros has_openpyxl xlsx primo_version t Hc Hr Hp.
  destruct dry_run; [now rewrite import_primo_preview|].
  destruct (import_primo_apply has_openpyxl xlsx primo_version) as [ws H].
  eapply frame_of_cases; [apply H|].
  now apply tbl_primo_written_other.
Qed.

Lemma ignore_fold_appends (t : table_name) (rows : list row) :
  forall tb, exists added,
    fold_left (ignore_into t) rows tb = tb ++ added /\
    Forall (fun r => existsb (conflict t r) tb = false) added.
Proof.
  induction rows as [|r rows IH]; intros tb.
  - exists []. split; [symmetry; apply app_nil_r | constructor].
  - cbn [fold_left]. unfold ignore_into at 2.
    destruct (existsb (conflict t r) tb) eqn:Hr; [apply IH|].
    destruct (IH (tb ++ [r])) as (added & Heq & Hall).
    exists (r :: added). split.
    + rewrite Heq, <- app_assoc. reflexivity.
    + constructor; [exact Hr|].
      revert Hall. apply Forall_impl. intros a Ha.
      rewrite existsb_app in Ha. now apply orb_false_iff in Ha.
Qed.

Lemma only_appended_refl (t : table_name) (db : Database) :
  only_appended t db db.
Proof. exists []. split; [symmetry; apply app_nil_r | constructor]. Qed.

Lemma only_appended_of_cases (o : outcome) (db W : Database)
      (t : table_name) :
  db_after o = db \/ db_after o = W ->
  only_appended t db W ->
  only_appended t db (db_after o).
Proof. intros [-> | ->] H; [apply only_appended_refl | exact H]. Qed.

Lemma only_appended_insert_all (t : table_name) (rows : list row)
      (db db1 : Database) :
  tbl t db1 = tbl t db ->
  only_appended t db (insert_all_or_ignore t rows db1).
Proof.
  intros H. unfold only_appended.
  rewrite tbl_insert_all_or_ignore_same, H. apply ignore_fold_appends.
Qed.

Lemma only_appended_other (t t' : table_name) (rows : list row)
      (db db1 : Database) :
  table_name_eqb t' t = false ->
  only_appended t db db1 ->
  only_appended t db (insert_all_or_ignore t' rows db1).
Proof.
  intros Ht (added & Heq & Hall). exists added.
  rewrite tbl_insert_all_or_ignore_other by exact Ht. auto.
Qed.

Lemma import_from_csv_appends (crop_csv cs_csv : option (list csv_row))
      (db : Database) (dry_run : bool) :
  only_appended focus_crop_scenario_links db
    (db_after (import_from_csv crop_csv cs_csv db dry_run)).
Proof.
  destruct dry_run;
    [rewrite import_from_csv_preview; apply only_appended_refl|].
  destruct (import_from_csv_apply crop_csv cs_csv) as (c & s & H).
  eapply only_appended_of_cases; [apply H|].
  apply only_appended_insert_all. now apply tbl_apply_updates_other.
Qed.

(** The importers that use [INSERT OR IGNORE] only add rows: the rows
    that were in [focus_crop_scenario_links], [reg396_commodities] and
    [primo_commodities] stay as they were and where they were, and no row
    is added that collides with one of them.  [import_primo] leaves
    [crops] as it is. *)
Theorem insert_or_ignore_importers_only_append
        (db : Database) (dry_run : bool) :
  (forall file,
      only_appended focus_crop_scenario_links db
        (db_after (import_links file db dry_run)))
  /\ (forall crop_csv cs_csv,
         only_appended focus_crop_scenario_links db
           (db_after (import_from_csv crop_csv cs_csv db dry_run)))
  /\ (forall has_pyodbc mdb,
         only_appended focus_crop_scenario_links db
           (db_after (import_from_mdb has_pyodbc mdb db dry_run)))
  /\ (forall has_openpyxl xlsx primo_version,
         let db' := db_after (import_primo has_openpyxl xlsx db dry_run
                                           primo_version) in
         only_appended reg396_commodities db db' /\
         only_appended primo_commodities db db' /\
         tbl crops db' = tbl crops db).
Proof.
  split.
  { intros file. destruct dry_run;
      [rewrite import_links_preview; apply only_appended_refl|].
    destruct (import_links_apply file) as [items H].
    eapply only_appended_of_cases; [apply H|].
    now apply only_appended_insert_all. }
  split; [intros; apply import_from_csv_appends|].
  split.
  { intros has_pyodbc mdb.
    destruct dry_run;
      [rewrite import_from_mdb_preview; apply only_appended_refl|].
    destruct (db_after_import_from_mdb has_pyodbc mdb db)
      as [-> | (c & s & _ & ->)]; [apply only_appended_refl|].
    apply import_from_csv_appends. }
  intros has_openpyxl xlsx primo_version. cbn zeta.
  destruct dry_run.
  { rewrite import_primo_preview.
    repeat split; apply only_appended_refl. }
  destruct (import_primo_apply has_openpyxl xlsx primo_version) as [ws H].
  destruct (H db) as [-> | ->];
    [repeat split; apply only_appended_refl|].
  split; [|split; [|apply tbl_crops_primo_written]].
  - unfold primo_written.
    destruct (get_or_create_placeholder (connect db)) as [[conn1 id]|] eqn:Hg;
      [|apply only_appended_refl].
    destruct (parse_sheet ws id primo_version _);
      [|apply only_appended_refl].
    apply get_or_create_placeholder_cases in Hg. destruct Hg as (-> & _).
    apply only_appended_other; [reflexivity|].
    now apply only_appended_insert_all.
  - unfold primo_written.
    destruct (get_or_create_placeholder (connect db)) as [[conn1 id]|] eqn:Hg;
      [|apply only_appended_refl].
    destruct (parse_sheet ws id primo_version _);
      [|apply only_appended_refl].
    apply get_or_create_placeholder_cases in Hg. destruct Hg as (-> & _).
    apply only_appended_insert_all.
    now rewrite tbl_insert_all_or_ignore_other by reflexivity.
Qed.

(** ** The crop parameters of import_from_csv *)

Lemma assigns_parameters_inside (params : list (string * value))
      (k : string) :
  assigns_parameters params -> ~ In k crop_parameters ->
  ~ In k (map fst params).
Proof.
  intros Ha Hk Hin. apply Hk. apply in_map_iff in Hin.
  destruct Hin as ([k0 v0] & Heq & Hin). cbn [fst] in Heq. subst k0.
  unfold assigns_parameters in Ha. rewrite Forall_forall in Ha.
  exact (Ha _ Hin).
Qed.

Lemma same_outside_row_updates (us : list (value * list (string * value))) :
  Forall (fun u => assigns_parameters (snd u)) us ->
  forall r, same_outside crop_parameters r (row_updates us r).
Proof.
  intros Hus. induction Hus as [|u us Hu _ IH]; intros r k Hk;
    [reflexivity|].
  rewrite row_updates_cons, (IH _ k Hk).
  destruct (focus_crop_is (fst u) r); [|reflexivity].
  apply col_set_cols_other. now apply assigns_parameters_inside.
Qed.

Lemma import_from_csv_parameters (crop_csv cs_csv : option (list csv_row))
      (db : Database) (dry_run : bool) :
  Forall2 (same_outside crop_parameters) (tbl focus_crops db)
          (tbl focus_crops
               (db_after (import_from_csv crop_csv cs_csv db dry_run))).
Proof.
  assert (Hrefl : Forall2 (same_outside crop_parameters) (tbl focus_crops db)
                          (tbl focus_crops db)).
  { apply Forall2_refl_of. intros r k _. reflexivity. }
  destruct dry_run; [now rewrite import_from_csv_preview|].
  destruct (import_from_csv_apply crop_csv cs_csv) as (c & s & H).
  destruct (H db) as [-> | ->]; [exact Hrefl|].
  unfold swash_written, swash_links_written, swash_crops_written.
  rewrite tbl_insert_all_or_ignore_other by reflexivity.
  rewrite apply_updates_table, tbl_set_tbl_same.
  apply Forall2_map_r. apply same_outside_row_updates.
  apply crop_updates_all_keys.
Qed.

(** The SWASH importer keeps the rows of [focus_crops], in number and in
    order, and changes no column of them but the seven crop parameters:
    never the names and the ids that the lookups of the importers go
    by. *)
Theorem swash_importer_changes_crop_parameters_only
        (db : Database) (dry_run : bool) :
  (forall crop_csv cs_csv,
      Forall2 (same_outside crop_parameters) (tbl focus_crops db)
              (tbl focus_crops
                   (db_after (import_from_csv crop_csv cs_csv db dry_run))))
  /\ (forall has_pyodbc mdb,
         Forall2 (same_outside crop_parameters) (tbl focus_crops db)
                 (tbl focus_crops
                      (db_after (import_from_mdb has_pyodbc mdb db
                                                 dry_run)))).
Proof.
  split; [intros; apply import_from_csv_parameters|].
  intros has_pyodbc mdb.
  destruct dry_run.
  - rewrite import_from_mdb_preview.
    apply Forall2_refl_of. intros r k _. reflexivity.
  - destruct (db_after_import_from_mdb has_pyodbc mdb db)
      as [-> | (c & s & _ & ->)];
      [apply Forall2_refl_of; intros r k _; reflexivity|].
    apply import_from_csv_parameters.
Qed.

(** ** A run that fails *)

Ltac failed_run :=
  repeat match goal with
         | |- context [match ?x with _ => _ end] => destruct x
         end;
  cbn; intros; try discriminate; reflexivity.

Lemma import_irrigation_failed (file : option json) (db : Database)
      (dry_run : bool) :
  returned (import_irrigation file db dry_run) = None ->
  db_after (import_irrigation file db dry_run) = db.
Proof. unfold import_irrigation. failed_run. Qed.

(** [main] of the FOCUS importer commits the characteristics before it
    starts on the irrigation file: when the first importer returns and the
    second one fails, the run fails and the database keeps what the first
    one wrote. *)
Theorem focus_main_keeps_characteristics_when_irrigation_fails
        (char_json irr_json : json) (db db1 : Database) (out1 : list event) :
  import_characteristics (Some char_json) db false = Returned db1 out1 ->
  returned (import_irrigation (Some irr_json) db1 false) = None ->
  exists o,
    focus_main (Some db) (Some char_json) (Some irr_json) true = Ran o /\
    returned o = None /\ db_after o = db1.
Proof.
  intros H1 H2. unfold focus_main. cbn [negb]. rewrite H1.
  cbn [prepend and_then app].
  pose proof (import_irrigation_failed (Some irr_json) db1 false H2) as Hdb.
  destruct (import_irrigation (Some irr_json) db1 false);
    [discriminate H2 | |]; cbn in *; subst; eauto.
Qed.

(** ** What the reports count *)

(** Two loops that go the same way, the first one counting what a plan
    tells. *)
Lemma for_each_sim {S1 S2 I W : Type} (R : S1 -> S2 -> Prop) (c : S1 -> Z)
      (plan : I -> list W)
      (body1 : S1 -> I -> result S1) (body2 : S2 -> I -> result S2) :
  (forall s1 s2 i s1',
      R s1 s2 -> body1 s1 i = Ok s1' ->
      exists s2', body2 s2 i = Ok s2' /\ R s1' s2' /\
                  c s1' = c s1 + Z.of_nat (List.length (plan i))) ->
  forall items s1 s2 s1',
    R s1 s2 -> for_each body1 items s1 = Ok s1' ->
    exists s2', for_each body2 items s2 = Ok s2' /\ R s1' s2' /\
                c s1' = c s1 + Z.of_nat (List.length (flat_map plan items)).
Proof.
  intros Hbody items.
  induction items as [|i items IH]; intros s1 s2 s1' HR H.
  - simpl in H. inversion H; subst. exists s2. simpl.
    split; [reflexivity|]. split; [exact HR | lia].
  - cbn [for_each] in H.
    destruct (body1 s1 i) as [s1a|] eqn:Hb; [|discriminate].
    destruct (Hbody _ _ _ _ HR Hb) as (s2a & Hb2 & HRa & Hc).
    destruct (IH _ _ _ HRa H) as (s2' & H2 & HR' & Hc').
    exists s2'. cbn [for_each flat_map]. rewrite Hb2.
    split; [exact H2|]. split; [exact HR'|].
    rewrite length_app. lia.
Qed.

Lemma tbl_insert_or_replace_other (t t' : table_name) (r : row)
      (db : Database) :
  table_name_eqb t t' = false ->
  tbl t' (insert_or_replace t r db) = tbl t' db.
Proof. intros H. unfold insert_or_replace. now rewrite tbl_set_tbl, H. Qed.

Lemma tbl_insert_or_ignore_other (t t' : table_name) (r : row)
      (db : Database) :
  table_name_eqb t t' = false ->
  tbl t' (insert_or_ignore t r db) = tbl t' db.
Proof. intros H. unfold insert_or_ignore. now rewrite tbl_set_tbl, H. Qed.

Lemma execute_insert_again
      (ins : table_name -> row -> Database -> Database)
      (t : table_name) (r : row) (c c' c2 : connection) :
  execute_insert ins t r c = Ok c' ->
  execute_insert ins t r c2 = Ok (execute (ins t r) c2).
Proof.
  unfold execute_insert. destruct (rejects t r); [discriminate | reflexivity].
Qed.

Lemma char_body_sim (scenarios : table) (dry_run : bool)
      (s1 s2 s1' : char_state) (s : json) :
  char_sim scenarios s1 s2 ->
  char_body false s1 s = Ok s1' ->
  exists s2',
    char_body dry_run s2 s = Ok s2' /\ char_sim scenarios s1' s2' /\
    char_updated s1' =
    char_updated s1 + Z.of_nat (List.length (char_row_of scenarios s)).
Proof.
  intros (H1 & H2 & Hu & Ho). unfold char_body, char_row_of, select_one.
  rewrite H1, H2.
  destruct (get_stripped s "scenario_code") as [code|]; cbn [bind];
    [|discriminate].
  destruct (Str.is_empty code).
  { intros H. inversion H; subst. exists s2.
    split; [reflexivity|]. split; [repeat split; assumption | simpl; lia]. }
  destruct (find _ _) as [found|].
  2:{ intros H. inversion H. eexists. split; [reflexivity|].
      split; [|simpl; lia]. repeat split; cbn [char_conn char_updated char_out]; congruence. }
  destruct (get s "latitude_deg") as [lat|]; cbn [bind]; [|discriminate].
  destruct (get s "longitude_deg") as [lon|]; cbn [bind]; [|discriminate].
  cbn [negb].
  destruct (characteristics_row _ _ _ _ _) as [r|]; cbn [bind];
    [|discriminate].
  destruct (execute_insert _ _ _ (char_conn s1)) as [conn|] eqn:He;
    cbn [bind]; [|discriminate].
  intros H. inversion H.
  pose proof (@execute_insert_again _ _ _ _ _ (char_conn s2) He) as He2.
  apply execute_insert_working in He. destruct He as [Hw _].
  assert (Hconn : tbl focus_scenarios (working conn) = scenarios).
  { rewrite Hw, tbl_insert_or_replace_other by reflexivity. exact H1. }
  destruct dry_run; cbn [negb bind].
  - eexists. split; [reflexivity|].
    split; [|simpl; lia]. repeat split; cbn [char_conn char_updated char_out]; congruence.
  - rewrite He2. cbn [bind]. eexists. split; [reflexivity|].
    split; [|simpl; lia]. repeat split; cbn [char_conn char_updated char_out working execute]; try congruence.
    now rewrite tbl_insert_or_replace_other.
Qed.

Lemma irr_body_sim (tables : table * table) (dry_run : bool)
      (s1 s2 s1' : irr_state) (r : json) :
  irr_sim tables s1 s2 ->
  irr_body false s1 r = Ok s1' ->
  exists s2',
    irr_body dry_run s2 r = Ok s2' /\ irr_sim tables s1' s2' /\
    irr_inserted s1' =
    irr_inserted s1 + Z.of_nat (List.length (irr_row_of tables r)).
Proof.
  destruct tables as [scenarios crop_table].
  intros (H1 & H1' & H2 & H2' & Hi & Hs & Ho). cbn [fst snd] in *.
  unfold irr_body, irr_row_of, select_one.
  rewrite H1, H1', H2, H2'.
  destruct (get_stripped r "scenario_code") as [code|]; cbn [bind];
    [|discriminate].
  destruct (get_stripped r "crop") as [crop|]; cbn [bind]; [|discriminate].
  destruct (get r "irrigation_mm_annual") as [mm|]; cbn [bind];
    [|discriminate].
  destruct (_ || _).
  { intros H. inversion H; subst. exists s2.
    split; [reflexivity|]. split; [repeat split; assumption | simpl; lia]. }
  assert (Hskip :
    exists s2' : irr_state,
      Ok {| irr_conn := irr_conn s2; irr_inserted := irr_inserted s2;
            irr_skipped := irr_skipped s2 ++ [(code, crop)];
            irr_out := irr_out s2 |} = Ok s2' /\
      irr_sim (scenarios, crop_table)
        {| irr_conn := irr_conn s1; irr_inserted := irr_inserted s1;
           irr_skipped := irr_skipped s1 ++ [(code, crop)];
           irr_out := irr_out s1 |} s2' /\
      irr_inserted s1 = irr_inserted s1 + Z.of_nat 0).
  { eexists. split; [reflexivity|]. split; [|lia].
    repeat split; cbn [irr_conn irr_inserted irr_skipped irr_out fst snd]; congruence. }
  destruct (find (surface_water_scenario code) scenarios) as [sc_row|];
    [|intros H; inversion H; exact Hskip].
  destruct (find (crop_named crop) crop_table) as [fc_row|];
    [|intros H; inversion H; exact Hskip].
  clear Hskip. cbn [negb].
  destruct (py_float mm) as [x|]; cbn [bind]; [|discriminate].
  destruct (execute_insert _ _ _ (irr_conn s1)) as [conn|] eqn:He;
    cbn [bind]; [|discriminate].
  intros H. inversion H.
  pose proof (@execute_insert_again _ _ _ _ _ (irr_conn s2) He) as He2.
  apply execute_insert_working in He. destruct He as [Hw _].
  assert (Hconn : tbl focus_scenarios (working conn) = scenarios /\
                  tbl focus_crops (working conn) = crop_table).
  { rewrite Hw, !tbl_insert_or_replace_other by reflexivity. auto. }
  destruct Hconn as [Hc1 Hc2].
  destruct dry_run; cbn [negb bind].
  - eexists. split; [reflexivity|].
    split; [|simpl; lia]. repeat split; cbn [irr_conn irr_inserted irr_skipped irr_out fst snd]; congruence.
  - rewrite He2. cbn [bind]. eexists. split; [reflexivity|].
    split; [|simpl; lia]. repeat split; cbn [irr_conn irr_inserted irr_skipped irr_out working execute fst snd]; try congruence;
      now rewrite tbl_insert_or_replace_other.
Qed.

Lemma link_body_sim (tables : table * table) (dry_run : bool)
      (crop_name : string) (fid : value)
      (s1 s2 s1' : links_state) (j : json) :
  links_sim tables s1 s2 ->
  link_body false crop_name fid s1 j = Ok s1' ->
  exists s2',
    link_body dry_run crop_name fid s2 j = Ok s2' /\
    links_sim tables s1' s2' /\
    links_inserted s1' =
    links_inserted s1 +
    Z.of_nat (List.length (link_row_of fid (snd tables) j)).
Proof.
  destruct tables as [crop_table scenarios].
  intros (H1 & H1' & H2 & H2' & Hi & Hs). cbn [fst snd] in *.
  unfold link_body, link_row_of, select_one. rewrite H1', H2'.
  destruct (strip_of j) as [code|]; cbn [bind]; [|discriminate].
  destruct (find _ _) as [sc|].
  2:{ intros H. inversion H. eexists. split; [reflexivity|].
      split; [|simpl; lia].
      repeat split; cbn [links_conn links_inserted links_skipped fst snd];
        congruence. }
  cbn [negb].
  destruct (execute_insert _ _ _ (links_conn s1)) as [conn|] eqn:He;
    cbn [bind]; [|discriminate].
  intros H. inversion H.
  pose proof (@execute_insert_again _ _ _ _ _ (links_conn s2) He) as He2.
  apply execute_insert_working in He. destruct He as [Hw _].
  assert (Hconn : tbl focus_crops (working conn) = crop_table /\
                  tbl focus_scenarios (working conn) = scenarios).
  { rewrite Hw, !tbl_insert_or_ignore_other by reflexivity. auto. }
  destruct Hconn as [Hc1 Hc2].
  destruct dry_run; cbn [negb bind].
  - eexists. split; [reflexivity|].
    split; [|simpl; lia].
    repeat split; cbn [links_conn links_inserted links_skipped fst snd];
      congruence.
  - rewrite He2. cbn [bind]. eexists. split; [reflexivity|].
    split; [|simpl; lia].
    repeat split;
      cbn [links_conn links_inserted links_skipped working execute fst snd];
      try congruence; now rewrite tbl_insert_or_ignore_other.
Qed.

Lemma links_row_body_sim (tables : table * table) (dry_run : bool)
      (s1 s2 s1' : links_state) (item : json) :
  links_sim tables s1 s2 ->
  links_row_body false s1 item = Ok s1' ->
  exists s2',
    links_row_body dry_run s2 item = Ok s2' /\
    links_sim tables s1' s2' /\
    links_inserted s1' =
    links_inserted s1 + Z.of_nat (List.length (links_rows_of tables item)).
Proof.
  intros HR. pose proof HR as (H1 & H1' & H2 & H2' & Hi & Hs).
  destruct tables as [crop_table scenarios]. cbn [fst snd] in *.
  unfold links_row_body, links_rows_of, select_one. rewrite H1, H2.
  destruct (get_stripped item "crop") as [crop_name|]; cbn [bind];
    [|discriminate].
  destruct (get item "scenarios") as [scs|]; cbn [bind]; [|discriminate].
  destruct (_ || _).
  { intros H. inversion H; subst. exists s2.
    split; [reflexivity|]. split; [exact HR | simpl; lia]. }
  destruct (find _ _) as [fc|].
  2:{ intros H. inversion H. eexists. split; [reflexivity|].
      split; [|simpl; lia].
      repeat split; cbn [links_conn links_inserted links_skipped fst snd];
        congruence. }
  destruct (py_iter _) as [codes|]; cbn [bind]; [|discriminate].
  intros H.
  eapply (@for_each_sim _ _ _ _ (links_sim (crop_table, scenarios))
            links_inserted
            (link_row_of (col fc "focus_crop_id") scenarios)
            (link_body false crop_name (col fc "focus_crop_id"))
            (link_body dry_run crop_name (col fc "focus_crop_id")));
    [|exact HR|exact H].
  intros a b i a' Hab Hb.
  exact (@link_body_sim (crop_table, scenarios) dry_run crop_name
                        (col fc "focus_crop_id") a b a' i Hab Hb).
Qed.

Lemma char_loop_committed (dry_run : bool) (items : list json)
      (st st' : char_state) :
  for_each (char_body dry_run) items st = Ok st' ->
  committed (char_conn st') = committed (char_conn st).
Proof.
  intros H.
  apply (for_each_invariant
           (fun s => committed (char_conn s) = committed (char_conn st))
           (char_body dry_run)) with (2 := eq_refl) in H; [exact H|].
  intros s i s' HP Hb. apply char_body_committed in Hb. congruence.
Qed.

Lemma irr_loop_committed (dry_run : bool) (items : list json)
      (st st' : irr_state) :
  for_each (irr_body dry_run) items st = Ok st' ->
  committed (irr_conn st') = committed (irr_conn st).
Proof.
  intros H.
  apply (for_each_invariant
           (fun s => committed (irr_conn s) = committed (irr_conn st))
           (irr_body dry_run)) with (2 := eq_refl) in H; [exact H|].
  intros s i s' HP Hb. apply irr_body_committed in Hb. congruence.
Qed.

Lemma links_loop_committed (dry_run : bool) (items : list json)
      (st st' : links_state) :
  for_each (links_row_body dry_run) items st = Ok st' ->
  committed (links_conn st') = committed (links_conn st).
Proof.
  intros H.
  apply (for_each_invariant
           (fun s => committed (links_conn s) = committed (links_conn st))
           (links_row_body dry_run)) with (2 := eq_refl) in H; [exact H|].
  intros s i s' HP Hb. apply links_row_body_committed in Hb. congruence.
Qed.

(** The number that [import_characteristics] prints is the number of
    [INSERT OR REPLACE] statements that it runs.  When the run with
    [--apply] returns, the preview returns too and prints the same lines
    with the same number, and so does a second run with [--apply]: the
    report does not tell whether a row was new. *)
Theorem characteristics_report_counts_the_upserts
        (file : option json) (db db' : Database) (out : list event) :
  import_characteristics file db false = Returned db' out ->
  exists rows pre,
    db' = upsert_all focus_sw_scenario_characteristics rows db /\
    out = pre ++
      [print "focus_sw_scenario_characteristics: {updated} rows {'would be ' if dry_run else ''}upserted"
             [AInt (Z.of_nat (List.length rows)); ABool false]] /\
    import_characteristics file db true =
      Returned db
        (pre ++
         [print "focus_sw_scenario_characteristics: {updated} rows {'would be ' if dry_run else ''}upserted"
                [AInt (Z.of_nat (List.length rows)); ABool true]]) /\
    exists db'', import_characteristics file db' false = Returned db'' out.
Proof.
  unfold import_characteristics.
  destruct file as [data|]; [|discriminate].
  destruct (first_array data "scenarios" "items") as [sc|]; [|discriminate].
  destruct (negb (truthy sc)); [discriminate|].
  destruct (py_iter sc) as [items|]; cbn [bind]; [|discriminate].
  destruct (for_each (char_body false) items _) as [st|] eqn:Hloop;
    [|discriminate].
  cbn [negb close commit committed]. intros H. inversion H; subst; clear H.
  set (st0 := fun d : Database =>
                {| char_conn := connect d; char_updated := 0;
                   char_out := [] |}) in *.
  change (for_each (char_body false) items (st0 db) = Ok st) in Hloop.
  pose proof (char_loop_apply _ _ Hloop) as Hw.
  cbn [st0 char_conn connect working] in Hw.
  assert (Hsim : forall d dry_run,
             tbl focus_scenarios d = tbl focus_scenarios db ->
             exists s2,
               for_each (char_body dry_run) items (st0 d) = Ok s2 /\
               char_updated s2 = char_updated st /\
               char_out s2 = char_out st /\
               char_updated st =
               Z.of_nat (List.length
                           (flat_map (char_row_of (tbl focus_scenarios db))
                                     items))).
  { intros d dry_run Hd.
    destruct (@for_each_sim _ _ _ _ (char_sim (tbl focus_scenarios db))
                char_updated (char_row_of (tbl focus_scenarios db))
                (char_body false) (char_body dry_run)
                (fun a b i a' Hab Hb =>
                   @char_body_sim (tbl focus_scenarios db) dry_run
                                  a b a' i Hab Hb)
                items (st0 db) (st0 d) st)
      as (s2 & Hs2 & (_ & _ & Hu & Ho) & Hc); [|exact Hloop|].
    - repeat split; try reflexivity. exact Hd.
    - exists s2. cbn [st0 char_updated] in Hc. rewrite Z.add_0_l in Hc. auto. }
  exists (flat_map (char_row_of (tbl focus_scenarios db)) items), (char_out st).
  split; [exact Hw|].
  destruct (Hsim db true eq_refl) as (sd & Hd & Hud & Hod & Hcount).
  split; [now rewrite Hcount|].
  split.
  - cbv beta delta [st0] in Hd. rewrite Hd. apply char_loop_committed in Hd.
    cbn [negb close st0 char_conn connect committed] in *.
    unfold close. now rewrite Hd, Hud, Hod, Hcount.
  - assert (Hfs : tbl focus_scenarios (working (char_conn st)) =
                  tbl focus_scenarios db).
    { rewrite Hw. unfold characteristics_written.
      now apply tbl_upsert_all_other. }
    destruct (Hsim (working (char_conn st)) false Hfs)
      as (s2 & Hs2 & Hu2 & Ho2 & _).
    cbv beta delta [st0] in Hs2. rewrite Hs2. eexists.
    now rewrite Hu2, Ho2.
Qed.

(** The same for [import_irrigation]: the number printed is the number
    of [INSERT OR REPLACE] statements run; when the run with [--apply]
    returns, the preview and a second run with [--apply] return and print
    the same lines. *)
Theorem irrigation_report_counts_the_upserts
        (file : option json) (db db' : Database) (out : list event) :
  import_irrigation file db false = Returned db' out ->
  exists rows pre post,
    db' = upsert_all focus_crop_scenario_irrigation rows db /\
    out = pre ++
      [print "focus_crop_scenario_irrigation: {inserted} rows {'would be ' if dry_run else ''}upserted"
             [AInt (Z.of_nat (List.length rows)); ABool false]] ++ post /\
    import_irrigation file db true =
      Returned db
        (pre ++
         [print "focus_crop_scenario_irrigation: {inserted} rows {'would be ' if dry_run else ''}upserted"
                [AInt (Z.of_nat (List.length rows)); ABool true]] ++ post) /\
    exists db'', import_irrigation file db' false = Returned db'' out.
Proof.
  unfold import_irrigation.
  destruct file as [data|]; [|discriminate].
  destruct (first_array data "irrigation" "items") as [sc|]; [|discriminate].
  destruct (negb (truthy sc)); [discriminate|].
  destruct (py_iter sc) as [items|]; cbn [bind]; [|discriminate].
  destruct (for_each (irr_body false) items _) as [st|] eqn:Hloop;
    [|discriminate].
  cbn [negb close commit committed]. intros H. inversion H; subst; clear H.
  set (st0 := fun d : Database =>
                {| irr_conn := connect d; irr_inserted := 0;
                   irr_skipped := []; irr_out := [] |}) in *.
  change (for_each (irr_body false) items (st0 db) = Ok st) in Hloop.
  pose proof (irr_loop_apply _ _ Hloop) as Hw.
  cbn [st0 irr_conn connect working] in Hw.
  set (tables := (tbl focus_scenarios db, tbl focus_crops db)) in *.
  assert (Hsim : forall d dry_run,
             tbl focus_scenarios d = tbl focus_scenarios db ->
             tbl focus_crops d = tbl focus_crops db ->
             exists s2,
               for_each (irr_body dry_run) items (st0 d) = Ok s2 /\
               irr_inserted s2 = irr_inserted st /\
               irr_skipped s2 = irr_skipped st /\
               irr_out s2 = irr_out st /\
               irr_inserted st =
               Z.of_nat (List.length (flat_map (irr_row_of tables) items))).
  { intros d dry_run Hd Hd'.
    destruct (@for_each_sim _ _ _ _ (irr_sim tables)
                irr_inserted (irr_row_of tables)
                (irr_body false) (irr_body dry_run)
                (fun a b i a' Hab Hb =>
                   @irr_body_sim tables dry_run a b a' i Hab Hb)
                items (st0 db) (st0 d) st)
      as (s2 & Hs2 & (_ & _ & _ & _ & Hi & Hs & Ho) & Hc); [|exact Hloop|].
    - repeat split; try reflexivity; assumption.
    - exists s2. cbn [st0 irr_inserted] in Hc. rewrite Z.add_0_l in Hc.
      auto. }
  exists (flat_map (irr_row_of tables) items), (irr_out st),
    (match irr_skipped st with
     | [] => []
     | _ :: _ =>
         [print "  Skipped {len(skipped)} (scenario or crop not found): e.g. {skipped[:5]}"
                [AInt (Z.of_nat (List.length (irr_skipped st)));
                 AList (map pair_arg (firstn 5 (irr_skipped st)))]]
     end).
  split; [exact Hw|].
  destruct (Hsim db true eq_refl eq_refl) as (sd & Hd & Hid & Hsd & Hod & Hcount).
  split.
  { rewrite <- Hcount. destruct (irr_skipped st);
      [now rewrite app_nil_r | now rewrite <- app_assoc]. }
  split.
  - cbv beta delta [st0] in Hd. rewrite Hd. apply irr_loop_committed in Hd.
    cbn [negb st0 irr_conn connect committed] in *.
    unfold close. rewrite Hd, Hid, Hsd, Hod, <- Hcount.
    destruct (irr_skipped st);
      [now rewrite app_nil_r | now rewrite <- app_assoc].
  - assert (Hfs : tbl focus_scenarios (working (irr_conn st)) =
                  tbl focus_scenarios db /\
                  tbl focus_crops (working (irr_conn st)) =
                  tbl focus_crops db).
    { rewrite Hw. unfold irrigation_written.
      now rewrite !tbl_upsert_all_other. }
    destruct Hfs as [Hfs Hfc].
    destruct (Hsim (working (irr_conn st)) false Hfs Hfc)
      as (s2 & Hs2 & Hi2 & Hsk2 & Ho2 & _).
    cbv beta delta [st0] in Hs2. rewrite Hs2. eexists.
    now rewrite Hi2, Hsk2, Ho2.
Qed.

(** The number that [import_links] prints is the number of
    [INSERT OR IGNORE] statements that it runs, not the number of rows that
    are new.  When the run with [--apply] returns, the preview returns and
    reports the same number and the same skipped lookups, and so does a
    second run with [--apply]. *)
Theorem links_report_counts_the_statements
        (file : option json) (db db' : Database) (out : list event) :
  import_links file db false = Returned db' out ->
  exists rows st,
    db' = insert_all_or_ignore focus_crop_scenario_links rows db /\
    links_inserted st = Z.of_nat (List.length rows) /\
    out = links_report false st /\
    import_links file db true = Returned db (links_report true st) /\
    exists db'', import_links file db' false = Returned db'' out.
Proof.
  unfold import_links.
  destruct file as [data|]; [|discriminate].
  destruct (bind _ _) as [its|]; [|discriminate].
  destruct (negb (truthy its)); [discriminate|].
  destruct (py_iter its) as [items|]; cbn [bind]; [|discriminate].
  destruct (for_each (links_row_body false) items _) as [st|] eqn:Hloop;
    [|discriminate].
  cbn [negb close commit committed]. intros H. inversion H; subst; clear H.
  set (st0 := fun d : Database =>
                {| links_conn := connect d; links_inserted := 0;
                   links_skipped := [] |}) in *.
  change (for_each (links_row_body false) items (st0 db) = Ok st) in Hloop.
  pose proof (links_loop_apply _ _ Hloop) as Hw.
  cbn [st0 links_conn connect working] in Hw.
  set (tables := (tbl focus_crops db, tbl focus_scenarios db)) in *.
  assert (Hsim : forall d dry_run,
             tbl focus_crops d = tbl focus_crops db ->
             tbl focus_scenarios d = tbl focus_scenarios db ->
             exists s2,
               for_each (links_row_body dry_run) items (st0 d) = Ok s2 /\
               links_inserted s2 = links_inserted st /\
               links_skipped s2 = links_skipped st /\
               links_inserted st =
               Z.of_nat (List.length (flat_map (links_rows_of tables) items))).
  { intros d dry_run Hd Hd'.
    destruct (@for_each_sim _ _ _ _ (links_sim tables)
                links_inserted (links_rows_of tables)
                (links_row_body false) (links_row_body dry_run)
                (fun a b i a' Hab Hb =>
                   @links_row_body_sim tables dry_run a b a' i Hab Hb)
                items (st0 db) (st0 d) st)
      as (s2 & Hs2 & (_ & _ & _ & _ & Hi & Hs) & Hc); [|exact Hloop|].
    - repeat split; try reflexivity; assumption.
    - exists s2. cbn [st0 links_inserted] in Hc. rewrite Z.add_0_l in Hc.
      auto. }
  assert (Hreport : forall dry_run s2,
             links_inserted s2 = links_inserted st ->
             links_skipped s2 = links_skipped st ->
             links_report dry_run s2 = links_report dry_run st).
  { intros dry_run s2 Hi Hs. unfold links_report. now rewrite Hi, Hs. }
  exists (flat_map (links_rows_of tables) items), st.
  split; [exact Hw|].
  destruct (Hsim db true eq_refl eq_refl) as (sd & Hd & Hid & Hsd & Hcount).
  split; [exact Hcount|]. split; [reflexivity|].
  split.
  - cbv beta delta [st0] in Hd. rewrite Hd. apply links_loop_committed in Hd.
    cbn [negb st0 links_conn connect committed] in *.
    unfold close. now rewrite Hd, (Hreport true sd Hid Hsd).
  - assert (Hfs : tbl focus_crops (working (links_conn st)) =
                  tbl focus_crops db /\
                  tbl focus_scenarios (working (links_conn st)) =
                  tbl focus_scenarios db).
    { rewrite Hw. unfold links_written.
      now rewrite !tbl_insert_all_or_ignore_other. }
    destruct Hfs as [Hfc Hfs].
    destruct (Hsim (working (links_conn st)) false Hfc Hfs)
      as (s2 & Hs2 & Hi2 & Hsk2 & _).
    cbv beta delta [st0] in Hs2. rewrite Hs2. eexists.
    now rewrite (Hreport false s2 Hi2 Hsk2).
Qed.

(** A loop that counts what a plan tells, the plan being made from a view
    of the state that the loop does not change. *)
Lemma for_each_count {S I V W : Type} (body : S -> I -> result S)
      (view : S -> V) (c : S -> Z) (plan : V -> I -> list W) :
  (forall st i st',
      body st i = Ok st' ->
      view st' = view st /\
      c st' = c st + Z.of_nat (List.length (plan (view st) i))) ->
  forall items st st',
    for_each body items st = Ok st' ->
    view st' = view st /\
    c st' = c st + Z.of_nat (List.length (flat_map (plan (view st)) items)).
Proof.
  intros Hbody items.
  induction items as [|i items IH]; intros st st' H.
  - simpl in H. inversion H; subst. simpl. split; [reflexivity | lia].
  - cbn [for_each] in H.
    destruct (body st i) as [st1|] eqn:Hb; [|discriminate].
    destruct (Hbody _ _ _ Hb) as [Hv Hc].
    destruct (IH _ _ H) as [Hv' Hc'].
    cbn [flat_map]. rewrite length_app. rewrite Hv in Hv', Hc'.
    split; [exact Hv' | lia].
Qed.

Lemma swash_crop_body_count (dry_run : bool) (st st' : swash_crops_state)
      (r : csv_row) :
  swash_crop_body dry_run st r = Ok st' ->
  crop_keys (tbl focus_crops (working (sc_conn st'))) =
  crop_keys (tbl focus_crops (working (sc_conn st))) /\
  sc_updated_crops st' =
  sc_updated_crops st +
  Z.of_nat (List.length
              (if dry_run then []
               else crop_update_of
                      (crop_keys (tbl focus_crops (working (sc_conn st))))
                      r)).
Proof.
  assert (Hsame : swash_crop_body dry_run st r = Ok st ->
                  dry_run = true ->
                  crop_keys (tbl focus_crops (working (sc_conn st))) =
                  crop_keys (tbl focus_crops (working (sc_conn st))) /\
                  sc_updated_crops st = sc_updated_crops st + Z.of_nat 0).
  { intros _ _. split; [reflexivity | lia]. }
  pose proof (crop_update_of_keys
                (crop_keys (tbl focus_crops (working (sc_conn st)))) r)
    as Hkeys.
  revert Hkeys.
  unfold swash_crop_body, crop_update_of, select_one.
  destruct (csv_field _ _) as [name|]; cbn [bind]; [|discriminate].
  destruct (Str.is_empty name).
  { intros _ H. inversion H; subst.
    split; [reflexivity | destruct dry_run; simpl; lia]. }
  pose proof (find_crop_keys name (tbl focus_crops (working (sc_conn st))))
    as Hf.
  destruct (find (crop_named name) _) as [fc|];
    destruct (find (fun p => _) _) as [p|]; try discriminate Hf.
  2:{ intros _ H. inversion H. cbn [sc_conn sc_updated_crops].
      split; [reflexivity | destruct dry_run; simpl; lia]. }
  cbn [option_map] in Hf. inversion Hf as [Hid].
  destruct (crop_updates r) as [updates|]; cbn [bind]; [|discriminate].
  destruct updates as [|u updates].
  { intros _ H. inversion H; subst.
    split; [reflexivity | destruct dry_run; simpl; lia]. }
  destruct dry_run; cbn [negb].
  { intros _ H. inversion H; subst. split; [reflexivity | simpl; lia]. }
  destruct (bind_all (u :: updates)) as [params|]; cbn [bind];
    [|discriminate].
  intros Hkeys H. inversion H.
  cbn [sc_conn sc_updated_crops working execute List.length].
  split; [|lia].
  change (update focus_crops params (focus_crop_is (col fc "focus_crop_id"))
                 (working (sc_conn st)))
    with (apply_updates [(col fc "focus_crop_id", params)]
                        (working (sc_conn st))).
  apply crop_keys_apply_updates.
  inversion Hkeys as [|? ? Hp _]; subst. cbn [snd] in Hp.
  constructor; [exact Hp | constructor].
Qed.

Lemma swash_link_body_count (dry_run : bool) (st st' : swash_links_state)
      (r : csv_row) :
  swash_link_body dry_run st r = Ok st' ->
  (tbl focus_crops (working (sl_conn st')),
   tbl focus_scenarios (working (sl_conn st'))) =
  (tbl focus_crops (working (sl_conn st)),
   tbl focus_scenarios (working (sl_conn st))) /\
  sl_inserted st' =
  sl_inserted st +
  Z.of_nat (List.length
              (if dry_run then []
               else swash_link_row_of
                      (tbl focus_crops (working (sl_conn st)),
                       tbl focus_scenarios (working (sl_conn st))) r)).
Proof.
  unfold swash_link_body, swash_link_row_of, select_one.
  destruct (csv_field r (mapped SWASH_CS_COLS "crop_name")) as [crop_name|];
    cbn [bind]; [|discriminate].
  destruct (csv_field r (mapped SWASH_CS_COLS "scenario")) as [scen_code|];
    cbn [bind]; [|discriminate].
  destruct (csv_field r (mapped SWASH_CS_COLS "waterbody")) as [waterbody|];
    cbn [bind]; [|discriminate].
  destruct (is_default_of r) as [is_default|]; cbn [bind]; [|discriminate].
  destruct (find (crop_named crop_name) _) as [fc_row|].
  2:{ intros H. inversion H. cbn [sl_conn sl_inserted].
      split; [reflexivity | destruct dry_run; simpl; lia]. }
  destruct (find (scenario_coded scen_code) _) as [sc_row|].
  2:{ intros H. inversion H. cbn [sl_conn sl_inserted].
      split; [reflexivity | destruct dry_run; simpl; lia]. }
  destruct dry_run; cbn [negb].
  { intros H. inversion H; subst. split; [reflexivity | simpl; lia]. }
  destruct (bind_int is_default) as [d|]; cbn [bind]; [|discriminate].
  destruct (execute_insert _ _ _ _) as [conn|] eqn:He; cbn [bind];
    [|discriminate].
  intros H. inversion H. cbn [sl_conn sl_inserted List.length].
  apply execute_insert_working in He. destruct He as [-> _].
  rewrite !tbl_insert_or_ignore_other by reflexivity.
  split; [reflexivity | lia].
Qed.

(** The two numbers that the SWASH importer prints are the numbers of
    [UPDATE] and of [INSERT OR IGNORE] statements that it has run.  In a
    preview it runs none: the preview always reports 0 rows updated and 0
    rows inserted, whatever a run with [--apply] would do. *)
Theorem swash_report_counts_the_statements
        (crop_rows cs_rows : list csv_row) (db db' : Database)
        (dry_run : bool) (out : list event) :
  import_from_csv (Some crop_rows) (Some cs_rows) db dry_run =
  Returned db' out ->
  exists s1 s2 updates rows,
    out = swash_report crop_rows cs_rows s1 s2 dry_run /\
    db' = insert_all_or_ignore focus_crop_scenario_links rows
            (apply_updates updates db) /\
    sc_updated_crops s1 = Z.of_nat (List.length updates) /\
    sl_inserted s2 = Z.of_nat (List.length rows) /\
    (dry_run = true -> updates = [] /\ rows = []).
Proof.
  intros H. pose proof H as Hrun. unfold import_from_csv in H.
  destruct (for_each (swash_crop_body dry_run) crop_rows _) as [s1|] eqn:H1;
    cbn [bind] in H; [|discriminate].
  destruct (for_each (swash_link_body dry_run) cs_rows _) as [s2|] eqn:H2;
    cbn [bind] in H; [|discriminate].
  inversion H; subst; clear H.
  pose proof (for_each_count (swash_crop_body dry_run)
                (fun s => crop_keys (tbl focus_crops (working (sc_conn s))))
                sc_updated_crops
                (fun keys r => if dry_run then [] else crop_update_of keys r)
                (fun st i st' Hb => @swash_crop_body_count dry_run st st' i Hb)
                _ _ H1) as [_ Hc1].
  pose proof (for_each_count (swash_link_body dry_run)
                (fun s => (tbl focus_crops (working (sl_conn s)),
                           tbl focus_scenarios (working (sl_conn s))))
                sl_inserted
                (fun tables r =>
                   if dry_run then [] else swash_link_row_of tables r)
                (fun st i st' Hb => @swash_link_body_count dry_run st st' i Hb)
                _ _ H2) as [_ Hc2].
  cbn [sc_conn sc_updated_crops sl_conn sl_inserted connect working] in Hc1, Hc2.
  rewrite Z.add_0_l in Hc1, Hc2.
  destruct dry_run.
  - exists s1, s2, [], [].
    split; [reflexivity|]. split.
    + pose proof (import_from_csv_preview (Some crop_rows) (Some cs_rows) db)
        as Hp.
      rewrite Hrun in Hp. exact Hp.
    + assert (Hnil : forall (A B : Type) (l : list A),
                 flat_map (fun _ : A => @nil B) l = []).
      { intros A B l. induction l; simpl; auto. }
      rewrite Hnil in Hc1, Hc2. auto.
  - exists s1, s2,
      (flat_map (crop_update_of (crop_keys (tbl focus_crops db))) crop_rows),
      (flat_map (swash_link_row_of
                   (tbl focus_crops (working (sc_conn s1)),
                    tbl focus_scenarios (working (sc_conn s1)))) cs_rows).
    split; [reflexivity|].
    apply swash_crops_loop_apply in H1. apply swash_links_loop_apply in H2.
    cbn [sc_conn sl_conn connect working negb close commit committed]
      in H1, H2 |- *.
    split; [|split; [exact Hc1 | split; [exact Hc2 | discriminate]]].
    rewrite H2. unfold swash_links_written. rewrite H1. reflexivity.
Qed.

(** ** More on the EPPO verifier *)

Lemma check_body_counts (api : eppo_api) (st st' : verify_state) (r : row) :
  check_body api st r = Ok st' ->
  List.length (v_issues st') =
    (List.length (v_issues st) + List.length (queued api (v_index st) r)
     + List.length (failed api (v_index st) r))%nat /\
  List.length (v_out st') = (List.length (v_out st) + 2)%nat.
Proof.
  unfold check_body, queued, failed.
  destruct (compare_names api (v_index st) r) as [c|e] eqn:Hc;
    cbn [bind try_except].
  - destruct c as [[[new_name new_sci] eppo_id]|]; intros H; inversion H;
      cbn [v_issues v_out]; rewrite !length_app; simpl; lia.
  - rewrite (compare_names_raises _ _ _ Hc). intros H; inversion H.
    cbn [v_issues v_out]. rewrite !length_app. simpl. lia.
Qed.

(** The loop of the verifier prints two pieces for every row, the code
    that it checks and the status; the issues that the summary counts are
    the corrections queued and the rows for which the [try] block raised,
    and nothing else. *)
Theorem verifier_issues_are_mismatches_and_failures
        (api : eppo_api) (rows : list row) (st : verify_state) :
  exists st',
    for_each (check_body api) rows st = Ok st' /\
    List.length (v_issues st') =
      (List.length (v_issues st)
       + List.length (queued_all api (v_index st) rows)
       + List.length (failed_all api (v_index st) rows))%nat /\
    v_index st' = (v_index st + List.length rows)%nat /\
    List.length (v_out st') =
      (List.length (v_out st) + 2 * List.length rows)%nat.
Proof.
  revert st. induction rows as [|r rows IH]; intros st.
  - exists st. simpl. repeat split; lia.
  - destruct (check_body_total api st r) as [st1 Hb].
    destruct (IH st1) as (st' & Hloop & Hi & Hn & Ho).
    exists st'. cbn [for_each]. rewrite Hb. split; [exact Hloop|].
    destruct (check_body_counts _ _ _ Hb) as [Hi1 Ho1].
    apply check_body_updates in Hb. destruct Hb as [_ Hn1].
    rewrite Hn1 in *. cbn [queued_all failed_all List.length].
    rewrite !length_app. repeat split; lia.
Qed.

(** The search for the preferred English name stops at the first entry
    that is English and preferred: what comes after it in the answer of
    the service is not looked at, and need not even be well formed.  When
    no entry is English and preferred, the search gives [None]. *)
Theorem find_pref_name_is_the_first_preferred
        (before after : list json) (n : json) :
  Forall (fun m => is_dict m = true /\ preferred_en m = false) before ->
  (preferred_en n = true ->
   find_pref_name (before ++ n :: after) = get n "fullname") /\
  find_pref_name before = Ok JNull.
Proof.
  intros Hb. induction Hb as [|m before [Hd Hp] _ IH].
  - split; [|reflexivity]. cbn [app find_pref_name]. unfold preferred_en.
    destruct (get n "langiso") as [lang|]; [|discriminate].
    destruct (get n "preferred") as [pref|]; [|discriminate].
    cbn [bind]. intros H. apply andb_true_iff in H. destruct H as [-> ->].
    reflexivity.
  - destruct IH as [IH1 IH2].
    destruct m as [| | | | | |d]; try discriminate Hd.
    unfold preferred_en in Hp. cbn [get] in Hp.
    cbn [app find_pref_name get bind].
    destruct (is_en _); [|auto].
    cbn [andb] in Hp. rewrite Hp. auto.
Qed.

Lemma apply_loop_total (updates : list correction) :
  Forall bindable_name updates ->
  forall conn, exists conn', for_each apply_body updates conn = Ok conn'.
Proof.
  induction 1 as [|[[new_name new_sci] eppo_id] updates Hu _ IH];
    intros conn; [simpl; eauto|].
  cbn [for_each]. unfold apply_body at 1. unfold bindable_name in Hu.
  cbn [fst snd] in Hu.
  destruct (truthy new_sci); [|apply IH].
  destruct (Hu eq_refl) as [v ->]. cbn [bind]. apply IH.
Qed.

(** The verifier returns whatever the service answers, unless a queued
    correction carries a scientific name that cannot be bound to the
    [UPDATE] (a list, an object, an integer beyond 64 bits); a preview
    always returns. *)
Theorem verifier_returns_unless_a_name_cannot_be_bound
        (has_requests : bool) (api : eppo_api) (db : Database)
        (dry_run : bool) :
  dry_run = true \/
  Forall bindable_name (queued_all api 0 (joined_rows db)) ->
  exists db' out,
    verify_codes has_requests api db dry_run = Returned db' out.
Proof.
  intros H. unfold verify_codes.
  destruct has_requests; cbn [negb]; [|eauto].
  destruct (for_each_total (check_body api) (check_body_total api)
              (joined_rows (working (connect db)))
              {| v_index := O; v_issues := []; v_updates := [];
                 v_out := [] |}) as [st Hloop].
  rewrite Hloop.
  apply check_loop_updates in Hloop.
  cbn [v_updates v_index app working connect] in Hloop.
  destruct (v_updates st) as [|u us] eqn:Hu; [eauto|].
  destruct dry_run; cbn [negb]; [eauto|].
  destruct H as [H | H]; [discriminate|].
  rewrite <- Hloop in H.
  destruct (apply_loop_total H (connect db)) as [conn' Hc].
  rewrite Hc. eauto.
Qed.

(** ** References between the tables *)

Lemma refers_to_found (f : row -> bool) (parent : table) (found : row)
      (key : string) (r : row) :
  find f parent = Some found -> col r key = col found key ->
  refers_to parent key r.
Proof.
  intros Hf Hc. apply find_some in Hf. exists found. tauto.
Qed.

Lemma characteristics_row_id (scenario_id : value) (code : string)
      (s lat lon : json) (r : row) :
  characteristics_row scenario_id code s lat lon = Ok r ->
  col r "scenario_id" = scenario_id.
Proof. unfold characteristics_row. intros H. inv_ok. reflexivity. Qed.

Lemma char_row_of_refers (scenarios : table) (s : json) :
  Forall (refers_to scenarios "scenario_id") (char_row_of scenarios s).
Proof.
  unfold char_row_of.
  destruct (get_stripped s "scenario_code") as [code|]; [|constructor].
  destruct (Str.is_empty code); [constructor|].
  destruct (find _ scenarios) as [found|] eqn:Hf; [|constructor].
  destruct (bind _ _) as [r|] eqn:Hr; [|constructor].
  constructor; [|constructor].
  eapply refers_to_found; [exact Hf|].
  destruct (get s "latitude_deg"); cbn [bind] in Hr; [|discriminate].
  destruct (get s "longitude_deg"); cbn [bind] in Hr; [|discriminate].
  eapply characteristics_row_id. exact Hr.
Qed.

Lemma irr_row_of_refers (tables : table * table) (r : json) :
  Forall (fun w => refers_to (fst tables) "scenario_id" w /\
                   refers_to (snd tables) "focus_crop_id" w)
         (irr_row_of tables r).
Proof.
  destruct tables as [scenarios crop_table]. unfold irr_row_of. cbn [fst snd].
  destruct (get_stripped r "scenario_code") as [code|]; [|constructor].
  destruct (get_stripped r "crop") as [crop|]; [|constructor].
  destruct (get r "irrigation_mm_annual") as [mm|]; [|constructor].
  destruct (_ || _); [constructor|].
  destruct (find _ scenarios) as [sc|] eqn:Hs; [|constructor].
  destruct (find _ crop_table) as [fc|] eqn:Hc; [|constructor].
  destruct (py_float mm); constructor; [|constructor].
  split; eapply refers_to_found; eauto.
Qed.

Lemma Forall_flat_map_of {A B : Type} (P : B -> Prop) (f : A -> list B)
      (l : list A) :
  (forall a, Forall P (f a)) -> Forall P (flat_map f l).
Proof.
  intros H. induction l as [|a l IH]; simpl; [constructor|].
  apply Forall_app. auto.
Qed.

Lemma links_rows_of_refers (tables : table * table) (item : json) :
  Forall (fun w => refers_to (fst tables) "focus_crop_id" w /\
                   refers_to (snd tables) "scenario_id" w)
         (links_rows_of tables item).
Proof.
  destruct tables as [crop_table scenarios]. unfold links_rows_of.
  cbn [fst snd].
  destruct (get_stripped item "crop") as [crop_name|]; [|constructor].
  destruct (get item "scenarios") as [scs|]; [|constructor].
  destruct (_ || _); [constructor|].
  destruct (find _ crop_table) as [fc|] eqn:Hc; [|constructor].
  destruct (py_iter _) as [codes|]; [|constructor].
  apply Forall_flat_map_of. intros j. unfold link_row_of.
  destruct (strip_of j) as [code|]; [|constructor].
  destruct (find _ scenarios) as [sc|] eqn:Hs; constructor; [|constructor].
  split; eapply refers_to_found; eauto.
Qed.

Lemma interception_rows_refer (crop_table : table)
      (data : list (string * list stage)) :
  Forall (refers_to crop_table "focus_crop_id")
         (interception_rows crop_table data).
Proof.
  unfold interception_rows. apply Forall_flat_map_of. intros [name stages].
  cbn [fst snd].
  destruct (find _ crop_table) as [fc|] eqn:Hc; [|constructor].
  unfold filled_rows. apply Forall_flat_map_of. intros [[bbch pct] source].
  destruct pct; constructor; [|constructor].
  eapply refers_to_found; eauto.
Qed.

Lemma swash_link_row_of_refers (tables : table * table) (r : csv_row) :
  Forall (fun w => refers_to (fst tables) "focus_crop_id" w /\
                   refers_to (snd tables) "scenario_id" w)
         (swash_link_row_of tables r).
Proof.
  destruct tables as [crop_table scenarios]. unfold swash_link_row_of.
  cbn [fst snd].
  destruct (csv_field r (mapped SWASH_CS_COLS "crop_name")); [|constructor].
  destruct (csv_field r (mapped SWASH_CS_COLS "scenario")); [|constructor].
  destruct (csv_field r (mapped SWASH_CS_COLS "waterbody")); [|constructor].
  destruct (is_default_of r); [|constructor].
  destruct (find _ crop_table) as [fc|] eqn:Hc; [|constructor].
  destruct (find _ scenarios) as [sc|] eqn:Hs; [|constructor].
  destruct (bind_int _); constructor; [|constructor].
  split; eapply refers_to_found; eauto.
Qed.

Lemma ignore_fold_In (t : table_name) (rows : list row) :
  forall tb x,
    In x (fold_left (ignore_into t) rows tb) -> In x tb \/ In x rows.
Proof.
  induction rows as [|r rows IH]; intros tb x H.
  - now left.
  - cbn [fold_left] in H. apply IH in H. destruct H as [H | H].
    + unfold ignore_into in H. destruct (existsb _ _); [now left|].
      apply in_app_or in H. destruct H as [H | [<- | []]];
        [now left | right; now left].
    + right. now right.
Qed.

Lemma new_rows_refl (t : table_name) (db : Database) (P : row -> Prop) :
  new_rows t db db P.
Proof. intros r H. now left. Qed.

Lemma new_rows_upsert_all (t : table_name) (rows : list row) (db : Database)
      (P : row -> Prop) :
  Forall P rows -> new_rows t db (upsert_all t rows db) P.
Proof.
  intros HP r H. rewrite tbl_upsert_all_same in H.
  apply replace_fold_In in H. rewrite Forall_forall in HP.
  destruct H as [H | H]; [now left | right; auto].
Qed.

Lemma new_rows_insert_all (t : table_name) (rows : list row)
      (db db1 : Database) (P : row -> Prop) :
  tbl t db1 = tbl t db ->
  Forall P rows -> new_rows t db (insert_all_or_ignore t rows db1) P.
Proof.
  intros Ht HP r H. rewrite tbl_insert_all_or_ignore_same, Ht in H.
  apply ignore_fold_In in H. rewrite Forall_forall in HP.
  destruct H as [H | H]; [now left | right; auto].
Qed.

Lemma new_rows_of_cases (o : outcome) (db W : Database) (t : table_name)
      (P : row -> Prop) :
  db_after o = db \/ db_after o = W ->
  new_rows t db W P -> new_rows t db (db_after o) P.
Proof. intros [-> | ->] H; [apply new_rows_refl | exact H]. Qed.

Lemma refers_to_row_updates (us : list (value * list (string * value)))
      (crop_table : table) (r : row) :
  Forall (fun u => assigns_parameters (snd u)) us ->
  refers_to (map (row_updates us) crop_table) "focus_crop_id" r ->
  refers_to crop_table "focus_crop_id" r.
Proof.
  intros Hus (p & Hin & Hc). apply in_map_iff in Hin.
  destruct Hin as (p0 & <- & Hin). exists p0. split; [exact Hin|].
  rewrite Hc. apply (col_row_updates Hus). now left.
Qed.

(** The rows that the importers add point to rows that exist: a row that
    is in a table after a run, and was not there before, has the
    [scenario_id] of a row of [focus_scenarios] and the [focus_crop_id] of
    a row of [focus_crops], as far as its table has these columns. *)
Theorem new_rows_point_to_existing_rows (db : Database) (dry_run : bool) :
  (forall file,
      new_rows focus_sw_scenario_characteristics db
        (db_after (import_characteristics file db dry_run))
        (refers_to (tbl focus_scenarios db) "scenario_id"))
  /\ (forall file,
         new_rows focus_crop_scenario_irrigation db
           (db_after (import_irrigation file db dry_run))
           (fun r => refers_to (tbl focus_scenarios db) "scenario_id" r /\
                     refers_to (tbl focus_crops db) "focus_crop_id" r))
  /\ (forall file,
         new_rows focus_crop_scenario_links db
           (db_after (import_links file db dry_run))
           (fun r => refers_to (tbl focus_crops db) "focus_crop_id" r /\
                     refers_to (tbl focus_scenarios db) "scenario_id" r))
  /\ (forall data,
         new_rows focus_crop_interception db
           (db_after (import_interception_with data db dry_run))
           (refers_to (tbl focus_crops db) "focus_crop_id"))
  /\ (forall crop_csv cs_csv,
         new_rows focus_crop_scenario_links db
           (db_after (import_from_csv crop_csv cs_csv db dry_run))
           (fun r => refers_to (tbl focus_crops db) "focus_crop_id" r /\
                     refers_to (tbl focus_scenarios db) "scenario_id" r)).
Proof.
  split.
  { intros file. destruct dry_run;
      [rewrite import_characteristics_preview; apply new_rows_refl|].
    destruct (import_characteristics_apply file) as [items H].
    eapply new_rows_of_cases; [eapply returned_or_not; apply H|].
    apply new_rows_upsert_all. apply Forall_flat_map_of.
    apply char_row_of_refers. }
  split.
  { intros file. destruct dry_run;
      [rewrite import_irrigation_preview; apply new_rows_refl|].
    destruct (import_irrigation_apply file) as [items H].
    eapply new_rows_of_cases; [eapply returned_or_not; apply H|].
    apply new_rows_upsert_all. apply Forall_flat_map_of. intros j.
    apply (irr_row_of_refers (tbl focus_scenarios db, tbl focus_crops db)). }
  split.
  { intros file. destruct dry_run;
      [rewrite import_links_preview; apply new_rows_refl|].
    destruct (import_links_apply file) as [items H].
    eapply new_rows_of_cases; [apply H|].
    apply new_rows_insert_all; [reflexivity|]. apply Forall_flat_map_of.
    intros j.
    apply (links_rows_of_refers (tbl focus_crops db, tbl focus_scenarios db)). }
  split.
  { intros data. destruct dry_run;
      [rewrite import_interception_preview; apply new_rows_refl|].
    eapply new_rows_of_cases; [apply import_interception_apply|].
    apply new_rows_upsert_all. apply interception_rows_refer. }
  intros crop_csv cs_csv. destruct dry_run;
    [rewrite import_from_csv_preview; apply new_rows_refl|].
  destruct (import_from_csv_apply crop_csv cs_csv) as (c & s & H).
  eapply new_rows_of_cases; [apply H|].
  unfold swash_written, swash_links_written.
  apply new_rows_insert_all.
  { unfold swash_crops_written. now apply tbl_apply_updates_other. }
  apply Forall_flat_map_of. intros j.
  pose proof (swash_link_row_of_refers
                (tbl focus_crops (swash_crops_written c db),
                 tbl focus_scenarios (swash_crops_written c db)) j) as Hj.
  cbn [fst snd] in Hj. revert Hj. apply Forall_impl. intros w [Hc Hs].
  unfold swash_crops_written in Hc, Hs.
  rewrite tbl_apply_updates_other in Hs by reflexivity.
  rewrite apply_updates_table, tbl_set_tbl_same in Hc.
  split; [|exact Hs].
  eapply refers_to_row_updates; [|exact Hc]. apply crop_updates_all_keys.
Qed.

(** ** The scenarios of a crop, given as one string *)

(** [import_links] reads a string of scenario codes as the list of its
    pieces between commas, stripped, the empty ones left out: no piece is
    empty, has white space around it or holds a comma; and a list of such
    codes that is written with [", "] between them is read back as it
    was. *)
Theorem split_scenarios_reads_clean_codes :
  (forall s,
      Forall (fun j => exists w, j = JStr w /\ clean_code w)
             (split_scenarios s))
  /\ (forall codes,
         Forall clean_code codes ->
         split_scenarios (String.concat ", " codes) = map JStr codes).
Proof.
  split.
  - intros s. unfold split_scenarios. apply Forall_forall. intros j Hj.
    apply in_map_iff in Hj. destruct Hj as (w & <- & Hw).
    apply filter_In in Hw. destruct Hw as [Hw Hne].
    apply in_map_iff in Hw. destruct Hw as (w0 & <- & Hw0).
    exists (Str.strip w0). split; [reflexivity|].
    split; [|split].
    + destruct (Str.strip w0); [discriminate Hne | discriminate].
    + apply strip_idem.
    + apply has_char_strip.
      pose proof (split_no_sep "," s) as Hall.
      rewrite Forall_forall in Hall. now apply Hall.
  - intros codes Hc. unfold split_scenarios. rewrite (split_concat Hc).
    destruct codes as [|w ws]; [reflexivity|]. f_equal.
    induction Hc as [|x xs (Hne & _) _ IH]; [reflexivity|].
    simpl. destruct x; [congruence|]. simpl. now rewrite IH.
Qed.

Lemma parse_loop_crop_id (unknown_crop_id : value) (primo_version : string)
      (items : list (Z * list cell)) (st st' : primo_parse) :
  Forall (fun r => col r "crop_id" = unknown_crop_id)
         (reg396_rows st ++ primo_rows st) ->
  for_each (parse_body unknown_crop_id primo_version) items st = Ok st' ->
  Forall (fun r => col r "crop_id" = unknown_crop_id)
         (reg396_rows st' ++ primo_rows st').
Proof.
  apply (for_each_invariant
           (fun s => Forall (fun r => col r "crop_id" = unknown_crop_id)
                            (reg396_rows s ++ primo_rows s))).
  intros s i s' HP Hb. apply parse_body_step in Hb.
  destruct Hb as [-> | (reg & Hreg & Hrows & _ & _ & Hp)]; [exact HP|].
  apply Forall_app in HP. destruct HP as [HP1 HP2].
  rewrite Hrows. apply Forall_app. split.
  - apply Forall_app. split; [exact HP1|].
    constructor; [apply Hreg | constructor].
  - destruct Hp as [-> | (p & Hok & ->)]; [exact HP2|].
    apply Forall_app. split; [exact HP2|].
    constructor; [apply Hok | constructor].
Qed.

Lemma accepted_rows_incl (t : table_name) (rows : list row) (P : row -> Prop) :
  Forall P rows -> Forall P (accepted_rows t rows).
Proof.
  intros H. unfold accepted_rows. induction H as [|r rows Hr _ IH];
    simpl; [constructor|].
  destruct (rejects t r); [exact IH | now constructor].
Qed.

Lemma new_rows_other (t t' : table_name) (rows : list row)
      (db db1 : Database) (P : row -> Prop) :
  table_name_eqb t' t = false ->
  new_rows t db db1 P ->
  new_rows t db (insert_all_or_ignore t' rows db1) P.
Proof.
  intros Ht H r Hr. rewrite tbl_insert_all_or_ignore_other in Hr by exact Ht.
  now apply H.
Qed.

(** The rows that [import_primo] adds to [reg396_commodities] and to
    [primo_commodities] have the [crop_id] of the placeholder crop: the
    first crop named ['Unknown (unmapped)'] that [crops] held before the
    run. *)
Theorem primo_rows_point_to_the_placeholder
        (has_openpyxl : bool) (xlsx : option workbook) (db : Database)
        (dry_run : bool) (primo_version : string) :
  let db' := db_after (import_primo has_openpyxl xlsx db dry_run
                                    primo_version) in
  let to_placeholder := fun r =>
    exists c, find is_placeholder (tbl crops db) = Some c /\
              col c "common_name_en" = VText "Unknown (unmapped)" /\
              col r "crop_id" = col c "crop_id" in
  new_rows reg396_commodities db db' to_placeholder /\
  new_rows primo_commodities db db' to_placeholder.
Proof.
  cbv zeta.
  destruct dry_run;
    [rewrite import_primo_preview; split; apply new_rows_refl|].
  destruct (import_primo_apply has_openpyxl xlsx primo_version) as [ws H].
  destruct (H db) as [-> | ->]; [split; apply new_rows_refl|].
  unfold primo_written.
  destruct (get_or_create_placeholder (connect db)) as [[conn1 id]|] eqn:Hg;
    [|split; apply new_rows_refl].
  destruct (parse_sheet ws id primo_version _) as [parsed|] eqn:Hp;
    [|split; apply new_rows_refl].
  apply get_or_create_placeholder_cases in Hg.
  destruct Hg as (-> & c & Hf & Hid). cbn [working connect] in *.
  assert (Hname : col c "common_name_en" = VText "Unknown (unmapped)").
  { apply find_some in Hf. destruct Hf as [_ Hc].
    now apply sql_eq_text in Hc. }
  unfold parse_sheet in Hp.
  apply parse_loop_crop_id in Hp; [|constructor].
  apply Forall_app in Hp. destruct Hp as [Hreg Hprimo].
  assert (Hto : forall rows,
             Forall (fun r => col r "crop_id" = id) rows ->
             Forall (fun r =>
                       exists c0,
                         find is_placeholder (tbl crops db) = Some c0 /\
                         col c0 "common_name_en" =
                           VText "Unknown (unmapped)" /\
                         col r "crop_id" = col c0 "crop_id")
                    rows).
  { intros rows. apply Forall_impl. intros r Hr. exists c.
    rewrite Hr, Hid. auto. }
  split.
  - apply new_rows_other; [reflexivity|].
    apply new_rows_insert_all; [reflexivity|].
    apply accepted_rows_incl. now apply Hto.
  - apply new_rows_insert_all.
    + now rewrite tbl_insert_all_or_ignore_other by reflexivity.
    + apply accepted_rows_incl. now apply Hto.
Qed.

(** ** The verifier, run again *)

Lemma In_insert_sorted (key : row -> value) (x y : row) (l : list row) :
  In y (insert_sorted key x l) <-> y = x \/ In y l.
Proof.
  induction l as [|a l IH]; simpl.
  - split; [intros [H | []]; auto | intros [H | []]; auto].
  - destruct (value_leb (key a) (key x)); simpl; rewrite ?IH; intuition.
Qed.

Lemma In_order_by (key : row -> value) (l : list row) (y : row) :
  In y (order_by key l) <-> In y l.
Proof.
  unfold order_by.
  assert (H : forall acc,
             In y (fold_left (fun acc x => insert_sorted key x acc) l acc) <->
             In y acc \/ In y l).
  { induction l as [|a l IH]; intros acc; simpl; [tauto|].
    rewrite IH, In_insert_sorted. intuition. }
  rewrite H. simpl. tauto.
Qed.

Lemma In_joined_rows (db : Database) (r : row) :
  In r (joined_rows db) <->
  exists e c,
    In e (tbl eppo_codes db) /\ In c (tbl crops db) /\
    sql_eq (col e "crop_id") (col c "crop_id") = true /\
    r = joined_row e c.
Proof.
  unfold joined_rows. rewrite In_order_by, in_flat_map. split.
  - intros (e & He & Hr). apply in_map_iff in Hr.
    destruct Hr as (c & <- & Hc). apply filter_In in Hc.
    exists e, c. tauto.
  - intros (e & c & He & Hc & Hj & ->). exists e. split; [exact He|].
    apply in_map_iff. exists c. split; [reflexivity|].
    apply filter_In. tauto.
Qed.

Lemma compare_names_cols (api : eppo_api) (i j : nat) (r r2 : row) :
  answers_by_code api ->
  col r "eppo_code" = col r2 "eppo_code" ->
  col r "eppo_name" = col r2 "eppo_name" ->
  col r "eppo_code_id" = col r2 "eppo_code_id" ->
  compare_names api i r = compare_names api j r2.
Proof.
  intros HA Hc Hn Hi. unfold compare_names, get_taxon, get_names.
  rewrite Hc, Hn, Hi.
  destruct (HA i j (col r2 "eppo_code")) as [-> ->]. reflexivity.
Qed.

Lemma api_preferred_name_cols (api : eppo_api) (i j : nat) (r r2 : row) :
  answers_by_code api ->
  col r "eppo_code" = col r2 "eppo_code" ->
  api_preferred_name api i r = api_preferred_name api j r2.
Proof.
  intros HA Hc. unfold api_preferred_name, get_taxon, get_names.
  rewrite Hc.
  destruct (HA i j (col r2 "eppo_code")) as [-> ->]. reflexivity.
Qed.

Lemma queued_cols (api : eppo_api) (i j : nat) (r r2 : row) :
  answers_by_code api ->
  col r "eppo_code" = col r2 "eppo_code" ->
  col r "eppo_name" = col r2 "eppo_name" ->
  col r "eppo_code_id" = col r2 "eppo_code_id" ->
  queued api i r = queued api j r2.
Proof.
  intros HA Hc Hn Hi. unfold queued.
  now rewrite (compare_names_cols i j r r2 HA Hc Hn Hi).
Qed.

Lemma In_queued_all (api : eppo_api) (rows : list row) (u : correction) :
  answers_by_code api ->
  forall i,
    In u (queued_all api i rows) <->
    exists r, In r rows /\ In u (queued api 0 r).
Proof.
  intros HA. induction rows as [|r rows IH]; intros i; simpl.
  - split; [intros [] | intros (r & [] & _)].
  - rewrite in_app_iff, IH.
    rewrite (queued_cols i 0 r r HA eq_refl eq_refl eq_refl).
    split.
    + intros [H | (r0 & Hr0 & H)]; eauto.
    + intros (r0 & [<- | Hr0] & H); eauto.
Qed.

(** A row whose name is the preferred name of the service is not
    queued. *)
Lemma queued_settled (api : eppo_api) (i : nat) (r : row)
      (p : string) (sci : json) :
  api_preferred_name api i r = Some (p, sci) ->
  col r "eppo_name" = VText p ->
  queued api i r = [].
Proof.
  intros Ha Hn.
  destruct (queued api i r) as [|[[p2 sci2] id2] rest] eqn:Hq; [reflexivity|].
  exfalso.
  assert (Hin : In (p2, sci2, id2) (queued api i r))
    by (rewrite Hq; now left).
  apply queued_iff in Hin.
  destruct Hin as (Ha2 & _ & d & Hd & Hdiff & _).
  rewrite Ha in Ha2. inversion Ha2; subst p2 sci2.
  rewrite Hn in Hd. inversion Hd; subst d.
  unfold differs_ignoring_case in Hdiff.
  now rewrite String.eqb_refl in Hdiff.
Qed.

Lemma col_set_col_same (c : string) (v : value) (r : row) :
  col (set_col c v r) c = v.
Proof.
  unfold set_col. destruct (has_col r c) eqn:Hc.
  - induction r as [|[k w] r IH]; [discriminate Hc|].
    cbn [has_col] in Hc. cbn [map fst].
    destruct (String.eqb k c) eqn:Hk.
    + cbn [col fst]. now rewrite Hk.
    + cbn [col]. rewrite Hk. apply IH. exact Hc.
  - induction r as [|[k w] r IH]; cbn [app col].
    + now rewrite String.eqb_refl.
    + cbn [has_col] in Hc. apply orb_false_iff in Hc.
      destruct Hc as [Hk Hc]. rewrite Hk. now apply IH.
Qed.

Lemma rename_cons (u : correction) (updates : list correction) (e : row) :
  rename (u :: updates) e =
  rename updates
         (if eppo_code_id_is (snd u) e
          then set_cols [("eppo_name", VText (fst (fst u)))] e
          else e).
Proof. reflexivity. Qed.

Lemma rename_other (updates : list correction) (k : string) :
  k <> "eppo_name" ->
  forall e, col (rename updates e) k = col e k.
Proof.
  intros Hk. induction updates as [|u updates IH]; intros e; [reflexivity|].
  rewrite rename_cons, IH.
  destruct (eppo_code_id_is (snd u) e); [|reflexivity].
  cbn [set_cols fold_left fst snd]. now apply col_set_col_other.
Qed.

Lemma eppo_code_id_is_step (id : value) (u : correction) (e : row) :
  eppo_code_id_is id
    (if eppo_code_id_is (snd u) e
     then set_cols [("eppo_name", VText (fst (fst u)))] e
     else e) =
  eppo_code_id_is id e.
Proof.
  destruct (eppo_code_id_is (snd u) e); [|reflexivity].
  unfold eppo_code_id_is. cbn [set_cols fold_left fst snd].
  rewrite col_set_col_other; [reflexivity | discriminate].
Qed.

Lemma rename_none (updates : list correction) :
  forall e,
    (forall u, In u updates -> eppo_code_id_is (snd u) e = false) ->
    rename updates e = e.
Proof.
  induction updates as [|u updates IH]; intros e H; [reflexivity|].
  rewrite rename_cons, (H u) by now left.
  apply IH. intros u' Hu'. apply H. now right.
Qed.

Lemma rename_name (updates : list correction) (p : string) :
  forall e,
    (forall u, In u updates -> eppo_code_id_is (snd u) e = true ->
               fst (fst u) = p) ->
    (exists u, In u updates /\ eppo_code_id_is (snd u) e = true) ->
    col (rename updates e) "eppo_name" = VText p.
Proof.
  induction updates as [|u updates IH]; intros e Hall (u0 & Hin & Hm);
    [contradiction|].
  rewrite rename_cons.
  set (e1 := if eppo_code_id_is (snd u) e
             then set_cols [("eppo_name", VText (fst (fst u)))] e
             else e).
  assert (Hsame : forall id, eppo_code_id_is id e1 = eppo_code_id_is id e)
    by (intros id; apply eppo_code_id_is_step).
  destruct (existsb (fun u' : correction => eppo_code_id_is (snd u') e)
                    updates) eqn:Hex.
  - apply existsb_exists in Hex. destruct Hex as (u1 & Hin1 & Hm1).
    apply IH.
    + intros u' Hu' Hm'. rewrite Hsame in Hm'. apply Hall; [now right|auto].
    + exists u1. split; [exact Hin1|]. now rewrite Hsame.
  - assert (Hnone : forall u', In u' updates ->
                               eppo_code_id_is (snd u') e1 = false).
    { intros u' Hu'. rewrite Hsame.
      destruct (eppo_code_id_is (snd u') e) eqn:E; [|reflexivity].
      assert (existsb (fun u' : correction => eppo_code_id_is (snd u') e)
                      updates = true)
        by (apply existsb_exists; eauto).
      congruence. }
    rewrite (rename_none _ _ Hnone).
    destruct Hin as [<- | Hin].
    + unfold e1. rewrite Hm. cbn [set_cols fold_left fst snd].
      rewrite col_set_col_same. f_equal. apply Hall; [now left | exact Hm].
    + exfalso. apply Hnone in Hin. rewrite Hsame in Hin. congruence.
Qed.

Lemma apply_body_eppo (conn conn' : connection) (u : correction) :
  apply_body conn u = Ok conn' ->
  tbl eppo_codes (working conn') =
  map (fun e => if eppo_code_id_is (snd u) e
                then set_cols [("eppo_name", VText (fst (fst u)))] e
                else e)
      (tbl eppo_codes (working conn)).
Proof.
  destruct u as [[new_name new_sci] eppo_id]. unfold apply_body.
  cbn [fst snd].
  destruct (truthy new_sci).
  - destruct (bind_json new_sci); cbn [bind]; [|discriminate].
    intros H. inversion H. cbn [working execute].
    now rewrite !tbl_update.
  - intros H. inversion H. cbn [working execute]. now rewrite tbl_update.
Qed.

Lemma apply_loop_eppo (updates : list correction) :
  forall conn conn',
    for_each apply_body updates conn = Ok conn' ->
    tbl eppo_codes (working conn') =
    map (rename updates) (tbl eppo_codes (working conn)).
Proof.
  induction updates as [|u updates IH]; intros conn conn' H.
  - simpl in H. inversion H. simpl. now rewrite map_id.
  - cbn [for_each] in H.
    destruct (apply_body conn u) as [conn1|] eqn:Hb; [|discriminate].
    rewrite (IH _ _ H), (apply_body_eppo _ _ Hb), map_map.
    apply map_ext. intros e. now rewrite rename_cons.
Qed.

Lemma queued_by_id (api : eppo_api) (db : Database) (e c : row)
      (u : correction) :
  answers_by_code api ->
  eppo_ids_are_keys (tbl eppo_codes db) ->
  In e (tbl eppo_codes db) ->
  In u (queued_all api 0 (joined_rows db)) ->
  eppo_code_id_is (snd u) e = true ->
  In u (queued api 0 (joined_row e c)).
Proof.
  intros HA HK He Hu Hm.
  apply (In_queued_all (joined_rows db) u HA) in Hu.
  destruct Hu as (r2 & Hr2 & Hq).
  apply In_joined_rows in Hr2.
  destruct Hr2 as (e2 & c2 & He2 & _ & _ & ->).
  destruct u as [[p2 sci2] id2].
  assert (Hid : id2 = col e2 "eppo_code_id").
  { apply queued_iff in Hq. destruct Hq as (_ & _ & d & _ & _ & Hid).
    exact Hid. }
  cbn [snd] in Hm. unfold eppo_code_id_is in Hm. rewrite Hid in Hm.
  apply (HK e e2 He He2) in Hm. subst e2.
  rewrite (queued_cols 0 0 (joined_row e c) (joined_row e c2) HA
             eq_refl eq_refl eq_refl).
  exact Hq.
Qed.

(** After the corrections that were queued have been applied, no row of
    the join is queued. *)
Lemma apply_loop_settles (api : eppo_api) (db : Database)
      (conn' : connection) :
  answers_by_code api ->
  eppo_ids_are_keys (tbl eppo_codes db) ->
  for_each apply_body (queued_all api 0 (joined_rows db)) (connect db) =
  Ok conn' ->
  queued_all api 0 (joined_rows (working conn')) = [].
Proof.
  intros HA HK Hloop.
  assert (Heppo := apply_loop_eppo _ _ Hloop).
  cbn [working connect] in Heppo.
  assert (Hframe :=
            @apply_loop_frame (queued_all api 0 (joined_rows db)) db
              (queued_all api 0 (joined_rows db)) (connect db) conn'
              (fun u H => H)
              (only_names_changed_refl _ db) Hloop).
  destruct Hframe as (_ & _ & Hcrops).
  destruct (queued_all api 0 (joined_rows (working conn')))
    as [|u0 rest] eqn:Hq; [reflexivity|].
  exfalso.
  assert (Hin0 : In u0 (queued_all api 0 (joined_rows (working conn'))))
    by (rewrite Hq; now left).
  apply (In_queued_all _ u0 HA) in Hin0.
  destruct Hin0 as (r' & Hr' & Hu0).
  apply In_joined_rows in Hr'.
  destruct Hr' as (e' & c' & He' & Hc' & Hj & ->).
  rewrite Heppo in He'. apply in_map_iff in He'.
  destruct He' as (e & <- & He).
  destruct (@Forall2_In_r _ _ _ _ _ Hcrops Hc') as (c & Hc & Hsame & _).
  assert (Hcid : col c' "crop_id" = col c "crop_id")
    by (apply Hsame; discriminate).
  rewrite rename_other in Hj by discriminate. rewrite Hcid in Hj.
  set (U := queued_all api 0 (joined_rows db)) in *.
  assert (Hcode : col (joined_row (rename U e) c') "eppo_code" =
                  col (joined_row e c) "eppo_code").
  { cbn. apply rename_other. discriminate. }
  assert (Hid : col (joined_row (rename U e) c') "eppo_code_id" =
                col (joined_row e c) "eppo_code_id").
  { cbn. apply rename_other. discriminate. }
  assert (Hby : forall u, In u U -> eppo_code_id_is (snd u) e = true ->
                          In u (queued api 0 (joined_row e c))).
  { intros u Hu Hm. now apply (@queued_by_id api db e c u). }
  destruct (queued api 0 (joined_row e c)) as [|[[p sci] id] others] eqn:Hqe.
  - assert (Hnone : rename U e = e).
    { apply rename_none. intros u Hu.
      destruct (eppo_code_id_is (snd u) e) eqn:Hm; [|reflexivity].
      destruct (Hby u Hu Hm). }
    rewrite Hnone in Hu0.
    rewrite (queued_cols 0 0 (joined_row e c') (joined_row e c) HA
               eq_refl eq_refl eq_refl), Hqe in Hu0.
    destruct Hu0.
  - assert (Hfirst : In (p, sci, id) (queued api 0 (joined_row e c)))
      by (rewrite Hqe; now left).
    assert (Hfirst' := Hfirst).
    apply queued_iff in Hfirst'.
    destruct Hfirst' as (Hpn & _ & d & _ & _ & Hidp).
    assert (Hname : col (rename U e) "eppo_name" = VText p).
    { apply rename_name.
      - intros [[p2 sci2] id2] Hu Hm. cbn [fst].
        apply Hby in Hm; [|exact Hu]. rewrite <- Hqe in Hm.
        apply queued_iff in Hm. destruct Hm as (Hpn2 & _).
        congruence.
      - exists (p, sci, id). split.
        + apply (In_queued_all (joined_rows db) (p, sci, id) HA).
          exists (joined_row e c). split; [|exact Hfirst].
          apply In_joined_rows. exists e, c. auto.
        + cbn [snd]. unfold eppo_code_id_is. rewrite Hidp.
          change (col (joined_row e c) "eppo_code_id")
            with (col e "eppo_code_id").
          now apply (HK e e He He). }
    rewrite (@queued_settled api 0 (joined_row (rename U e) c') p sci)
      in Hu0.
    + destruct Hu0.
    + rewrite <- Hpn. now apply api_preferred_name_cols.
    + exact Hname.
Qed.

(** When the service answers by the code alone and [eppo_code_id] is a key
    of [eppo_codes], a run with [--apply] that returns leaves a database on
    which the verifier queues no correction: a second run, preview or
    [--apply], changes nothing. *)
Theorem verifier_queues_nothing_after_apply
        (api : eppo_api) (db db' : Database) (out : list event) :
  answers_by_code api ->
  eppo_ids_are_keys (tbl eppo_codes db) ->
  verify_codes true api db false = Returned db' out ->
  queued_all api 0 (joined_rows db') = [] /\
  forall dry_run,
    exists out', verify_codes true api db' dry_run = Returned db' out'.
Proof.
  intros HA HK Hrun.
  assert (Hnone : queued_all api 0 (joined_rows db') = []).
  { unfold verify_codes in Hrun. cbn [negb] in Hrun.
    destruct (for_each_total (check_body api) (check_body_total api)
                (joined_rows (working (connect db)))
                {| v_index := O; v_issues := []; v_updates := [];
                   v_out := [] |}) as [st Hloop].
    rewrite Hloop in Hrun.
    apply check_loop_updates in Hloop.
    cbn [v_updates v_index app working connect] in Hloop.
    destruct (v_updates st) as [|u us] eqn:Hu.
    - inversion Hrun; subst. unfold close. cbn [connect committed].
      now rewrite <- Hloop.
    - rewrite Hloop in Hrun.
      destruct (for_each apply_body _ (connect db)) as [conn'|] eqn:Ha;
        [|discriminate].
      inversion Hrun; subst. unfold close, commit. cbn [committed].
      now apply (@apply_loop_settles api db conn'). }
  split; [exact Hnone|].
  intros dry_run. unfold verify_codes. cbn [negb].
  destruct (for_each_total (check_body api) (check_body_total api)
              (joined_rows (working (connect db')))
              {| v_index := O; v_issues := []; v_updates := [];
                 v_out := [] |}) as [st Hloop].
  rewrite Hloop.
  apply check_loop_updates in Hloop.
  cbn [v_updates v_index app working connect] in Hloop.
  rewrite Hnone in Hloop. rewrite Hloop.
  unfold close. cbn [connect committed]. eauto.
Qed.

(** ** What the verifier queues, in the words of the specification *)











End Idempotence.

End Properties.

(* ================================================================== *)
(** * The properties on examples *)
(* ================================================================== *)

Lemma interception_counts_and_upserts_witness :
  bindable_table filled_table /\
  accepted focus_crop_interception
           (interception_rows (tbl focus_crops sample_db) filled_table) /\
  exists st out,
    interception_loop filled_table (connect sample_db) false = Ok st /\
    icpt_stubbed st = matched_stubs (tbl focus_crops sample_db) filled_table /\
    icpt_skipped st =
      unmatched_crops (tbl focus_crops sample_db) filled_table /\
    icpt_inserted st =
      Z.of_nat (List.length
                  (interception_rows (tbl focus_crops sample_db)
                                     filled_table)) /\
    import_interception_with filled_table sample_db false =
      Returned (upsert_all focus_crop_interception
                  (interception_rows (tbl focus_crops sample_db) filled_table)
                  sample_db)
               out.
Proof.
  assert (Hb : bindable_table filled_table).
  { repeat constructor; unfold fits_int64; simpl; lia. }
  assert (Ha : accepted focus_crop_interception
                 (interception_rows (tbl focus_crops sample_db) filled_table)).
  { repeat constructor. }
  split; [exact Hb|]. split; [exact Ha|].
  exact (@interception_counts_and_upserts WholeFloats WholeFloat KeyedSchema
           filled_table sample_db false Hb Ha).
Defined.

(** C8 as it is stated fails: the table that the repository ships has 73
    entries without a percentage; on a database that knows two of its nine
    crops, the run counts 20 stubs and 7 crops not found, because the
    entries of a crop that is not found are never looked at. *)
Lemma interception_stubs_of_unmatched_crops_not_counted :
  all_stubs INTERCEPTION_DATA = 73 /\
  (st <- interception_loop INTERCEPTION_DATA (connect sample_db) true ;;
   Ok (icpt_stubbed st, icpt_skipped st)) = Ok (20, 7).
Proof. split; reflexivity. Qed.

(** C6 as it is stated fails: with no characteristics file, [main] of
    the FOCUS importer does not stop; it prints that it skips the file,
    imports the irrigation records, and commits. *)
Lemma focus_main_goes_on_without_characteristics_file :
  focus_main (Some sample_db) None (Some sample_irrigation) true =
  Ran (Returned
         (upsert_all focus_crop_scenario_irrigation
            [[("focus_crop_id", VInt 10); ("scenario_id", VInt 1);
              ("irrigation_mm_annual", VReal 120);
              ("source_reference", VText SOURCE_REF)]]
            sample_db)
         [print "Skip characteristics: {args.char_json} not found" [];
          print "focus_crop_scenario_irrigation: {inserted} rows {'would be ' if dry_run else ''}upserted"
                [AInt 1; ABool false]]).
Proof. reflexivity. Qed.

Lemma unmatched_record_is_skipped_witness :
  for_each (char_body true) [scenario_X9; scenario_D1] char_start =
  for_each (char_body true) [scenario_D1]
    {| char_conn := connect sample_db; char_updated := 0;
       char_out :=
         [print "  Skip scenario {code}: not found in focus_scenarios (surface water)"
                [AStr "X9"]] |}
  /\ for_each (irr_body false) [irrigation_X9] irr_start =
     Ok {| irr_conn := connect sample_db; irr_inserted := 0;
           irr_skipped := [("X9", "Maize")]; irr_out := [] |}
  /\ for_each (links_row_body false) [links_quinoa] links_start =
     Ok {| links_conn := connect sample_db; links_inserted := 0;
           links_skipped := [("Quinoa", None)] |}
  /\ for_each (link_body false "Maize" (VInt 10)) [JStr " X9"] links_start =
     Ok {| links_conn := connect sample_db; links_inserted := 0;
           links_skipped := [("Maize", Some " X9")] |}
  /\ for_each (crop_body false) [("Grass", stubs [0])] icpt_start =
     Ok {| icpt_conn := connect sample_db; icpt_inserted := 0;
           icpt_stubbed := 0; icpt_skipped := 1;
           icpt_out :=
             [print "  WARNING: '{crop_name}' not found in focus_crops - skipping"
                    [AStr "Grass"]] |}
  /\ for_each (swash_crop_body false) [crop_row_unknown] swash_crops_start =
     Ok {| sc_conn := connect sample_db; sc_updated_crops := 0;
           sc_skipped_crops := ["Quinoa"] |}
  /\ for_each (swash_link_body false) [link_row_unknown] swash_links_start =
     Ok {| sl_conn := connect sample_db; sl_inserted := 0;
           sl_skipped := [("Quinoa", "D1")] |}.
Proof.
  destruct (@unmatched_record_is_skipped WholeFloats WholeFloat KeyedSchema)
    as (H1 & H2 & H3 & H4 & H5 & H6 & H7).
  split; [|split; [|split; [|split; [|split; [|split]]]]].
  - apply (H1 true char_start scenario_X9 [scenario_D1] "X9"); reflexivity.
  - apply (H2 false irr_start irrigation_X9 [] (JInt 80) "X9" "Maize");
      try reflexivity.
    left. reflexivity.
  - apply (H3 false links_start links_quinoa [] (JStr "D1, R1") "Quinoa");
      reflexivity.
  - apply (H4 false "Maize" (VInt 10) links_start " X9" []); reflexivity.
  - apply (H5 false icpt_start "Grass" (stubs [0]) []); reflexivity.
  - apply (H6 false swash_crops_start crop_row_unknown [] "Quinoa");
      reflexivity.
  - apply (H7 false swash_links_start link_row_unknown [] "Quinoa" "D1"
              "ditch" 1); try reflexivity.
    left. reflexivity.
Defined.

(** C4 as it is stated fails: [import_characteristics] does not count
    the record whose scenario is not found.  Its only tally is [updated],
    and its summary line is the same with and without the record; the
    record leaves a printed line and nothing else. *)
Lemma import_characteristics_keeps_no_tally_of_skipped :
  import_characteristics
    (Some (characteristics_of [scenario_X9; scenario_D1])) sample_db true =
  Returned sample_db
    [print "  Skip scenario {code}: not found in focus_scenarios (surface water)"
           [AStr "X9"];
     print "focus_sw_scenario_characteristics: {updated} rows {'would be ' if dry_run else ''}upserted"
           [AInt 1; ABool true]]
  /\ import_characteristics
       (Some (characteristics_of [scenario_D1])) sample_db true =
     Returned sample_db
       [print "focus_sw_scenario_characteristics: {updated} rows {'would be ' if dry_run else ''}upserted"
              [AInt 1; ABool true]].
Proof. split; reflexivity. Qed.

Lemma per_item_failures_witness :
  for_each (check_body sample_api) [row_TRZAX; row_ZEAMX] verify_start =
  for_each (check_body sample_api) [row_ZEAMX]
    {| v_index := 1;
       v_issues :=
         [(VText "TRZAX",
           print "{e}" [AExn (RequestError "404 Client Error")])];
       v_updates := [];
       v_out :=
         [print "Checking {code} ({row['common_name_en']})..."
                [AVal (VText "TRZAX"); AVal (VText "Wheat")];
          print "ERROR: {e}" [AExn (RequestError "404 Client Error")]] |}
  /\ for_each (insert_body reg396_commodities
                 "  reg396 skip {r['annex1_code']}: {e}" reg396_label)
              [deleted_commodity] primo_start =
     Ok {| pi_conn := connect sample_db; pi_inserted := 0; pi_skipped := 1;
           pi_out :=
             [print "  reg396 skip {r['annex1_code']}: {e}"
                    [AVal (VText "0110010");
                     AExn (DatabaseError "commodity was deleted")]] |}
  /\ for_each (swash_crop_body false) [crop_row_unknown] swash_crops_start =
     Ok {| sc_conn := connect sample_db; sc_updated_crops := 0;
           sc_skipped_crops := ["Quinoa"] |}
  /\ for_each (swash_link_body false) [link_row_unknown] swash_links_start =
     Ok {| sl_conn := connect sample_db; sl_inserted := 0;
           sl_skipped := [("Quinoa", "D1")] |}
  /\ import_from_csv (Some [crop_row_malformed; crop_row_well_formed])
                     (Some []) sample_db true =
     Crashed sample_db ValueError.
Proof.
  destruct (@per_item_failures WholeFloats WholeFloat KeyedSchema)
    as (_ & H2 & _ & H4 & H5 & H6 & H7).
  split; [|split; [|split; [|split]]].
  - apply (H2 sample_api verify_start row_TRZAX [row_ZEAMX]
              (RequestError "404 Client Error")). reflexivity.
  - apply (H4 reg396_commodities "  reg396 skip {r['annex1_code']}: {e}"
              reg396_label primo_start deleted_commodity []
              "commodity was deleted"). reflexivity.
  - apply (H5 false swash_crops_start crop_row_unknown [] "Quinoa");
      reflexivity.
  - apply (H6 false swash_links_start link_row_unknown [] "Quinoa" "D1"
              "ditch" 1); try reflexivity.
    left. reflexivity.
  - apply (H7 true sample_db crop_row_malformed [crop_row_well_formed] []
              "Maize"
              [("focus_crop_id", VInt 10); ("swash_crop_name", VText "Maize")]
              ValueError); reflexivity.
Defined.

(** C5 as it is stated fails: a value of [crop.csv] that is not a number
    is not caught.  [int("abc")] raises [ValueError], the run ends there,
    the row after it is never processed and nothing is committed, although
    that row alone would have updated its crop. *)
Lemma malformed_number_aborts_import_from_csv :
  import_from_csv (Some [crop_row_malformed; crop_row_well_formed])
                  (Some []) sample_db false =
  Crashed sample_db ValueError
  /\ tbl focus_crops
         (db_after (import_from_csv (Some [crop_row_well_formed]) (Some [])
                                    sample_db false)) =
     [[("focus_crop_id", VInt 10); ("swash_crop_name", VText "Maize")];
      [("focus_crop_id", VInt 11); ("swash_crop_name", VText "Winter cereals");
       ("bbch_sowing_min", VInt 9)]].
Proof. split; reflexivity. Qed.

(** On [sample_db], [sample_api] gives nothing to correct: the request
    for [TRZAX] fails, and "maize" is the stored "Maize". *)
Example verifier_ignores_case :
  queued_all sample_api 0 (joined_rows sample_db) = [].
Proof. reflexivity. Qed.

(** With [corn_api] both names are corrected, and the scientific name is
    written on the crop that had none; "Zea mays" is kept. *)
Example verifier_applies_corrections :
  let db := db_after (verify_codes true corn_api sample_db false) in
  map (fun r => col r "eppo_name") (tbl eppo_codes db) =
    [VText "CORN"; VText "CORN"]
  /\ map (fun r => col r "scientific_name") (tbl crops db) =
     [VText "Zea mays L."; VText "Zea mays"]
  /\ db_after (verify_codes true corn_api sample_db true) = sample_db.
Proof. repeat split. Qed.



(** The JSON importer of the links, run twice on the sample database:
    the table has the two rows of the first run. *)
Example import_links_twice_on_sample :
  let once := db_after (import_links (Some links_maize) sample_db false) in
  let twice := db_after (import_links (Some links_maize) once false) in
  (List.length (tbl focus_crop_scenario_links once),
   List.length (tbl focus_crop_scenario_links twice)) = (2%nat, 2%nat).
Proof. reflexivity. Qed.

(** It is the unique key of the table that makes the second run add
    nothing: on a table without one the rows are there twice. *)
Example import_links_twice_without_a_key :
  let run := fun db =>
    db_after (@import_links WholeFloats WholeFloat NoKeys (Some links_maize)
                            db false) in
  (List.length (tbl focus_crop_scenario_links (run sample_db)),
   List.length (tbl focus_crop_scenario_links (run (run sample_db)))) =
  (2%nat, 4%nat).
Proof. reflexivity. Qed.

(** ** The further properties on examples *)

Lemma parent_of_subgroup_is_a_group_witness :
  parse_hierarchy_level (PyStr "0110100") = Some 2 /\
  exists p,
    parent_code (PyStr "0110100") = Some p /\
    seven_digits p /\
    parse_hierarchy_level (PyStr p) = Some 1 /\
    Str.slice_to 4 p = Str.slice_to 4 "0110100".
Proof.
  split; [reflexivity|].
  exact (@parent_of_subgroup_is_a_group "0110100" eq_refl).
Defined.

Lemma parent_code_has_no_parent_witness :
  parent_code (PyStr "0110010") = Some "01100000" /\
  parent_code (PyStr "01100000") = None /\ "01100000" <> "0110010".
Proof.
  split; [reflexivity|].
  exact (@parent_code_has_no_parent (PyStr "0110010") "01100000" eq_refl).
Defined.

Lemma parsed_reg396_rows_are_well_formed_witness :
  exists parsed,
    parse_sheet sample_sheet (VInt 3) "Rev 3.1" [] = Ok parsed /\
    List.length (reg396_rows parsed) = 2%nat /\
    Forall (reg396_row_ok (VInt 3)) (reg396_rows parsed).
Proof.
  eexists. split; [reflexivity|]. split; [reflexivity|].
  exact (@parsed_reg396_rows_are_well_formed WholeFloats WholeFloat
           sample_sheet (VInt 3) "Rev 3.1" [] _ eq_refl).
Defined.

Lemma every_primo_row_has_its_reg396_row_witness :
  exists parsed p,
    parse_sheet sample_sheet (VInt 3) "Rev 3.1" [] = Ok parsed /\
    In p (primo_rows parsed) /\
    exists reg, In reg (reg396_rows parsed) /\
                primo_row_ok (VInt 3) "Rev 3.1" reg p.
Proof.
  eexists. eexists. split; [reflexivity|].
  assert (Hin : In [("crop_id", VInt 3); ("primo_version", VText "Rev 3.1");
                    ("primo_code", VText "0110010");
                    ("primo_name", VText "Grapefruit");
                    ("unit_weight_g", @VReal WholeFloats 160)]
                   (primo_rows
                      {| reg396_rows :=
                           [[("crop_id", VInt 3);
                             ("annex1_code", VText "0110000");
                             ("annex1_name", VText "Citrus fruits");
                             ("hierarchy_level", VInt 1);
                             ("parent_annex1_code", VNull);
                             ("regulation_version", VText REGULATION_VERSION)];
                            [("crop_id", VInt 3);
                             ("annex1_code", VText "0110010");
                             ("annex1_name", VText "Grapefruits");
                             ("hierarchy_level", VInt 3);
                             ("parent_annex1_code", VText "01100000");
                             ("regulation_version", VText REGULATION_VERSION)]];
                         primo_rows :=
                           [[("crop_id", VInt 3);
                             ("primo_version", VText "Rev 3.1");
                             ("primo_code", VText "0110010");
                             ("primo_name", VText "Grapefruit");
                             ("unit_weight_g", VReal 160)]];
                         preview_count := 2;
                         parse_out :=
                           [print "  Preview row {i}: code={annex1_code} name={annex1_name[:40]} primo={primo_name[:30]} L{hlevel}"
                                  [AInt 0; AStr "0110000";
                                   AStr "Citrus fruits"; AStr EmptyString;
                                   AInt 1];
                            print "  Preview row {i}: code={annex1_code} name={annex1_name[:40]} primo={primo_name[:30]} L{hlevel}"
                                  [AInt 1; AStr "0110010";
                                   AStr "Grapefruits"; AStr "Grapefruit";
                                   AInt 3]] |})).
  { left. reflexivity. }
  split; [exact Hin|].
  exact (@every_primo_row_has_its_reg396_row WholeFloats WholeFloat
           sample_sheet (VInt 3) "Rev 3.1" [] _ eq_refl _ Hin).
Defined.

Lemma parse_sheet_counts_witness :
  exists parsed,
    parse_sheet sample_sheet (VInt 3) "Rev 3.1" [] = Ok parsed /\
    (List.length (primo_rows parsed) <= List.length (reg396_rows parsed)
     <= List.length sample_sheet - 3)%nat /\
    preview_count parsed =
      Z.min 10 (Z.of_nat (List.length (reg396_rows parsed))) /\
    List.length (parse_out parsed) =
      (0 + Nat.min 10 (List.length (reg396_rows parsed)))%nat.
Proof.
  eexists. split; [reflexivity|].
  exact (@parse_sheet_counts WholeFloats WholeFloat
           sample_sheet (VInt 3) "Rev 3.1" [] _ eq_refl).
Defined.


Lemma importers_write_only_their_tables_witness :
  table_name_eqb focus_crop_scenario_links focus_crops = false /\
  tbl focus_crops (db_after (import_links (Some links_maize) sample_db false))
  = tbl focus_crops sample_db.
Proof.
  split; [reflexivity|].
  exact (proj1 (proj2 (proj2 (proj2
           (@importers_write_only_their_tables WholeFloats WholeFloat
              KeyedSchema sample_db false))))
           (Some links_maize) focus_crops eq_refl).
Defined.

Lemma focus_main_keeps_characteristics_when_irrigation_fails_witness :
  exists db1 out1,
    import_characteristics (Some (characteristics_of [scenario_D1]))
                           sample_db false = Returned db1 out1 /\
    returned (import_irrigation (Some irrigation_without_array) db1 false)
    = None /\
    db1 <> sample_db /\
    exists o,
      focus_main (Some sample_db) (Some (characteristics_of [scenario_D1]))
                 (Some irrigation_without_array) true = Ran o /\
      returned o = None /\ db_after o = db1.
Proof.
  eexists. eexists. split; [reflexivity|]. split; [reflexivity|].
  split; [discriminate|].
  exact (@focus_main_keeps_characteristics_when_irrigation_fails
           WholeFloats WholeFloat KeyedSchema
           (characteristics_of [scenario_D1]) irrigation_without_array
           sample_db _ _ eq_refl eq_refl).
Defined.

Lemma characteristics_report_counts_the_upserts_witness :
  exists db' out,
    import_characteristics
      (Some (characteristics_of [scenario_X9; scenario_D1])) sample_db false
    = Returned db' out /\
    exists db'',
      import_characteristics
        (Some (characteristics_of [scenario_X9; scenario_D1])) db' false
      = Returned db'' out.
Proof.
  eexists. eexists. split; [reflexivity|].
  destruct (@characteristics_report_counts_the_upserts
              WholeFloats WholeFloat KeyedSchema
              (Some (characteristics_of [scenario_X9; scenario_D1]))
              sample_db _ _ eq_refl)
    as (rows & pre & _ & _ & _ & H).
  exact H.
Defined.

Lemma irrigation_report_counts_the_upserts_witness :
  exists db' out,
    import_irrigation (Some sample_irrigation) sample_db false
    = Returned db' out /\
    exists db'',
      import_irrigation (Some sample_irrigation) db' false
      = Returned db'' out.
Proof.
  eexists. eexists. split; [reflexivity|].
  destruct (@irrigation_report_counts_the_upserts
              WholeFloats WholeFloat KeyedSchema
              (Some sample_irrigation) sample_db _ _ eq_refl)
    as (rows & pre & post & _ & _ & _ & H).
  exact H.
Defined.

Lemma links_report_counts_the_statements_witness :
  exists db' out,
    import_links (Some links_maize) sample_db false = Returned db' out /\
    exists db'',
      import_links (Some links_maize) db' false = Returned db'' out.
Proof.
  eexists. eexists. split; [reflexivity|].
  destruct (@links_report_counts_the_statements
              WholeFloats WholeFloat KeyedSchema
              (Some links_maize) sample_db _ _ eq_refl)
    as (rows & st & _ & _ & _ & _ & H).
  exact H.
Defined.

Lemma swash_report_counts_the_statements_witness :
  exists db' out,
    import_from_csv (Some [crop_row_well_formed]) (Some [link_row_maize])
                    sample_db true = Returned db' out /\
    exists s1 s2,
      out = swash_report [crop_row_well_formed] [link_row_maize] s1 s2 true /\
      sc_updated_crops s1 = 0 /\ sl_inserted s2 = 0.
Proof.
  eexists. eexists. split; [reflexivity|].
  destruct (@swash_report_counts_the_statements
              WholeFloats WholeFloat KeyedSchema
              [crop_row_well_formed] [link_row_maize] sample_db _ true _
              eq_refl)
    as (s1 & s2 & updates & rows & Hout & _ & Hu & Hi & Hnil).
  destruct (Hnil eq_refl) as [-> ->].
  exists s1, s2. split; [exact Hout|]. split; [exact Hu | exact Hi].
Defined.

Lemma find_pref_name_is_the_first_preferred_witness :
  Forall (fun m : @json WholeFloats =>
            is_dict m = true /\ preferred_en m = false) names_of_maize /\
  find_pref_name
    (names_of_maize ++
     JObj [("langiso", JStr "en"); ("preferred", JBool true);
           ("fullname", JStr "maize")] :: [JStr "not an object"])
  = Ok (JStr "maize").
Proof.
  assert (H : Forall (fun m : @json WholeFloats =>
                        is_dict m = true /\ preferred_en m = false)
                     names_of_maize).
  { repeat constructor. }
  split; [exact H|].
  exact (proj1 (@find_pref_name_is_the_first_preferred WholeFloats WholeFloat
                  names_of_maize [JStr "not an object"]
                  (JObj [("langiso", JStr "en"); ("preferred", JBool true);
                         ("fullname", JStr "maize")]) H) eq_refl).
Defined.

Lemma verifier_returns_unless_a_name_cannot_be_bound_witness :
  Forall bindable_name (queued_all corn_api 0 (joined_rows sample_db)) /\
  exists db' out, verify_codes true corn_api sample_db false = Returned db' out.
Proof.
  assert (H : Forall bindable_name
                     (queued_all corn_api 0 (joined_rows sample_db))).
  { repeat constructor; intros _; eexists; reflexivity. }
  split; [exact H|].
  exact (@verifier_returns_unless_a_name_cannot_be_bound
           WholeFloats WholeFloat true corn_api sample_db false
           (or_intror H)).
Defined.

Lemma split_scenarios_reads_clean_codes_witness :
  Forall clean_code ["D1"; "D2"; "R1"] /\
  @split_scenarios WholeFloats "D1, D2, R1" = [JStr "D1"; JStr "D2"; JStr "R1"].
Proof.
  assert (H : Forall clean_code ["D1"; "D2"; "R1"]).
  { repeat constructor; discriminate. }
  split; [exact H|].
  exact (proj2 (@split_scenarios_reads_clean_codes WholeFloats) _ H).
Defined.

Lemma verifier_queues_nothing_after_apply_witness :
  answers_by_code corn_api /\
  eppo_ids_are_keys (tbl eppo_codes sample_db) /\
  exists db' out,
    verify_codes true corn_api sample_db false = Returned db' out /\
    db' <> sample_db /\
    queued_all corn_api 0 (joined_rows db') = [].
Proof.
  assert (HA : answers_by_code corn_api) by (intros i j code; split; reflexivity).
  assert (HK : eppo_ids_are_keys (tbl eppo_codes sample_db)).
  { intros e1 e2 [<- | [<- | []]] [<- | [<- | []]]; cbn;
      split; intros H; try reflexivity; discriminate H. }
  split; [exact HA|]. split; [exact HK|].
  eexists. eexists. split; [reflexivity|].
  split; [discriminate|].
  exact (proj1 (@verifier_queues_nothing_after_apply
                  WholeFloats WholeFloat corn_api sample_db _ _
                  HA HK eq_refl)).
Defined.


